(** * Smart Search: the query interpretation and response pipeline

    A shallow embedding of [backend/services/query_processor.py], of the
    queries, the aggregation and the document fetch of
    [backend/services/database_service.py], of the classification model
    of [backend/models/schemas.py] and of the endpoint of [main.py], with
    the properties of the specification stated over it, and further
    properties of the code after them.

    Conventions.
    - A Python [str] is a [string]; [x in s] on strings is [py_in].
      [str.lower] and the word class [\w] of [re] are parameters of the
      classifier ([lower], [word_char]); [lower_ascii] and [word_ascii] are
      what they do on ASCII text, and are used for the concrete questions.
    - A Python [dict] with string keys is a [gmap string _], a [set] a [gset].
    - An [int] is a [Z]. A [float] is the rational it denotes, a [Q]; an
      operation on floats returns the float nearest to the exact result
      ([binary64]).
    - A call returns a value or raises ([result]). Code that reads the
      clock, queries the store or prints runs in the monad [Py]: a state
      over the [World] with exceptions. The queries of the store
      ([get_symptom_data], [get_reaction_time_data]) and the object store
      are taken from the world. *)

From Stdlib Require Import ZArith QArith Qabs Qpower String Ascii List Lia
  DecimalString DecimalPos DecimalN DecimalNat Lqa.
From stdpp Require Import gmap strings list fin_maps.

Open Scope string_scope.

#[local] Arguments String.append !_ _ / : simpl nomatch.

(** ** Strings *)

(** [s.startswith(p)] *)
Fixpoint startswith (p s : string) : bool :=
  match p with
  | "" => true
  | String a p' =>
      match s with
      | "" => false
      | String b s' => Ascii.eqb a b && startswith p' s'
      end
  end.

(** [needle in hay] *)
Fixpoint py_in (needle hay : string) : bool :=
  startswith needle hay ||
  match hay with
  | "" => false
  | String _ rest => py_in needle rest
  end.

(** [any(k in s for k in keywords)] *)
Definition any_in (keywords : list string) (s : string) : bool :=
  existsb (fun k => py_in k s) keywords.

Definition in_range (lo hi : N) (c : ascii) : bool :=
  ((lo <=? N_of_ascii c) && (N_of_ascii c <=? hi))%N.

(** the classes [[A-Z]], [[a-z]] and the ASCII digits *)
Definition is_upper : ascii -> bool := in_range 65 90.
Definition is_lower : ascii -> bool := in_range 97 122.
Definition is_digit : ascii -> bool := in_range 48 57.

(** [str.lower] on ASCII text: the capitals move to the small letters. *)
Definition lower_char (c : ascii) : ascii :=
  if is_upper c then ascii_of_N (N_of_ascii c + 32) else c.

Fixpoint lower_ascii (s : string) : string :=
  match s with
  | "" => ""
  | String c rest => String (lower_char c) (lower_ascii rest)
  end.

(** [\w] on ASCII text: letters, digits and the underscore. *)
Definition word_ascii (c : ascii) : bool :=
  is_upper c || is_lower c || is_digit c || Ascii.eqb c "_".

Definition head (s : string) : option ascii :=
  match s with
  | "" => None
  | String c _ => Some c
  end.

Fixpoint last_char (s : string) : option ascii :=
  match s with
  | "" => None
  | String c "" => Some c
  | String _ rest => last_char rest
  end.

Fixpoint string_drop (n : nat) (s : string) : string :=
  match n, s with
  | O, _ => s
  | S n', String _ rest => string_drop n' rest
  | S _, "" => ""
  end.

(** [sep.join(parts)] *)
Fixpoint join (sep : string) (parts : list string) : string :=
  match parts with
  | [] => ""
  | [p] => p
  | p :: rest => p ++ sep ++ join sep rest
  end.

(** ** Regular expressions, as [re] runs them

    A pattern is a matcher in continuation style: it consumes a prefix of
    the text and hands the rest to its continuation; when the continuation
    fails the matcher tries its next choice, as the backtracking engine
    does. *)
Module Re.
Section Matchers.
Variable word_char : ascii -> bool.
Context {A : Type}.

Definition is_word (c : option ascii) : bool :=
  match c with
  | Some c => word_char c
  | None => false
  end.

(** [\b] between the character before a position and the one at it *)
Definition word_boundary (prev next : option ascii) : bool :=
  xorb (is_word prev) (is_word next).

(** a literal *)
Definition lit (l s : string) (k : string -> option A) : option A :=
  if startswith l s then k (string_drop (String.length l) s) else None.

(** one character of a class *)
Definition cls (p : ascii -> bool) (s : string)
    (k : ascii -> string -> option A) : option A :=
  match s with
  | String c rest => if p c then k c rest else None
  | "" => None
  end.

(** [p*], greedy: the longest run first, then shorter ones *)
Fixpoint star (p : ascii -> bool) (taken s : string)
    (k : string -> string -> option A) : option A :=
  match s with
  | String c rest =>
      if p c then
        match star p (taken ++ String c "") rest k with
        | Some r => Some r
        | None => k taken s
        end
      else k taken s
  | "" => k taken s
  end.

(** [p+] *)
Definition plus (p : ascii -> bool) (s : string)
    (k : string -> string -> option A) : option A :=
  cls p s (fun c rest => star p (String c "") rest k).

(** [p{1,2}], greedy *)
Definition one_or_two (p : ascii -> bool) (s : string)
    (k : string -> string -> option A) : option A :=
  cls p s (fun a rest =>
    match cls p rest (fun b rest' => k (String a (String b "")) rest') with
    | Some r => Some r
    | None => k (String a "") rest
    end).

(** [p{4}] *)
Definition four (p : ascii -> bool) (s : string)
    (k : string -> string -> option A) : option A :=
  cls p s (fun a s1 => cls p s1 (fun b s2 => cls p s2 (fun c s3 =>
  cls p s3 (fun d s4 =>
    k (String a (String b (String c (String d "")))) s4)))).

(** [a|b] followed by the rest of the pattern, which sits in [a] and [b] *)
Definition orelse (a b : option A) : option A :=
  match a with
  | Some r => Some r
  | None => b
  end.

(** [re.findall]: the matches from left to right, not overlapping.
    [m prev s] tries the pattern where the text [s] starts, [prev] being
    the character before; it answers the captured value and the length
    of the match. No pattern here matches the empty string. *)
Fixpoint scan (m : option ascii -> string -> option (A * nat))
    (skip : nat) (prev : option ascii) (s : string) : list A :=
  match s with
  | "" => []
  | String c rest =>
      match skip with
      | S n => scan m n (Some c) rest
      | O =>
          match m prev s with
          | Some (g, len) => g :: scan m (Nat.pred len) (Some c) rest
          | None => scan m 0 (Some c) rest
          end
      end
  end.

Definition findall (m : option ascii -> string -> option (A * nat))
    (s : string) : list A :=
  scan m 0 None s.
End Matchers.
End Re.

(** ** Exceptions *)

(** [Error] is an instance of [Exception]; [Interrupt] is a
    [BaseException] that is not one ([KeyboardInterrupt], [SystemExit]). *)
Inductive exc :=
  | Error (cls msg : string)
  | Interrupt (cls : string).

(** what a call does: it returns a value or raises *)
Inductive result (A : Type) :=
  | Ok (a : A)
  | Raise (e : exc).

Arguments Ok {A} a.
Arguments Raise {A} e.

(** ** Data model ([backend/models/schemas.py]) *)

Inductive AssessmentType :=
  | SYMPTOM_CHECKLIST
  | REACTION_TIME
  | BASELINE
  | POST_INJURY.

#[global] Instance AssessmentType_eq_dec : EqDecision AssessmentType.
Proof. solve_decision. Defined.

(** the values of the [filters] dictionary: a team name or a threshold *)
Inductive filter_value :=
  | FStr (s : string)
  | FInt (n : Z).

(** the [time_range] dictionary: [{"period": p}] or
    [{"custom_dates": dates}], the dates as [re.findall] gives them, one
    (month, day, year) triple of strings for each match *)
Inductive TimeRange :=
  | Period (p : string)
  | CustomDates (dates : list (string * string * string)).

Record QueryClassification := {
  intent : string;
  modules : list AssessmentType;
  metrics : list string;
  filters : gmap string filter_value;
  time_range : option TimeRange;
  confidence : Q
}.

(** the [ValidationError] that pydantic raises. Its message goes on, after
    the line kept here, with the field and the value that were refused. *)
Definition validation_error : exc :=
  Error "ValidationError" "1 validation error for QueryClassification".

(** [QueryClassification(...)]: pydantic checks the values against the
    declared fields. [time_range] is declared [Optional[Dict[str, str]]]:
    [None] and the dictionary of a period pass; the dictionary of custom
    dates, whose value is a list of tuples and not a [str], is refused.
    [confidence] is declared with [ge=0] and [le=1]. The other fields hold
    values of their declared types. *)
Definition QueryClassification_init (intent : string)
    (modules : list AssessmentType) (metrics : list string)
    (filters : gmap string filter_value) (time_range : option TimeRange)
    (confidence : Q) : result QueryClassification :=
  match time_range with
  | Some (CustomDates _) => Raise validation_error
  | _ =>
      if Qle_bool 0 confidence && Qle_bool confidence 1
      then Ok {| intent := intent; modules := modules; metrics := metrics;
                 filters := filters; time_range := time_range;
                 confidence := confidence |}
      else Raise validation_error
  end.

(** ** The classifier ([QueryProcessor], lines 13-147) *)

Definition symptom_keywords : list string :=
  ["headache"; "nausea"; "dizziness"; "confusion"; "memory";
   "emotional"; "symptom"; "symptoms"; "pain"; "score"].

Definition reaction_time_keywords : list string :=
  ["reaction"; "time"; "speed"; "cognitive"; "response";
   "accuracy"; "performance"; "test"].

(** a [dict] literal, iterated in the order it is written *)
Definition aggregation_keywords : list (string * list string) :=
  [("average", ["average"; "avg"; "mean"]);
   ("maximum", ["max"; "maximum"; "highest"; "worst"]);
   ("minimum", ["min"; "minimum"; "lowest"; "best"]);
   ("count", ["count"; "number"; "how many"]);
   ("list", ["list"; "show"; "display"; "who"])].

Definition time_patterns : list (string * list string) :=
  [("last_week", ["last week"; "past week"]);
   ("last_month", ["last month"; "past month"]);
   ("last_30_days", ["last 30 days"; "past 30 days"]);
   ("today", ["today"; "today's"]);
   ("yesterday", ["yesterday"])].

(** [for name, keywords in table.items(): if any(...): return name] *)
Fixpoint first_match (table : list (string * list string)) (question : string)
    : option string :=
  match table with
  | [] => None
  | (name, keywords) :: rest =>
      if any_in keywords question then Some name
      else first_match rest question
  end.

Definition _determine_intent (question : string) : string :=
  match first_match aggregation_keywords question with
  | Some intent => intent
  | None =>
      if py_in "compare" question || py_in "vs" question then "compare"
      else if py_in "trend" question || py_in "over time" question then "trend"
      else if py_in "alert" question || py_in "concern" question then "alert"
      else "summary"
  end.

Definition _extract_metrics (question : string)
    (modules : list AssessmentType) : list string :=
  let metrics : list string := [] in
  let metrics :=
    if bool_decide (SYMPTOM_CHECKLIST ∈ modules) then
      let metrics :=
        if py_in "headache" question
        then (metrics ++ ["headache_severity"])%list else metrics in
      let metrics :=
        if py_in "total" question && py_in "score" question
        then (metrics ++ ["total_symptom_score"])%list else metrics in
      match metrics with
      | [] => (metrics ++ ["total_symptom_score"; "headache_severity"])%list
      | _ => metrics
      end
    else metrics in
  if bool_decide (REACTION_TIME ∈ modules) then
    let metrics :=
      if py_in "accuracy" question
      then (metrics ++ ["accuracy_percentage"])%list else metrics in
    let metrics :=
      if py_in "reaction" question && py_in "time" question
      then (metrics ++ ["average_reaction_time"])%list else metrics in
    if negb (existsb (fun m => py_in "reaction" m) metrics)
    then (metrics ++ ["average_reaction_time"])%list else metrics
  else metrics.

Section Classifier.
Variable lower : string -> string.
Variable word_char : ascii -> bool.

(** [\b(\d{1,2})/(\d{1,2})/(\d{4})\b]. The class [\d] is the ten ASCII
    digits: that is what it matches in ASCII text; in other text [re]
    also takes the decimal digits of other scripts, which the model does
    not. *)
Definition date_pattern (prev : option ascii) (s : string)
    : option ((string * string * string) * nat) :=
  if Re.word_boundary word_char prev (head s) then
    Re.one_or_two is_digit s (fun m s1 =>
    Re.lit "/" s1 (fun s2 =>
    Re.one_or_two is_digit s2 (fun d s3 =>
    Re.lit "/" s3 (fun s4 =>
    Re.four is_digit s4 (fun y s5 =>
      if Re.word_boundary word_char (last_char y) (head s5)
      then Some ((m, d, y),
                 String.length m + 1 + String.length d + 1 + String.length y)%nat
      else None)))))
  else None.

Definition _extract_time_range (question : string) : option TimeRange :=
  match first_match time_patterns question with
  | Some period => Some (Period period)
  | None =>
      match Re.findall date_pattern question with
      | [] => None
      | dates => Some (CustomDates dates)
      end
  end.

(** [\b(LSU|Tigers|[A-Z][a-z]+ [A-Z][a-z]+)\b] *)
Definition team_pattern (prev : option ascii) (s : string)
    : option (string * nat) :=
  let close (g : string) (rest : string) :=
    if Re.word_boundary word_char (last_char g) (head rest)
    then Some (g, String.length g) else None in
  if Re.word_boundary word_char prev (head s) then
    Re.orelse (Re.lit "LSU" s (close "LSU"))
   (Re.orelse (Re.lit "Tigers" s (close "Tigers"))
     (Re.cls is_upper s (fun c1 s1 =>
      Re.plus is_lower s1 (fun w1 s2 =>
      Re.lit " " s2 (fun s3 =>
      Re.cls is_upper s3 (fun c2 s4 =>
      Re.plus is_lower s4 (fun w2 s5 =>
        close (String c1 w1 ++ " " ++ String c2 w2) s5)))))))
  else None.

Definition _extract_filters (question : string) : gmap string filter_value :=
  let filters : gmap string filter_value := ∅ in
  let teams := Re.findall team_pattern question in
  let filters :=
    match teams with
    | team :: _ => <["team" := FStr team]> filters
    | [] => filters
    end in
  if py_in "severe" question then <["min_severity" := FInt 4]> filters
  else if py_in "moderate" question then <["min_severity" := FInt 2]> filters
  else filters.

Definition classify_query (question : string)
    : result QueryClassification :=
  let question_lower := lower question in
  let modules : list AssessmentType := [] in
  let modules :=
    if any_in symptom_keywords question_lower
    then (modules ++ [SYMPTOM_CHECKLIST])%list else modules in
  let modules :=
    if any_in reaction_time_keywords question_lower
    then (modules ++ [REACTION_TIME])%list else modules in
  let modules :=
    match modules with
    | [] => [SYMPTOM_CHECKLIST; REACTION_TIME]
    | _ => modules
    end in
  QueryClassification_init
    (_determine_intent question_lower)
    modules
    (_extract_metrics question_lower modules)
    (_extract_filters question_lower)
    (_extract_time_range question_lower)
    0.8.

End Classifier.

(** the classifier on ASCII questions *)
Definition classify : string -> result QueryClassification :=
  classify_query lower_ascii word_ascii.

(** ** The Python runtime the pipeline runs on *)

(** *** Numbers *)

(** the nearest integer of a rational that is not negative, ties to even *)
Definition round_half_even (x : Q) : Z :=
  let n := Qnum x in
  let d := Zpos (Qden x) in
  let fl := (n / d)%Z in
  let r := (n mod d)%Z in
  if (2 * r <? d)%Z then fl
  else if (d <? 2 * r)%Z then (fl + 1)%Z
  else if Z.even fl then fl else (fl + 1)%Z.

(** the largest [e] with [2 ^ e <= x], for a positive [x] *)
Definition floor_log2 (x : Q) : Z :=
  let k := (Z.log2 (Qnum x) - Z.log2 (Zpos (Qden x)))%Z in
  if Qle_bool (2 ^ k)%Q x then k else (k - 1)%Z.

(** A [float] is the rational it denotes. [binary64 x] is the float
    nearest to [x], ties to the even significand: 53 significant bits,
    fewer below [2 ^ -1022]. Overflow is not modelled: the numbers of the
    pipeline are far from [2 ^ 1024]. *)
Definition binary64 (x : Q) : Q :=
  if Qeq_bool x 0 then 0%Q
  else
    let e := Z.max (floor_log2 (Qabs x) - 52) (-1074) in
    let significand := round_half_even (Qabs x / 2 ^ e)%Q in
    let r := (inject_Z significand * 2 ^ e)%Q in
    Qred (if Qle_bool 0 x then r else (- r)%Q).

(** a number in a metrics dictionary: an [int] or a [float] *)
Inductive num :=
  | Int (n : Z)
  | Float (x : Q).

(** [float(v)], as the format [f] takes its argument *)
Definition num_value (v : num) : Q :=
  match v with
  | Int n => binary64 (inject_Z n)
  | Float x => x
  end.

(** [a / b] on integers: true division, the float nearest to the quotient *)
Definition true_div (a b : Z) : Q := binary64 (inject_Z a / inject_Z b)%Q.

(** [x + y] on floats, and [x / n] of a float by an [int] *)
Definition float_add (x y : Q) : Q := binary64 (x + y)%Q.
Definition float_div (x : Q) (n : Z) : Q :=
  binary64 (x / binary64 (inject_Z n))%Q.

(** [sum(xs)]: from 0, left to right *)
Definition py_sum (xs : list Z) : Z := fold_left Z.add xs 0%Z.
Definition py_fsum (xs : list Q) : Q := fold_left float_add xs 0%Q.

(** [max(xs)] and [min(xs)]: the first item wins until a strictly larger
    (smaller) one comes. On the empty list Python raises [ValueError]; the
    aggregation never gets there, and the model answers 0. *)
Definition py_max (xs : list Z) : Z :=
  match xs with
  | [] => 0%Z
  | x :: rest => fold_left (fun best y => if (best <? y)%Z then y else best) rest x
  end.

Definition Qlt_bool (x y : Q) : bool := negb (Qle_bool y x).

Definition py_fmax (xs : list Q) : Q :=
  match xs with
  | [] => 0%Q
  | x :: rest => fold_left (fun best y => if Qlt_bool best y then y else best) rest x
  end.

Definition py_fmin (xs : list Q) : Q :=
  match xs with
  | [] => 0%Q
  | x :: rest => fold_left (fun best y => if Qlt_bool y best then y else best) rest x
  end.

(** [str(n)] of a length *)
Definition str_nat (n : nat) : string := NilZero.string_of_uint (Nat.to_uint n).

Definition str_Z (n : Z) : string :=
  match n with
  | Zneg p => "-" ++ NilZero.string_of_uint (Pos.to_uint p)
  | _ => NilZero.string_of_uint (N.to_uint (Z.to_N n))
  end.

Fixpoint zeros (n : nat) : string :=
  match n with
  | O => ""
  | S n' => String "0" (zeros n')
  end.

(** [s.zfill(width)] of a string of digits *)
Definition zfill (width : nat) (s : string) : string :=
  zeros (width - String.length s) ++ s.

(** [format(x, ".<digits>f")] of a float: fixed point, the value of the
    float rounded to the nearest, ties to even; a negative value keeps its
    sign *)
Definition format_f (digits : nat) (x : Q) : string :=
  let scale := (10 ^ Z.of_nat digits)%Z in
  let n := round_half_even (Qabs x * inject_Z scale) in
  let sign := if Qlt_bool x 0 then "-" else "" in
  let whole := str_Z (n / scale) in
  match digits with
  | O => sign ++ whole
  | _ => sign ++ whole ++ "." ++ zfill digits (str_Z (n mod scale))
  end.

(** *** Dates ([datetime]) *)

Record datetime := {
  year : Z;
  month : Z;
  day : Z;
  hour : Z;
  minute : Z;
  second : Z;
  microsecond : Z
}.

Definition is_leap (y : Z) : bool :=
  ((y mod 4 =? 0) && (negb (y mod 100 =? 0) || (y mod 400 =? 0)))%Z.

Definition days_in_month (y m : Z) : Z :=
  if (m =? 2)%Z then (if is_leap y then 29 else 28)%Z
  else if ((m =? 4) || (m =? 6) || (m =? 9) || (m =? 11))%Z then 30%Z
  else 31%Z.

(** [dt.replace(hour=h, minute=m, second=s)]: the other fields, the
    microsecond among them, stay *)
Definition replace_hms (dt : datetime) (h m s : Z) : datetime :=
  {| year := year dt; month := month dt; day := day dt;
     hour := h; minute := m; second := s;
     microsecond := microsecond dt |}.

Definition with_date (dt : datetime) (y m d : Z) : datetime :=
  {| year := y; month := m; day := d;
     hour := hour dt; minute := minute dt; second := second dt;
     microsecond := microsecond dt |}.

(** the day before; [MINYEAR] is 1 *)
Definition prev_day (dt : datetime) : result datetime :=
  if (1 <? day dt)%Z then Ok (with_date dt (year dt) (month dt) (day dt - 1))
  else if (1 <? month dt)%Z then
    Ok (with_date dt (year dt) (month dt - 1)
          (days_in_month (year dt) (month dt - 1)))
  else if (1 <? year dt)%Z then Ok (with_date dt (year dt - 1) 12 31)
  else Raise (Error "OverflowError" "date value out of range").

(** [dt - timedelta(days=n)] *)
Fixpoint minus_days (n : nat) (dt : datetime) : result datetime :=
  match n with
  | O => Ok dt
  | S n' =>
      match prev_day dt with
      | Ok dt' => minus_days n' dt'
      | Raise e => Raise e
      end
  end.

(** *** Records of the store *)

(** a row of [symptom_assessments] and one of [reaction_time_tests], with
    the columns the aggregation reads *)
Record SymptomRow := {
  symptom_patient_id : string;
  total_symptom_score : Z;
  headache_severity : Z
}.

Record ReactionRow := {
  reaction_patient_id : string;
  average_reaction_time : Q;
  accuracy_percentage : Q
}.

(** *** The world outside the process *)

(** The clock [datetime.now()] reads, the two queries of the store (their
    arguments: [patient_id], [team_id], [date_from], [date_to]), the object
    store with the configured bucket, and what was printed so far. *)
Record World := {
  wall_clock : datetime;
  get_symptom_data :
    option string -> option string -> option datetime -> option datetime ->
    result (list SymptomRow);
  get_reaction_time_data :
    option string -> option string -> option datetime -> option datetime ->
    result (list ReactionRow);
  aws_s3_bucket : string;
  s3_get_object : string -> string -> result string;
  stdout : list string
}.

(** A computation of the program: it runs in a world, returns or raises,
    and leaves a world. *)
Definition Py (A : Type) : Type := World -> result A * World.

Definition ret {A} (a : A) : Py A := fun w => (Ok a, w).

Definition bind {A B} (m : Py A) (k : A -> Py B) : Py B :=
  fun w =>
    match m w with
    | (Ok a, w') => k a w'
    | (Raise e, w') => (Raise e, w')
    end.

Notation "'let*' x ':=' m 'in' k" := (bind m (fun x => k))
  (at level 10, x name, m at level 100, k at level 200).

(** a value or an exception, as a computation *)
Definition lift {A} (r : result A) : Py A := fun w => (r, w).

(** [try: body except Exception as e: handler(e)]: an [Interrupt] passes *)
Definition try_except {A} (body : Py A) (handler : exc -> Py A) : Py A :=
  fun w =>
    match body w with
    | (Raise (Error cls msg), w') => handler (Error cls msg) w'
    | r => r
    end.

Definition datetime_now : Py datetime := fun w => (Ok (wall_clock w), w).

Definition query_symptoms (patient_id team_id : option string)
    (date_from date_to : option datetime) : Py (list SymptomRow) :=
  fun w => (get_symptom_data w patient_id team_id date_from date_to, w).

Definition query_reactions (patient_id team_id : option string)
    (date_from date_to : option datetime) : Py (list ReactionRow) :=
  fun w => (get_reaction_time_data w patient_id team_id date_from date_to, w).

(** [str(e)] *)
Definition str_exc (e : exc) : string :=
  match e with
  | Error _ msg => msg
  | Interrupt _ => ""
  end.

Definition print (line : string) : Py unit :=
  fun w =>
    (Ok tt,
     {| wall_clock := wall_clock w;
        get_symptom_data := get_symptom_data w;
        get_reaction_time_data := get_reaction_time_data w;
        aws_s3_bucket := aws_s3_bucket w;
        s3_get_object := s3_get_object w;
        stdout := (stdout w ++ [line])%list |}).

(** ** Aggregation ([DatabaseService], lines 125-156) *)

Definition calculate_symptom_metrics (data : list SymptomRow)
    : gmap string num :=
  match data with
  | [] => ∅
  | _ =>
      let total_scores := map total_symptom_score data in
      let headache_scores := map headache_severity data in
      let n := Z.of_nat (length data) in
      <["avg_total_symptom_score" :=
          Float (true_div (py_sum total_scores) n)]>
     (<["max_total_symptom_score" :=
          Int (py_max total_scores)]>
     (<["avg_headache_severity" :=
          Float (true_div (py_sum headache_scores) n)]>
     (<["patient_count" :=
          Int (Z.of_nat (size (list_to_set (map symptom_patient_id data)
                                 : gset string)))]>
     (<["assessment_count" := Int n]> ∅))))
  end.

Definition calculate_reaction_time_metrics (data : list ReactionRow)
    : gmap string num :=
  match data with
  | [] => ∅
  | _ =>
      let avg_times := map average_reaction_time data in
      let accuracies := map accuracy_percentage data in
      let n := Z.of_nat (length data) in
      <["avg_reaction_time" := Float (float_div (py_fsum avg_times) n)]>
     (<["max_reaction_time" :=
          Float (py_fmax avg_times)]>
     (<["min_reaction_time" :=
          Float (py_fmin avg_times)]>
     (<["avg_accuracy" := Float (float_div (py_fsum accuracies) n)]>
     (<["patient_count" :=
          Int (Z.of_nat (size (list_to_set (map reaction_patient_id data)
                                 : gset string)))]>
     (<["test_count" := Int n]> ∅)))))
  end.

(** ** The time range resolver ([QueryProcessor], lines 204-228) *)

(** the dictionary [{"start": ..., "end": ...}] *)
Record DateRange := {
  range_start : option datetime;
  range_end : option datetime
}.

Definition no_range : DateRange :=
  {| range_start := None; range_end := None |}.

Definition _convert_time_range (time_range : option TimeRange)
    : Py DateRange :=
  match time_range with
  | None => ret no_range
  | Some tr =>
      let* now := datetime_now in
      match tr with
      | Period period =>
          if String.eqb period "last_week" then
            let* start := lift (minus_days 7 now) in
            ret {| range_start := Some start; range_end := Some now |}
          else if String.eqb period "last_month" then
            let* start := lift (minus_days 30 now) in
            ret {| range_start := Some start; range_end := Some now |}
          else if String.eqb period "last_30_days" then
            let* start := lift (minus_days 30 now) in
            ret {| range_start := Some start; range_end := Some now |}
          else if String.eqb period "today" then
            ret {| range_start := Some (replace_hms now 0 0 0);
                   range_end := Some now |}
          else if String.eqb period "yesterday" then
            let* yesterday := lift (minus_days 1 now) in
            ret {| range_start := Some (replace_hms yesterday 0 0 0);
                   range_end := Some (replace_hms yesterday 23 59 59) |}
          else ret no_range
      | CustomDates _ => ret no_range
      end
  end.

(** ** The response synthesizer ([QueryProcessor], lines 230-259) *)

(** an item of [results]: [{"module": ..., "data": ..., "count": ...}] *)
Record ModuleResult := {
  result_module : string;
  result_data : gmap string num;
  result_count : nat
}.

(** [data.get(key, 0)] *)
Definition get_or_zero (data : gmap string num) (key : string) : num :=
  default (Int 0) (data !! key).

Definition symptom_sentence (data : gmap string num) (count : nat) : string :=
  "Based on " ++ str_nat count ++
  " symptom assessments, the average total symptom score is " ++
  format_f 1 (num_value (get_or_zero data "avg_total_symptom_score")) ++
  ". " ++
  "Average headache severity is " ++
  format_f 1 (num_value (get_or_zero data "avg_headache_severity")) ++
  " out of 6.".

Definition reaction_sentence (data : gmap string num) (count : nat) : string :=
  "Based on " ++ str_nat count ++
  " reaction time tests, the average reaction time is " ++
  format_f 0 (num_value (get_or_zero data "avg_reaction_time")) ++
  "ms with an average accuracy of " ++
  format_f 1 (num_value (get_or_zero data "avg_accuracy")) ++
  "%.".

Definition newline : string := String (ascii_of_nat 10) "".

Definition clinical_note : string :=
  newline ++ newline ++
  "This data may require clinical attention if values are significantly elevated from baseline.".

Definition no_data_message : string :=
  "I couldn't find any data matching your query. Please try with different criteria.".

(** the sentences of the loop over [results], in order *)
Fixpoint module_sentences (results : list ModuleResult) : list string :=
  match results with
  | [] => []
  | r :: rest =>
      let part :=
        if String.eqb (result_module r) "symptom_checklist"
        then [symptom_sentence (result_data r) (result_count r)]
        else if String.eqb (result_module r) "reaction_time"
        then [reaction_sentence (result_data r) (result_count r)]
        else [] in
      (part ++ module_sentences rest)%list
  end.

(** [not results] *)
Definition is_nil {A} (l : list A) : bool :=
  match l with
  | [] => true
  | _ => false
  end.

Definition response_parts (classification : QueryClassification)
    (results : list ModuleResult) : list string :=
  let response_parts := module_sentences results in
  if String.eqb (intent classification) "alert" && negb (is_nil results)
  then (response_parts ++ [clinical_note])%list
  else response_parts.

Definition _generate_response (classification : QueryClassification)
    (results : list ModuleResult) : string :=
  match results with
  | [] => no_data_message
  | _ => join " " (response_parts classification results)
  end.

(** ** The orchestrator ([QueryProcessor], lines 149-202) *)

Record Metadata := {
  metadata_classification : QueryClassification;
  metadata_results : list ModuleResult;
  query_type : string
}.

(** the dictionary [process_query] returns *)
Record QueryResult := {
  answer : string;
  result_confidence : Q;
  source_modules : list string;
  metadata : Metadata
}.

(** [team_id or filters.get("team")]: the hint when it is a string that is
    not empty, the extracted team otherwise *)
Definition team_scope (team_id : option string)
    (filters : gmap string filter_value) : option string :=
  match team_id with
  | Some t => if String.eqb t "" then
                match filters !! "team" with
                | Some (FStr team) => Some team
                | _ => None
                end
              else Some t
  | None =>
      match filters !! "team" with
      | Some (FStr team) => Some team
      | _ => None
      end
  end.

Section Orchestrator.
Variable lower : string -> string.
Variable word_char : ascii -> bool.

Definition process_query (question : string) (user_id team_id : option string)
    : Py QueryResult :=
  let* classification := lift (classify_query lower word_char question) in
  let* date_range := _convert_time_range (time_range classification) in
  let results : list ModuleResult := [] in
  let* results :=
    if bool_decide (SYMPTOM_CHECKLIST ∈ modules classification) then
      let* symptom_data :=
        query_symptoms None (team_scope team_id (filters classification))
          (range_start date_range) (range_end date_range) in
      if negb (is_nil symptom_data) then
        let symptom_metrics := calculate_symptom_metrics symptom_data in
        ret (results ++ [ {| result_module := "symptom_checklist";
                             result_data := symptom_metrics;
                             result_count := length symptom_data |} ])%list
      else ret results
    else ret results in
  let* results :=
    if bool_decide (REACTION_TIME ∈ modules classification) then
      let* reaction_data :=
        query_reactions None (team_scope team_id (filters classification))
          (range_start date_range) (range_end date_range) in
      if negb (is_nil reaction_data) then
        let reaction_metrics := calculate_reaction_time_metrics reaction_data in
        ret (results ++ [ {| result_module := "reaction_time";
                             result_data := reaction_metrics;
                             result_count := length reaction_data |} ])%list
      else ret results
    else ret results in
  let response := _generate_response classification results in
  ret {| answer := response;
         result_confidence := confidence classification;
         source_modules := map result_module results;
         metadata :=
           {| metadata_classification := classification;
              metadata_results := results;
              query_type := intent classification |} |}.

End Orchestrator.

(** ** The supplementary document ([DatabaseService], lines 111-123) *)

(** a JSON value, as [json.loads] builds it *)
#[warnings="-register-all"]
Inductive json :=
  | JNull
  | JBool (b : bool)
  | JNumber (x : Q)
  | JString (s : string)
  | JArray (items : list json)
  | JObject (members : list (string * json)).

(** [{}] *)
Definition empty_document : json := JObject [].

(** the key of the document *)
Definition s3_key (patient_id assessment_type : string) : string :=
  "assessments/" ++ patient_id ++ "/" ++ assessment_type ++ "/latest.json".

Section Documents.
(** [bytes.decode('utf-8')] and [json.loads]: either can raise. *)
Variable decode_utf8 : string -> result string.
Variable json_loads : string -> result json.

Definition s3_get (bucket key : string) : Py string :=
  fun w => (s3_get_object w bucket key, w).

Definition settings_aws_s3_bucket : Py string :=
  fun w => (Ok (aws_s3_bucket w), w).

Definition get_s3_assessment_data (patient_id assessment_type : string)
    : Py json :=
  try_except
    (let s3_key := s3_key patient_id assessment_type in
     let* bucket := settings_aws_s3_bucket in
     let* body := s3_get bucket s3_key in
     let* content := lift (decode_utf8 body) in
     lift (json_loads content))
    (fun e =>
       let* _ := print ("Error fetching S3 data: " ++ str_exc e) in
       ret empty_document).

End Documents.

(** ** The queries of the store ([DatabaseService], lines 26-109) *)

(** a value bound to a placeholder of a statement *)
Inductive sql_value :=
  | SqlStr (s : string)
  | SqlDate (d : datetime).

(** [if s:] on an [Optional[str]]: [None] and the empty string are false *)
Definition truthy (s : option string) : bool :=
  match s with
  | Some s => negb (String.eqb s "")
  | None => false
  end.

Module DatabaseService.

(** the literals of lines 47-52, 82-87 and 33-37 *)
Definition symptom_base_query : string :=
  newline ++ "                SELECT s.*, p.name as patient_name, p.team_id" ++
  newline ++ "                FROM symptom_assessments s" ++
  newline ++ "                JOIN patients p ON s.patient_id = p.patient_id" ++
  newline ++ "                WHERE 1=1" ++
  newline ++ "            ".

Definition reaction_base_query : string :=
  newline ++ "                SELECT r.*, p.name as patient_name, p.team_id" ++
  newline ++ "                FROM reaction_time_tests r" ++
  newline ++ "                JOIN patients p ON r.patient_id = p.patient_id" ++
  newline ++ "                WHERE 1=1" ++
  newline ++ "            ".

Definition patients_query : string :=
  newline ++ "                SELECT patient_id, name, team_id, age, position, created_at, updated_at" ++
  newline ++ "                FROM patients " ++
  newline ++ "                WHERE team_id = :team_id" ++
  newline ++ "            ".

(** the value a filter binds: a string that is not empty, any date *)
Definition str_value (s : option string) : option sql_value :=
  if truthy s then SqlStr <$> s else None.

Definition date_value (d : option datetime) : option sql_value :=
  SqlDate <$> d.

(** [if value: base_query += clause; params[key] = value] *)
Definition add_filter (clause key : string) (value : option sql_value)
    (query : string * gmap string sql_value)
    : string * gmap string sql_value :=
  match value with
  | Some v => (fst query ++ clause, <[key := v]> (snd query))
  | None => query
  end.

(** the statement of [get_symptom_data] and the values of its
    placeholders (lines 47-71) *)
Definition symptom_query (patient_id team_id : option string)
    (date_from date_to : option datetime) : string * gmap string sql_value :=
  let query := (symptom_base_query, ∅) in
  let query :=
    add_filter " AND s.patient_id = :patient_id" "patient_id"
      (str_value patient_id) query in
  let query :=
    add_filter " AND p.team_id = :team_id" "team_id"
      (str_value team_id) query in
  let query :=
    add_filter " AND s.assessment_date >= :date_from" "date_from"
      (date_value date_from) query in
  let query :=
    add_filter " AND s.assessment_date <= :date_to" "date_to"
      (date_value date_to) query in
  (fst query ++ " ORDER BY s.assessment_date DESC", snd query).

(** the statement of [get_reaction_time_data] (lines 82-106) *)
Definition reaction_query (patient_id team_id : option string)
    (date_from date_to : option datetime) : string * gmap string sql_value :=
  let query := (reaction_base_query, ∅) in
  let query :=
    add_filter " AND r.patient_id = :patient_id" "patient_id"
      (str_value patient_id) query in
  let query :=
    add_filter " AND p.team_id = :team_id" "team_id"
      (str_value team_id) query in
  let query :=
    add_filter " AND r.assessment_date >= :date_from" "date_from"
      (date_value date_from) query in
  let query :=
    add_filter " AND r.assessment_date <= :date_to" "date_to"
      (date_value date_to) query in
  (fst query ++ " ORDER BY r.assessment_date DESC", snd query).

Section Session.
Context {Row : Type}.

(** [db.execute(text(statement), params)] in a session of the store, the
    rows as dictionaries; it can raise *)
Variable execute : string -> gmap string sql_value -> result (list Row).

Definition get_patients_by_team (team_id : string) : result (list Row) :=
  execute patients_query (<["team_id" := SqlStr team_id]> ∅).

Definition get_symptom_data (patient_id team_id : option string)
    (date_from date_to : option datetime) : result (list Row) :=
  let query := symptom_query patient_id team_id date_from date_to in
  execute (fst query) (snd query).

Definition get_reaction_time_data (patient_id team_id : option string)
    (date_from date_to : option datetime) : result (list Row) :=
  let query := reaction_query patient_id team_id date_from date_to in
  execute (fst query) (snd query).

End Session.
End DatabaseService.

(** ** The endpoint of the API ([main.py], lines 29-71) *)

Record QueryRequest := {
  request_question : string;
  request_user_id : option string;
  request_team_id : option string
}.

Record QueryResponse := {
  response_answer : string;
  response_confidence : Q;
  response_source_modules : list string;
  response_metadata : Metadata
}.

(** what a call of the endpoint does: it returns the response, raises an
    [HTTPException], or lets another exception pass *)
Inductive Reply :=
  | Returns (response : QueryResponse)
  | HTTPException (status_code : Z) (detail : string)
  | Passes (e : exc).

Module Api.
Section Endpoint.
Variable lower : string -> string.
Variable word_char : ascii -> bool.

(** the import of the processor and [QueryProcessor()]: the constructor
    builds the database service, which reads the settings and creates the
    engine and the client of the object store; any of these can raise *)
Variable QueryProcessor_init : Py unit.

Definition process_query (request : QueryRequest) : World -> Reply * World :=
  fun w =>
    match
      (let* _ := QueryProcessor_init in
       let* result :=
         process_query lower word_char (request_question request)
           None (request_team_id request) in
       ret {| response_answer := answer result;
              response_confidence := result_confidence result;
              response_source_modules := source_modules result;
              response_metadata := metadata result |}) w
    with
    | (Ok response, w') => (Returns response, w')
    | (Raise (Error cls msg), w') =>
        (HTTPException 500
           ("Query processing failed: " ++ str_exc (Error cls msg)), w')
    | (Raise (Interrupt cls), w') => (Passes (Interrupt cls), w')
    end.

End Endpoint.
End Api.

(** * Vocabulary of the properties *)

(** the values an intent takes *)
Definition intents : list string :=
  ["average"; "maximum"; "minimum"; "count"; "list";
   "compare"; "trend"; "alert"; "summary"].

(** a classification as the specification wants it *)
Definition well_formed (lower_q : string) (c : QueryClassification) : Prop :=
  intent c ∈ intents /\
  modules c <> [] /\
  (any_in symptom_keywords lower_q = false ->
   any_in reaction_time_keywords lower_q = false ->
   modules c = [SYMPTOM_CHECKLIST; REACTION_TIME]) /\
  metrics c <> [] /\
  (0 <= confidence c)%Q /\ (confidence c <= 1)%Q.

(** [k] occurs in [s] *)
Definition substring (k s : string) : Prop := exists a b, s = a ++ k ++ b.

(** one of the keywords occurs in [q] *)
Definition mentions (keywords : list string) (q : string) : Prop :=
  exists k, k ∈ keywords /\ substring k q.

(** an ASCII capital somewhere in the text *)
Fixpoint has_upper (s : string) : bool :=
  match s with
  | "" => false
  | String c rest => is_upper c || has_upper rest
  end.

(** [x] is a float: a significand below [2 ^ 53] at an exponent from
    [-1074] up *)
Definition is_float (x : Q) : Prop :=
  exists m e : Z,
    (Z.abs m < 2 ^ 53)%Z /\ (-1074 <= e)%Z /\ (x == inject_Z m * 2 ^ e)%Q.

(** the sum and the arithmetic mean of a list of integers *)
Definition total (xs : list Z) : Z := foldr Z.add 0%Z xs.

Definition mean (xs : list Z) : Q :=
  (inject_Z (total xs) / inject_Z (Z.of_nat (length xs)))%Q.

(** [m] is the largest item of [xs] *)
Definition is_maximum (m : Z) (xs : list Z) : Prop :=
  m ∈ xs /\ forall x, x ∈ xs -> (x <= m)%Z.

(** the number of different items of [l] *)
Definition distinct (l : list string) : nat := length (remove_dups l).

(** the three records of the specification's example: two patients *)
Definition sample_symptoms : list SymptomRow :=
  [ {| symptom_patient_id := "P001"; total_symptom_score := 35;
       headache_severity := 2 |};
    {| symptom_patient_id := "P002"; total_symptom_score := 78;
       headache_severity := 4 |};
    {| symptom_patient_id := "P001"; total_symptom_score := 15;
       headache_severity := 1 |} ].

(** a world whose clock shows [now]: an empty store, no object in the bucket *)
Definition world_at (now : datetime) : World :=
  {| wall_clock := now;
     get_symptom_data := fun _ _ _ _ => Ok [];
     get_reaction_time_data := fun _ _ _ _ => Ok [];
     aws_s3_bucket := "neurologix-assessments";
     s3_get_object := fun _ _ => Raise (Error "NoSuchKey" "The specified key does not exist.");
     stdout := [] |}.

Definition at_time (y mo d h mi s us : Z) : datetime :=
  {| year := y; month := mo; day := d;
     hour := h; minute := mi; second := s; microsecond := us |}.

(** the question of the end-to-end scenario *)
Definition lsu_question : string :=
  "What is the average headache severity for LSU players?".

(** the orchestrator on ASCII questions *)
Definition process : string -> option string -> option string -> Py QueryResult :=
  process_query lower_ascii word_ascii.

(** the store of the scenario: two symptom records, no reaction time test *)
Definition scenario_world : World :=
  {| wall_clock := at_time 2024 1 15 12 0 0 0;
     get_symptom_data := fun _ _ _ _ =>
       Ok [ {| symptom_patient_id := "P001"; total_symptom_score := 35;
               headache_severity := 2 |};
            {| symptom_patient_id := "P002"; total_symptom_score := 78;
               headache_severity := 4 |} ];
     get_reaction_time_data := fun _ _ _ _ => Ok [];
     aws_s3_bucket := "neurologix-assessments";
     s3_get_object := fun _ _ => Raise (Error "NoSuchKey" "The specified key does not exist.");
     stdout := [] |}.

Fixpoint all_chars (p : ascii -> bool) (s : string) : bool :=
  match s with
  | "" => true
  | String c rest => p c && all_chars p rest
  end.

(** the characters a formatted number is made of *)
Definition is_numeric (c : ascii) : bool :=
  is_digit c || Ascii.eqb c "-" || Ascii.eqb c ".".

(** a formatted number: not empty, made of digits, sign and point *)
Definition numeral (s : string) : Prop :=
  s <> "" /\ all_chars is_numeric s = true.

(** a text without digit, sign or point *)
Definition wordy (s : string) : Prop :=
  s <> "" /\ all_chars (fun c => negb (is_numeric c)) s = true.

(** the item of [results] a module contributes: none without records *)
Definition symptom_results (rows : list SymptomRow) : list ModuleResult :=
  match rows with
  | [] => []
  | _ => [ {| result_module := "symptom_checklist";
              result_data := calculate_symptom_metrics rows;
              result_count := length rows |} ]
  end.

Definition reaction_results (rows : list ReactionRow) : list ModuleResult :=
  match rows with
  | [] => []
  | _ => [ {| result_module := "reaction_time";
              result_data := calculate_reaction_time_metrics rows;
              result_count := length rows |} ]
  end.

(** an optional argument that was given *)
Definition given {A} (o : option A) : bool :=
  match o with
  | Some _ => true
  | None => false
  end.

(** how often a character occurs in a text *)
Fixpoint count_char (c : ascii) (s : string) : nat :=
  match s with
  | "" => O
  | String x rest => ((if Ascii.eqb x c then 1 else 0) + count_char c rest)%nat
  end.

(** the names of the placeholders of the statements *)
Definition placeholders : list string :=
  ["patient_id"; "team_id"; "date_from"; "date_to"].

(** a date as the date pattern captures it: one or two digits for the
    month and for the day, four for the year *)
Definition date_shaped (date : string * string * string) : Prop :=
  let '(m, d, y) := date in
  all_chars is_digit m = true /\ (1 <= String.length m <= 2)%nat /\
  all_chars is_digit d = true /\ (1 <= String.length d <= 2)%nat /\
  all_chars is_digit y = true /\ String.length y = 4%nat.

(** the text a captured date was read from *)
Definition date_text (date : string * string * string) : string :=
  let '(m, d, y) := date in m ++ "/" ++ d ++ "/" ++ y.

(** a capital followed by one small letter or more *)
Definition capitalized (w : string) : Prop :=
  exists c rest,
    w = String c rest /\ is_upper c = true /\
    rest <> "" /\ all_chars is_lower rest = true.

(** a team as the team pattern captures it *)
Definition team_name (t : string) : Prop :=
  t = "LSU" \/ t = "Tigers" \/
  exists w1 w2, t = w1 ++ " " ++ w2 /\ capitalized w1 /\ capitalized w2.

(** a date of the calendar with a time of the day *)
Definition valid_datetime (dt : datetime) : Prop :=
  (1 <= year dt <= 9999 /\ 1 <= month dt <= 12 /\
   1 <= day dt <= days_in_month (year dt) (month dt) /\
   0 <= hour dt <= 23 /\ 0 <= minute dt <= 59 /\ 0 <= second dt <= 59 /\
   0 <= microsecond dt <= 999999)%Z.

(** the days from 1 January of year 1 to the end of year [y - 1] *)
Definition days_before_year (y : Z) : Z :=
  (365 * (y - 1) + (y - 1) / 4 - (y - 1) / 100 + (y - 1) / 400)%Z.

(** the days of the first [k] months of year [y] *)
Fixpoint days_of_months (y : Z) (k : nat) : Z :=
  match k with
  | O => 0%Z
  | S k' => (days_of_months y k' + days_in_month y (Z.of_nat k))%Z
  end.

(** the days of year [y] before the first of month [m] *)
Definition days_before_month (y m : Z) : Z :=
  days_of_months y (Z.to_nat (m - 1)).

(** the number of the day of a date, 1 for 1 January of year 1
    ([date.toordinal]) *)
Definition ordinal (dt : datetime) : Z :=
  (days_before_year (year dt) + days_before_month (year dt) (month dt)
   + day dt)%Z.

Definition time_of_day (dt : datetime) : Z * Z * Z * Z :=
  (hour dt, minute dt, second dt, microsecond dt).

Definition overflow_error : exc :=
  Error "OverflowError" "date value out of range".

(** the team hint the orchestrator passes on: a string that is not empty *)
Definition hinted_team (team_id : option string) : option string :=
  if truthy team_id then team_id else None.

(** the fetch of a module the classification selects; a module that is
    not selected has no records *)
Definition fetch_selected {Row} (selected : bool)
    (fetch : result (list Row)) : result (list Row) :=
  if selected then fetch else Ok [].

(** the sentence on symptom assessments and the one on reaction time
    tests, with the numbers they report *)
Definition symptom_report (rows : list SymptomRow) : string :=
  "Based on " ++ str_nat (length rows) ++
  " symptom assessments, the average total symptom score is " ++
  format_f 1 (binary64 (mean (map total_symptom_score rows))) ++
  ". Average headache severity is " ++
  format_f 1 (binary64 (mean (map headache_severity rows))) ++
  " out of 6.".

Definition reaction_report (rows : list ReactionRow) : string :=
  "Based on " ++ str_nat (length rows) ++
  " reaction time tests, the average reaction time is " ++
  format_f 0 (float_div (py_fsum (map average_reaction_time rows))
                (Z.of_nat (length rows))) ++
  "ms with an average accuracy of " ++
  format_f 1 (float_div (py_fsum (map accuracy_percentage rows))
                (Z.of_nat (length rows))) ++
  "%.".

(** the sentences of an answer: one for each module with records *)
Definition reports (symptoms : list SymptomRow) (reactions : list ReactionRow)
    : list string :=
  ((if is_nil symptoms then [] else [symptom_report symptoms]) ++
   (if is_nil reactions then [] else [reaction_report reactions]))%list.

(** a store that keeps the records of the scenario under their team: a
    query without team gets them, a query for a team gets none *)
Definition team_world : World :=
  {| wall_clock := at_time 2024 1 15 12 0 0 0;
     get_symptom_data := fun _ team _ _ =>
       match team with
       | Some _ => Ok []
       | None =>
           Ok [ {| symptom_patient_id := "P001"; total_symptom_score := 35;
                   headache_severity := 2 |};
                {| symptom_patient_id := "P002"; total_symptom_score := 78;
                   headache_severity := 4 |} ]
       end;
     get_reaction_time_data := fun _ _ _ _ => Ok [];
     aws_s3_bucket := "neurologix-assessments";
     s3_get_object := fun _ _ => Raise (Error "NoSuchKey" "The specified key does not exist.");
     stdout := [] |}.

(** the stages of the fetch of a document: the request, the decoding, the
    parsing; the first that raises decides *)
Definition document_stages (decode_utf8 : string -> result string)
    (json_loads : string -> result json) (fetched : result string)
    : result json :=
  match fetched with
  | Ok body =>
      match decode_utf8 body with
      | Ok content => json_loads content
      | Raise e => Raise e
      end
  | Raise e => Raise e
  end.

(** the world after a line was printed *)
Definition printed (w : World) (line : string) : World :=
  {| wall_clock := wall_clock w;
     get_symptom_data := get_symptom_data w;
     get_reaction_time_data := get_reaction_time_data w;
     aws_s3_bucket := aws_s3_bucket w;
     s3_get_object := s3_get_object w;
     stdout := (stdout w ++ [line])%list |}.

(** the response the endpoint makes of a result *)
Definition response_of (result : QueryResult) : QueryResponse :=
  {| response_answer := answer result;
     response_confidence := result_confidence result;
     response_source_modules := source_modules result;
     response_metadata := metadata result |}.

(** a world whose store is the database service over two sessions, one
    that answers with symptom assessments and one with reaction time
    tests *)
Definition store_world (now : datetime)
    (symptoms : string -> gmap string sql_value -> result (list SymptomRow))
    (reactions : string -> gmap string sql_value -> result (list ReactionRow))
    : World :=
  {| wall_clock := now;
     get_symptom_data := DatabaseService.get_symptom_data symptoms;
     get_reaction_time_data := DatabaseService.get_reaction_time_data reactions;
     aws_s3_bucket := "neurologix-assessments";
     s3_get_object := fun _ _ => Raise (Error "NoSuchKey" "The specified key does not exist.");
     stdout := [] |}.

(** a session that refuses a statement with a patient clause, and answers
    any other with the two records of the scenario; and one that answers
    every statement with them *)
Definition guarded_session (text : string) (params : gmap string sql_value)
    : result (list SymptomRow) :=
  if py_in ":patient_id" text
  then Raise (Error "OperationalError" "patient filter")
  else Ok [ {| symptom_patient_id := "P001"; total_symptom_score := 35;
               headache_severity := 2 |};
            {| symptom_patient_id := "P002"; total_symptom_score := 78;
               headache_severity := 4 |} ].

Definition open_session (text : string) (params : gmap string sql_value)
    : result (list SymptomRow) :=
  Ok [ {| symptom_patient_id := "P001"; total_symptom_score := 35;
          headache_severity := 2 |};
       {| symptom_patient_id := "P002"; total_symptom_score := 78;
          headache_severity := 4 |} ].

Definition no_tests (text : string) (params : gmap string sql_value)
    : result (list ReactionRow) :=
  Ok [].

(** two reaction time tests of one patient *)
Definition sample_reactions : list ReactionRow :=
  [ {| reaction_patient_id := "P001"; average_reaction_time := 250.5;
       accuracy_percentage := 95 |};
    {| reaction_patient_id := "P001"; average_reaction_time := 310.25;
       accuracy_percentage := 88.5 |} ].

(** a text of ASCII characters *)
Definition ascii_text (s : string) : bool :=
  all_chars (fun c => (N_of_ascii c <? 128)%N) s.

(** the last character of [a], or [prev] when [a] is empty *)
Definition char_before (prev : option ascii) (a : string) : option ascii :=
  match last_char a with
  | Some c => Some c
  | None => prev
  end.

(** the date stands in the text, after the character [prev], between two
    word boundaries *)
Definition date_stands (word_char : ascii -> bool) (prev : option ascii)
    (date : string * string * string) (s : string) : Prop :=
  exists a b,
    s = a ++ date_text date ++ b /\
    Re.word_boundary word_char (char_before prev a)
      (head (date_text date)) = true /\
    Re.word_boundary word_char (last_char (date_text date)) (head b) = true.

(** the date occurs in the text between two word boundaries *)
Definition date_occurs (word_char : ascii -> bool)
    (date : string * string * string) (q : string) : Prop :=
  date_stands word_char None date q.






(** ** Reading the numerals of an answer *)













(** * Properties *)

(** ** Strings *)

Lemma startswith_app (p s t : string) :
  startswith p s = true -> startswith p (s ++ t) = true.
Proof.
  revert s; induction p as [|a p IH]; intros s H; [done|].
  destruct s as [|b s]; simpl in *; [done|].
  apply andb_true_iff in H as [-> H]. by apply IH.
Qed.

Lemma startswith_self_app (p t : string) : startswith p (p ++ t) = true.
Proof.
  induction p as [|a p IH]; simpl; [done|].
  by rewrite Ascii.eqb_refl.
Qed.

Lemma startswith_split (p s : string) :
  startswith p s = true -> exists t, s = p ++ t.
Proof.
  revert s; induction p as [|a p IH]; intros s H.
  - by exists s.
  - destruct s as [|b s]; simpl in H; [done|].
    apply andb_true_iff in H as [Hab H].
    apply Ascii.eqb_eq in Hab as ->.
    destruct (IH _ H) as [t ->]. by exists t.
Qed.

Lemma py_in_startswith (needle hay : string) :
  startswith needle hay = true -> py_in needle hay = true.
Proof. intros H. destruct hay; simpl; by rewrite H. Qed.

(** [py_in] is the substring relation. *)
Lemma py_in_spec (needle hay : string) :
  py_in needle hay = true <-> exists a b, hay = a ++ needle ++ b.
Proof.
  split.
  - induction hay as [|c hay IH]; simpl; intros H.
    + apply orb_true_iff in H as [H|H]; [|done].
      apply startswith_split in H as [t ->]. by exists "", t.
    + apply orb_true_iff in H as [H|H].
      * apply startswith_split in H as [t ->]. by exists "", t.
      * destruct (IH H) as (a & b & ->). by exists (String c a), b.
  - intros (a & b & ->). induction a as [|c a IH]; simpl.
    + apply py_in_startswith, startswith_self_app.
    + rewrite IH. apply orb_true_r.
Qed.

Lemma first_match_fst (table : list (string * list string)) (q name : string) :
  first_match table q = Some name -> name ∈ map fst table.
Proof.
  induction table as [|[n kws] table IH]; simpl; [done|].
  destruct (any_in kws q).
  - intros [= ->]. left.
  - intros H. right. by apply IH.
Qed.

(** the first entry with a keyword in the question decides *)
Lemma first_match_first (pre post : list (string * list string))
    (name : string) (kws : list string) (q : string) :
  Forall (fun e => any_in (snd e) q = false) pre ->
  any_in kws q = true ->
  first_match (pre ++ (name, kws) :: post) q = Some name.
Proof.
  intros Hpre Hk. induction Hpre as [|[n k] pre Hn _ IH]; simpl.
  - by rewrite Hk.
  - simpl in Hn. by rewrite Hn.
Qed.

Lemma first_match_none (table : list (string * list string)) (q : string) :
  Forall (fun e => any_in (snd e) q = false) table ->
  first_match table q = None.
Proof.
  induction 1 as [|[n k] table Hn _ IH]; simpl; [done|].
  simpl in Hn. by rewrite Hn.
Qed.

(** ** The classifier *)

(** membership in a list of literals, by evaluation *)
Ltac in_literals :=
  match goal with
  | |- ?P => apply (bool_decide_unpack P); vm_compute; exact I
  end.

Lemma determine_intent_in (q : string) : _determine_intent q ∈ intents.
Proof.
  unfold _determine_intent.
  destruct (first_match aggregation_keywords q) as [name|] eqn:E.
  - apply first_match_fst in E. simpl in E.
    repeat (apply elem_of_cons in E as [->|E]; [in_literals|]).
    by apply elem_of_nil in E.
  - repeat match goal with |- context [if ?b then _ else _] => destruct b end;
      in_literals.
Qed.

Lemma extract_metrics_nonempty (q : string) (ms : list AssessmentType) :
  SYMPTOM_CHECKLIST ∈ ms \/ REACTION_TIME ∈ ms ->
  _extract_metrics q ms <> [].
Proof.
  intros H. unfold _extract_metrics.
  destruct (bool_decide (SYMPTOM_CHECKLIST ∈ ms)) eqn:Es,
           (bool_decide (REACTION_TIME ∈ ms)) eqn:Er.
  4: { apply bool_decide_eq_false in Es, Er. tauto. }
  all: repeat match goal with
       | |- context [py_in ?k ?s] => destruct (py_in k s)
       end; by vm_compute.
Qed.

(** the classification the classifier builds, before the model checks it *)
Lemma classify_query_cases
    (lower : string -> string) (word_char : ascii -> bool) (q : string) :
  let question_lower := lower q in
  let modules :=
    match (if any_in symptom_keywords question_lower
           then [SYMPTOM_CHECKLIST] else []) ++
          (if any_in reaction_time_keywords question_lower
           then [REACTION_TIME] else [])
    with
    | [] => [SYMPTOM_CHECKLIST; REACTION_TIME]
    | ms => ms
    end%list in
  classify_query lower word_char q =
    match _extract_time_range word_char question_lower with
    | Some (CustomDates _) => Raise validation_error
    | tr =>
        Ok {| intent := _determine_intent question_lower;
              modules := modules;
              metrics := _extract_metrics question_lower modules;
              filters := _extract_filters word_char question_lower;
              time_range := tr;
              confidence := 0.8 |}
    end.
Proof.
  cbv zeta. unfold classify_query, QueryClassification_init.
  change (Qle_bool 0 0.8 && Qle_bool 0.8 1) with true.
  destruct (any_in symptom_keywords (lower q)),
           (any_in reaction_time_keywords (lower q));
    cbn [app];
    by destruct (_extract_time_range word_char (lower q)) as [[?|?]|].
Qed.

Lemma classify_query_filters
    (lower : string -> string) (word_char : ascii -> bool) (q : string)
    (c : QueryClassification) :
  classify_query lower word_char q = Ok c ->
  filters c = _extract_filters word_char (lower q).
Proof.
  rewrite classify_query_cases. cbv zeta.
  destruct (_extract_time_range word_char (lower q)) as [[?|?]|];
    by intros [= <-].
Qed.

(** whenever the classifier returns, the classification is well formed *)
Lemma classify_query_well_formed
    (lower : string -> string) (word_char : ascii -> bool) (q : string)
    (c : QueryClassification) :
  classify_query lower word_char q = Ok c -> well_formed (lower q) c.
Proof.
  rewrite classify_query_cases. cbv zeta. intros H.
  assert (Hc : c =
    {| intent := _determine_intent (lower q);
       modules :=
         match (if any_in symptom_keywords (lower q)
                then [SYMPTOM_CHECKLIST] else []) ++
               (if any_in reaction_time_keywords (lower q)
                then [REACTION_TIME] else [])
         with
         | [] => [SYMPTOM_CHECKLIST; REACTION_TIME]
         | ms => ms
         end%list;
       metrics := _extract_metrics (lower q)
         match (if any_in symptom_keywords (lower q)
                then [SYMPTOM_CHECKLIST] else []) ++
               (if any_in reaction_time_keywords (lower q)
                then [REACTION_TIME] else [])
         with
         | [] => [SYMPTOM_CHECKLIST; REACTION_TIME]
         | ms => ms
         end%list;
       filters := _extract_filters word_char (lower q);
       time_range := _extract_time_range word_char (lower q);
       confidence := 0.8 |}).
  { destruct (_extract_time_range word_char (lower q)) as [[?|?]|];
      congruence. }
  subst c. unfold well_formed; cbn [intent modules metrics confidence].
  split; [apply determine_intent_in|].
  destruct (any_in symptom_keywords (lower q)) eqn:Es,
           (any_in reaction_time_keywords (lower q)) eqn:Er; simpl.
  all: repeat split; try done; try (intros; discriminate).
  all: try (apply extract_metrics_nonempty;
            (left; in_literals) || (right; in_literals)).
Qed.

(** C2. The classifier does not return for every question: a question
    with a date and no period phrase, such as "symptoms on 1/15/2024",
    makes the time range a dictionary of custom dates, which the model of
    the classification refuses, and the classifier raises a validation
    error. For every question the classifier either raises this error,
    the question holding a date, or returns a classification whose intent
    is one of the nine names, whose modules are not empty (both modules
    when no keyword of either set occurs), whose metrics are not empty and
    whose confidence is between 0 and 1; it returns on the empty
    question. *)
Theorem classify_query_raises_on_dates :
  classify "symptoms on 1/15/2024" = Raise validation_error /\
  _extract_time_range word_ascii "symptoms on 1/15/2024"
    = Some (CustomDates [("1", "15", "2024")]) /\
  (exists c, classify "" = Ok c) /\
  forall (lower : string -> string) (word_char : ascii -> bool) (q : string),
    (exists c, classify_query lower word_char q = Ok c /\
               well_formed (lower q) c) \/
    (classify_query lower word_char q = Raise validation_error /\
     exists dates,
       _extract_time_range word_char (lower q) = Some (CustomDates dates)).
Proof.
  split; [by vm_compute|]. split; [by vm_compute|].
  split; [eexists; by vm_compute|].
  intros lower word_char q.
  destruct (classify_query lower word_char q) as [c|e] eqn:E.
  - left. exists c. split; [done|]. by apply classify_query_well_formed in E.
  - right. rewrite classify_query_cases in E. cbv zeta in E.
    destruct (_extract_time_range word_char (lower q)) as [[?|dates]|];
      try done.
    split; [done|]. by exists dates.
Qed.

Lemma any_in_spec (keywords : list string) (q : string) :
  any_in keywords q = true <-> mentions keywords q.
Proof.
  unfold any_in, mentions, substring. rewrite existsb_exists. split.
  - intros (k & Hk & Hin). exists k. split.
    + by apply list_elem_of_In.
    + by apply py_in_spec.
  - intros (k & Hk & Hin). exists k. split.
    + by apply list_elem_of_In.
    + by apply py_in_spec.
Qed.

Lemma any_in_false (keywords : list string) (q : string) :
  ~ mentions keywords q -> any_in keywords q = false.
Proof.
  intros H. destruct (any_in keywords q) eqn:E; [|done].
  by apply any_in_spec in E.
Qed.

(** C4. The intent is decided on the lower-cased question by the first
    entry of the table, in the order average, maximum, minimum, count,
    list, one of whose keywords occurs in it; such an entry wins whatever
    the secondary patterns (compare, trend, alert) would say. The three
    questions of the specification get average, maximum and list. *)
Theorem determine_intent_priority :
  map fst aggregation_keywords =
    ["average"; "maximum"; "minimum"; "count"; "list"] /\
  (forall lower word_char q c,
     classify_query lower word_char q = Ok c ->
     intent c = _determine_intent (lower q)) /\
  (forall q pre name keywords post,
     aggregation_keywords = (pre ++ (name, keywords) :: post)%list ->
     (forall e, e ∈ pre -> ~ mentions (snd e) q) ->
     mentions keywords q ->
     _determine_intent q = name) /\
  _determine_intent "compare the trend of the average alert" = "average" /\
  (exists c, classify "what is the average headache score" = Ok c /\
             intent c = "average") /\
  (exists c, classify "show me the worst performance" = Ok c /\
             intent c = "maximum") /\
  (exists c, classify "list all players with symptoms" = Ok c /\
             intent c = "list").
Proof.
  split; [done|]. split.
  { intros lower word_char q c. rewrite classify_query_cases. cbv zeta.
    destruct (_extract_time_range word_char (lower q)) as [[?|?]|];
      by intros [= <-]. }
  split; [|repeat split; try (eexists; split); by vm_compute].
  intros q pre name keywords post Htable Hpre Hk.
  unfold _determine_intent. rewrite Htable.
  rewrite (first_match_first pre post name keywords q); [done| |].
  - apply Forall_forall. intros e He. by apply any_in_false, Hpre.
  - by apply any_in_spec.
Qed.

(** C4 at "show me the worst performance": no keyword of average occurs,
    "worst" does, so the intent is maximum although "show" is a keyword of
    list. *)
Lemma determine_intent_priority_witness :
  _determine_intent "show me the worst performance" = "maximum".
Proof.
  destruct determine_intent_priority as (_ & _ & H & _).
  apply (H "show me the worst performance"
           [("average", ["average"; "avg"; "mean"])]
           "maximum" ["max"; "maximum"; "highest"; "worst"]
           [("minimum", ["min"; "minimum"; "lowest"; "best"]);
            ("count", ["count"; "number"; "how many"]);
            ("list", ["list"; "show"; "display"; "who"])]).
  - reflexivity.
  - intros e He. apply list_elem_of_singleton in He as ->.
    intros Hm. apply any_in_spec in Hm. vm_compute in Hm. discriminate.
  - apply any_in_spec. reflexivity.
Defined.

(** *** Filters *)

Lemma lower_char_not_upper (c : ascii) : is_upper (lower_char c) = false.
Proof. destruct c as [[] [] [] [] [] [] [] []]; reflexivity. Qed.

Lemma lower_ascii_no_upper (s : string) : has_upper (lower_ascii s) = false.
Proof.
  induction s as [|c s IH]; simpl; [done|].
  by rewrite lower_char_not_upper, IH.
Qed.

Lemma lit_mismatch {A} (a c : ascii) (l s : string) (k : string -> option A) :
  a <> c -> Re.lit (String a l) (String c s) k = None.
Proof.
  intros Hne. unfold Re.lit. cbn [startswith].
  by destruct (Ascii.eqb_spec a c).
Qed.

(** every alternative of the team pattern starts with a capital *)
Lemma team_pattern_needs_capital (word_char : ascii -> bool)
    (prev : option ascii) (c : ascii) (s : string) :
  is_upper c = false -> team_pattern word_char prev (String c s) = None.
Proof.
  intros Hc. unfold team_pattern.
  destruct (Re.word_boundary word_char prev _); [|done].
  rewrite !lit_mismatch by (intros <-; discriminate).
  unfold Re.cls, Re.orelse. by rewrite Hc.
Qed.

Lemma scan_team_no_capital (word_char : ascii -> bool) (s : string) :
  has_upper s = false ->
  forall skip prev, Re.scan (team_pattern word_char) skip prev s = [].
Proof.
  induction s as [|c s IH]; simpl; [done|].
  intros H skip prev. apply orb_false_iff in H as [Hc Hs].
  destruct skip; [|by apply IH].
  rewrite team_pattern_needs_capital by done. by apply IH.
Qed.

(** the extracted filters of a text without capitals have no team *)
Lemma extract_filters_no_capital (word_char : ascii -> bool) (s : string) :
  has_upper s = false -> _extract_filters word_char s !! "team" = None.
Proof.
  intros H. unfold _extract_filters, Re.findall.
  rewrite scan_team_no_capital by done.
  repeat match goal with |- context [if ?b then _ else _] => destruct b end;
    done.
Qed.

(** the classifier hands the lower-cased question to the filter
    extraction, so no question gets a team *)
Lemma classify_never_finds_team (q : string) (c : QueryClassification) :
  classify q = Ok c -> filters c !! "team" = None.
Proof.
  intros H. rewrite (classify_query_filters _ _ _ _ H).
  apply extract_filters_no_capital, lower_ascii_no_upper.
Qed.

(** C3. The question of the end-to-end scenario names the team LSU. The
    filter extraction finds it in the question as typed, as its unit test
    expects; the classifier passes the lower-cased question instead, where
    the pattern, which wants capitals, finds nothing: the classification
    has no team. *)
Theorem classify_loses_team :
  let question := "What is the average headache severity for LSU players?" in
  _extract_filters word_ascii question !! "team" = Some (FStr "LSU") /\
  _extract_filters word_ascii "show me LSU players with symptoms" !! "team"
    = Some (FStr "LSU") /\
  exists c, classify question = Ok c /\ filters c !! "team" = None.
Proof.
  split; [by vm_compute|]. split; [by vm_compute|].
  eexists. split; by vm_compute.
Qed.

Lemma extract_filters_min_severity (word_char : ascii -> bool) (s : string) :
  _extract_filters word_char s !! "min_severity" =
    if py_in "severe" s then Some (FInt 4)
    else if py_in "moderate" s then Some (FInt 2)
    else None.
Proof.
  unfold _extract_filters.
  destruct (Re.findall _ s), (py_in "severe" s), (py_in "moderate" s);
    by simplify_map_eq.
Qed.

(** C10, as stated, fails: this question contains the word "severity",
    and its classification has no [min_severity] at all; "severe" is not a
    substring of "severity". *)
Lemma severity_sets_no_threshold :
  let question := "what is the average headache severity" in
  py_in "severity" (lower_ascii question) = true /\
  py_in "severe" (lower_ascii question) = false /\
  exists c, classify question = Ok c /\ filters c !! "min_severity" = None.
Proof.
  split; [by vm_compute|]. split; [by vm_compute|].
  eexists. split; by vm_compute.
Qed.

(** C10, amended. The threshold is decided by substrings of the
    lower-cased question: [min_severity] is 4 exactly when "severe" occurs
    in it, 2 exactly when "moderate" occurs and "severe" does not, and
    absent otherwise. The word "severity" does not contain "severe". *)
Theorem min_severity_rule
    (lower : string -> string) (word_char : ascii -> bool) (q : string)
    (c : QueryClassification) :
  classify_query lower word_char q = Ok c ->
  (filters c !! "min_severity" = Some (FInt 4) <->
     substring "severe" (lower q)) /\
  (filters c !! "min_severity" = Some (FInt 2) <->
     substring "moderate" (lower q) /\ ~ substring "severe" (lower q)) /\
  (filters c !! "min_severity" = None <->
     ~ substring "severe" (lower q) /\ ~ substring "moderate" (lower q)) /\
  ~ substring "severe" "severity".
Proof.
  intros H. rewrite (classify_query_filters _ _ _ _ H).
  rewrite extract_filters_min_severity.
  unfold substring. rewrite <- !py_in_spec.
  destruct (py_in "severe" (lower q)), (py_in "moderate" (lower q));
    repeat split; try done; try (intros []; done); try (intros [= ]).
  all: try (intros H'; by vm_compute in H').
Qed.

(** C10, amended, on "show me players with severe symptoms": the
    threshold is 4. *)
Lemma min_severity_rule_witness :
  exists c,
    classify "show me players with severe symptoms" = Ok c /\
    filters c !! "min_severity" = Some (FInt 4).
Proof.
  assert (E : exists c, classify_query lower_ascii word_ascii
                          "show me players with severe symptoms" = Ok c)
    by (eexists; vm_compute; reflexivity).
  destruct E as [c E]. exists c. split; [exact E|].
  destruct (min_severity_rule _ _ _ _ E) as (H4 & _).
  apply H4. apply py_in_spec. reflexivity.
Defined.

(** ** Floats *)

Lemma round_half_even_close (q : Q) :
  (Qabs (inject_Z (round_half_even q) - q) <= 1 # 2)%Q.
Proof.
  destruct q as [n d]. unfold round_half_even. cbn [Qnum Qden].
  pose proof (Z.div_mod n (Zpos d) ltac:(lia)) as Hn.
  pose proof (Z.mod_pos_bound n (Zpos d) ltac:(lia)) as Hr.
  set (fl := (n / Zpos d)%Z) in *. set (r := (n mod Zpos d)%Z) in *.
  apply Qabs_Qle_condition.
  destruct (Z.ltb_spec (2 * r) (Zpos d));
    [|destruct (Z.ltb_spec (Zpos d) (2 * r)); [|destruct (Z.even fl)]].
  all: unfold Qle, Qminus, Qplus, Qopp, inject_Z; cbn [Qnum Qden]; nia.
Qed.

Lemma pow2_pos (e : Z) : (0 < 2 ^ e)%Q.
Proof. by apply Qpower_0_lt. Qed.

Lemma pow2_nonneg_exp (a : Z) : (0 <= a)%Z -> (2 ^ a == inject_Z (2 ^ a))%Q.
Proof. intros H. by rewrite Zpower_Qpower. Qed.

Lemma floor_log2_le (x : Q) : (0 < x)%Q -> (2 ^ floor_log2 x <= x)%Q.
Proof.
  intros Hx. unfold floor_log2.
  set (a := Z.log2 (Qnum x)). set (b := Z.log2 (Zpos (Qden x))).
  destruct (Qle_bool (2 ^ (a - b)) x) eqn:E; [by apply Qle_bool_iff|].
  assert (Hn : (0 < Qnum x)%Z).
  { unfold Qlt in Hx. simpl in Hx. lia. }
  destruct (Z.log2_spec (Qnum x) Hn) as [Ha _].
  destruct (Z.log2_spec (Zpos (Qden x)) ltac:(lia)) as [_ Hb].
  fold a in Ha. fold b in Hb.
  assert (Ha0 : (0 <= a)%Z) by apply Z.log2_nonneg.
  assert (Hb0 : (0 <= b)%Z) by apply Z.log2_nonneg.
  replace (a - b - 1)%Z with (a - (b + 1))%Z by lia.
  rewrite Qpower_minus by done.
  rewrite !pow2_nonneg_exp by lia.
  assert (Hpa : (0 < 2 ^ a)%Z) by (apply Z.pow_pos_nonneg; lia).
  assert (Hpb : (0 < 2 ^ (b + 1))%Z) by (apply Z.pow_pos_nonneg; lia).
  destruct x as [n d]. cbn [Qnum Qden] in *.
  apply Qle_shift_div_r; [unfold Qlt; simpl; lia|].
  unfold Qle, Qmult, inject_Z; cbn [Qnum Qden]. nia.
Qed.

Lemma scaled_round_close (a : Q) (e : Z) :
  (Qabs (inject_Z (round_half_even (a / 2 ^ e)) * 2 ^ e - a)
   <= 2 ^ (e - 1))%Q.
Proof.
  pose proof (pow2_pos e) as Hp.
  assert (Hne : ~ (2 ^ e == 0)%Q) by (intros H; rewrite H in Hp; by apply Qlt_irrefl in Hp).
  set (m := inject_Z (round_half_even (a / 2 ^ e))).
  assert (Heq : (m * 2 ^ e - a == (m - a / 2 ^ e) * 2 ^ e)%Q) by (field; done).
  rewrite Heq, Qabs_Qmult, (Qabs_pos (2 ^ e)) by (by apply Qlt_le_weak).
  replace (e - 1)%Z with (e + -1)%Z by lia.
  rewrite Qpower_plus by done.
  rewrite (Qmult_comm (2 ^ e)).
  apply Qmult_le_compat_r; [|by apply Qlt_le_weak].
  apply round_half_even_close.
Qed.

Lemma binary64_error (x : Q) :
  (Qabs (binary64 x - x)
   <= 2 ^ (Z.max (floor_log2 (Qabs x) - 52) (-1074) - 1))%Q.
Proof.
  unfold binary64. destruct (Qeq_bool x 0) eqn:E0.
  - apply Qeq_bool_iff in E0.
    assert (H : (Qabs (0 - x) == 0)%Q) by (by rewrite E0).
    rewrite H. apply Qlt_le_weak, pow2_pos.
  - set (e := Z.max (floor_log2 (Qabs x) - 52) (-1074)).
    rewrite Qred_correct.
    destruct (Qle_bool 0 x) eqn:Es.
    + apply Qle_bool_iff in Es.
      set (m := (inject_Z (round_half_even (Qabs x / 2 ^ e)) * 2 ^ e)%Q).
      assert (H : (m - x == m - Qabs x)%Q) by (by rewrite (Qabs_pos x Es)).
      rewrite H. apply scaled_round_close.
    + assert (Hneg : (x <= 0)%Q).
      { destruct (Qlt_le_dec 0 x) as [H|H]; [|done].
        apply Qlt_le_weak, Qle_bool_iff in H. congruence. }
      set (m := (inject_Z (round_half_even (Qabs x / 2 ^ e)) * 2 ^ e)%Q).
      assert (H : (- m - x == - (m - Qabs x))%Q)
        by (rewrite (Qabs_neg x Hneg); ring).
      rewrite H, Qabs_opp. apply scaled_round_close.
Qed.

(** the float nearest to [x] is within half a unit of its last place *)
Lemma binary64_close (x : Q) :
  (Qabs (binary64 x - x) <= Qabs x * 2 ^ (-53) + 2 ^ (-1075))%Q.
Proof.
  destruct (Qeq_dec x 0) as [E0|E0].
  { unfold binary64. rewrite (proj2 (Qeq_bool_iff x 0) E0).
    assert (H : (Qabs (0 - x) == 0)%Q) by (by rewrite E0).
    rewrite H. rewrite <- (Qplus_0_l 0) at 1.
    apply Qplus_le_compat; [|by vm_compute].
    apply Qmult_le_0_compat; [apply Qabs_nonneg|by vm_compute]. }
  eapply Qle_trans; [apply binary64_error|].
  assert (Ha : (0 < Qabs x)%Q).
  { destruct (Qlt_le_dec 0 (Qabs x)) as [H|H]; [done|].
    exfalso. apply E0.
    apply Qabs_Qle_condition in H. destruct H as [H1 H2].
    by apply Qle_antisym. }
  pose proof (floor_log2_le _ Ha) as Hfl.
  destruct (Z.max_spec (floor_log2 (Qabs x) - 52) (-1074)) as [[_ ->]|[_ ->]].
  - rewrite <- (Qplus_0_l (2 ^ (-1074 - 1))).
    apply Qplus_le_compat; [|done].
    apply Qmult_le_0_compat; [apply Qabs_nonneg|by vm_compute].
  - rewrite <- (Qplus_0_r (2 ^ _)).
    apply Qplus_le_compat; [|by vm_compute].
    replace (floor_log2 (Qabs x) - 52 - 1)%Z
      with (floor_log2 (Qabs x) + -53)%Z by lia.
    rewrite Qpower_plus by done.
    apply Qmult_le_compat_r; [done|by vm_compute].
Qed.

Lemma round_half_even_integer (q : Q) (k : Z) :
  (q == inject_Z k)%Q -> round_half_even q = k.
Proof.
  destruct q as [n d]. unfold Qeq, inject_Z, round_half_even. cbn [Qnum Qden].
  intros H. assert (Hn : n = (k * Zpos d)%Z) by lia. subst n.
  rewrite Z.div_mul by lia. rewrite Z.mod_mul by lia.
  destruct (Z.ltb_spec (2 * 0) (Zpos d)); [done|lia].
Qed.

Lemma binary64_exact_nonneg (a : Q) (m e0 : Z) :
  (0 < m < 2 ^ 53)%Z -> (-1074 <= e0)%Z -> (a == inject_Z m * 2 ^ e0)%Q ->
  let e := Z.max (floor_log2 a - 52) (-1074) in
  (inject_Z (round_half_even (a / 2 ^ e)) * 2 ^ e == a)%Q.
Proof.
  intros Hm He0 Ha e.
  assert (Hpos : (0 < a)%Q).
  { rewrite Ha. apply Qmult_lt_0_compat; [|apply pow2_pos].
    unfold Qlt, inject_Z; simpl; lia. }
  pose proof (floor_log2_le a Hpos) as Hfl.
  assert (Hup : (a < 2 ^ (53 + e0))%Q).
  { rewrite Ha, Qpower_plus by done.
    apply Qmult_lt_compat_r; [apply pow2_pos|].
    rewrite pow2_nonneg_exp by lia. unfold Qlt, inject_Z; simpl; lia. }
  assert (Hlt : (floor_log2 a < 53 + e0)%Z).
  { apply (Qpower_lt_compat_l_inv 2); [|done].
    eapply Qle_lt_trans; [exact Hfl|exact Hup]. }
  assert (Hle : (e <= e0)%Z) by (unfold e; lia).
  assert (Hq : (a / 2 ^ e == inject_Z (m * 2 ^ (e0 - e)))%Q).
  { rewrite Ha, inject_Z_mult, <- pow2_nonneg_exp by lia.
    rewrite Qpower_minus by done. field.
    intros H. pose proof (pow2_pos e) as Hp. rewrite H in Hp.
    by apply Qlt_irrefl in Hp. }
  rewrite (round_half_even_integer _ _ Hq).
  rewrite Ha, inject_Z_mult, <- pow2_nonneg_exp by lia.
  rewrite Qpower_minus by done. field.
  intros H. pose proof (pow2_pos e) as Hp. rewrite H in Hp.
  by apply Qlt_irrefl in Hp.
Qed.

(** a float is its own nearest float *)
Lemma binary64_exact (x : Q) : is_float x -> (binary64 x == x)%Q.
Proof.
  intros (m & e0 & Hm & He0 & Hx). unfold binary64.
  destruct (Qeq_bool x 0) eqn:E0; [apply Qeq_bool_iff in E0; by rewrite E0|].
  apply Qeq_bool_neq in E0. rewrite Qred_correct.
  pose proof (pow2_pos e0) as Hp.
  destruct (Z.lt_trichotomy m 0) as [Hneg|[->|Hpos]].
  - assert (Hx0 : (x < 0)%Q).
    { rewrite Hx. rewrite <- (Qmult_0_l (2 ^ e0)).
      apply Qmult_lt_compat_r; [done|]. unfold Qlt, inject_Z; simpl; lia. }
    assert (Es : Qle_bool 0 x = false).
    { destruct (Qle_bool 0 x) eqn:E; [|done]. apply Qle_bool_iff in E.
      exfalso. by apply (Qlt_not_le x 0). }
    rewrite Es.
    assert (Ha : (Qabs x == inject_Z (- m) * 2 ^ e0)%Q).
    { rewrite (Qabs_neg x) by (by apply Qlt_le_weak).
      rewrite Hx, inject_Z_opp. ring. }
    rewrite (binary64_exact_nonneg (Qabs x) (- m) e0) by (done || lia).
    rewrite (Qabs_neg x) by (by apply Qlt_le_weak). ring.
  - exfalso. apply E0. rewrite Hx. ring.
  - assert (Hx0 : (0 < x)%Q).
    { rewrite Hx. apply Qmult_lt_0_compat; [|done].
      unfold Qlt, inject_Z; simpl; lia. }
    rewrite (proj2 (Qle_bool_iff 0 x)) by (by apply Qlt_le_weak).
    assert (Ha : (Qabs x == inject_Z m * 2 ^ e0)%Q)
      by (by rewrite (Qabs_pos x) by (by apply Qlt_le_weak)).
    rewrite (binary64_exact_nonneg (Qabs x) m e0) by (done || lia).
    by apply Qabs_pos, Qlt_le_weak.
Qed.

(** ** Aggregation *)

Lemma fold_left_add (xs : list Z) (a : Z) :
  fold_left Z.add xs a = (a + total xs)%Z.
Proof.
  revert a; induction xs as [|x xs IH]; intros a; simpl.
  - lia.
  - rewrite IH. unfold total. lia.
Qed.

Lemma py_sum_total (xs : list Z) : py_sum xs = total xs.
Proof. unfold py_sum. by rewrite fold_left_add. Qed.

Lemma true_div_mean {A} (f : A -> Z) (data : list A) :
  true_div (py_sum (map f data)) (Z.of_nat (length data))
  = binary64 (mean (map f data)).
Proof. unfold true_div, mean. by rewrite py_sum_total, length_map. Qed.

Lemma fold_max (rest : list Z) (x : Z) :
  let m := fold_left (fun best y => if (best <? y)%Z then y else best) rest x in
  (m = x \/ m ∈ rest) /\ (x <= m)%Z /\ forall y, y ∈ rest -> (y <= m)%Z.
Proof.
  revert x; induction rest as [|y rest IH]; intros x; simpl.
  - split; [by left|]. split; [lia|]. intros y Hy. by apply elem_of_nil in Hy.
  - destruct (Z.ltb_spec x y) as [Hlt|Hge].
    + destruct (IH y) as (Hin & Hle & Hall). split; [|split].
      * right. destruct Hin as [->|Hin]; [left|by right].
      * lia.
      * intros z Hz. apply elem_of_cons in Hz as [->|Hz]; [done|by apply Hall].
    + destruct (IH x) as (Hin & Hle & Hall). split; [|split].
      * destruct Hin as [->|Hin]; [by left|right; by right].
      * done.
      * intros z Hz. apply elem_of_cons in Hz as [->|Hz]; [lia|by apply Hall].
Qed.

Lemma py_max_is_maximum (xs : list Z) : xs <> [] -> is_maximum (py_max xs) xs.
Proof.
  destruct xs as [|x rest]; [done|]. intros _. unfold py_max, is_maximum.
  destruct (fold_max rest x) as (Hin & Hle & Hall). split.
  - destruct Hin as [->|Hin]; [left|by right].
  - intros y Hy. apply elem_of_cons in Hy as [->|Hy]; [done|by apply Hall].
Qed.

Lemma size_set_distinct (l : list string) :
  size (list_to_set l : gset string) = distinct l.
Proof.
  unfold distinct. rewrite <- (size_list_to_set (C := gset string)).
  - f_equal. apply set_eq. intros x.
    by rewrite !elem_of_list_to_set, elem_of_remove_dups.
  - apply NoDup_remove_dups.
Qed.

(** the dictionary built from records *)
Lemma calculate_symptom_metrics_filled (data : list SymptomRow) :
  data <> [] ->
  calculate_symptom_metrics data =
    <["avg_total_symptom_score" :=
        Float (true_div (py_sum (map total_symptom_score data))
                 (Z.of_nat (length data)))]>
   (<["max_total_symptom_score" :=
        Int (py_max (map total_symptom_score data))]>
   (<["avg_headache_severity" :=
        Float (true_div (py_sum (map headache_severity data))
                 (Z.of_nat (length data)))]>
   (<["patient_count" :=
        Int (Z.of_nat (size (list_to_set (map symptom_patient_id data)
                               : gset string)))]>
   (<["assessment_count" := Int (Z.of_nat (length data))]> ∅)))).
Proof. by destruct data. Qed.

(** C5. On a list of symptom records that is not empty the aggregation
    returns the arithmetic mean of [total_symptom_score] and the one of
    [headache_severity], each as a float: the exact sum over the count,
    taken to the nearest float and not rounded otherwise, so the mean
    itself when it is a float and within half a unit of the last place of
    it when not; the maximum of [total_symptom_score]; the number of
    different [patient_id]s; and the number of records. On the empty list
    it returns the empty dictionary. *)
Theorem calculate_symptom_metrics_spec :
  calculate_symptom_metrics [] = ∅ /\
  forall data : list SymptomRow,
    data <> [] ->
    let m := calculate_symptom_metrics data in
    let scores := map total_symptom_score data in
    let headaches := map headache_severity data in
    (exists avg,
       m !! "avg_total_symptom_score" = Some (Float avg) /\
       avg = binary64 (mean scores) /\
       (is_float (mean scores) -> (avg == mean scores)%Q) /\
       (Qabs (avg - mean scores)
        <= Qabs (mean scores) * 2 ^ (-53) + 2 ^ (-1075))%Q) /\
    (exists avg,
       m !! "avg_headache_severity" = Some (Float avg) /\
       avg = binary64 (mean headaches) /\
       (is_float (mean headaches) -> (avg == mean headaches)%Q) /\
       (Qabs (avg - mean headaches)
        <= Qabs (mean headaches) * 2 ^ (-53) + 2 ^ (-1075))%Q) /\
    (exists top, m !! "max_total_symptom_score" = Some (Int top) /\
                 is_maximum top scores) /\
    m !! "patient_count" =
      Some (Int (Z.of_nat (distinct (map symptom_patient_id data)))) /\
    m !! "assessment_count" = Some (Int (Z.of_nat (length data))).
Proof.
  split; [done|]. intros data Hne. cbv zeta.
  rewrite (calculate_symptom_metrics_filled data Hne).
  split; [|split; [|split; [|split]]].
  - eexists. split; [by simplify_map_eq|].
    split; [apply true_div_mean|]. rewrite true_div_mean.
    split; [apply binary64_exact | apply binary64_close].
  - eexists. split; [by simplify_map_eq|].
    split; [apply true_div_mean|]. rewrite true_div_mean.
    split; [apply binary64_exact | apply binary64_close].
  - eexists. split; [by simplify_map_eq|]. apply py_max_is_maximum.
    by destruct data.
  - simplify_map_eq. by rewrite size_set_distinct.
  - by simplify_map_eq.
Qed.

(** C5 on the example: two patients, three records. *)
Lemma calculate_symptom_metrics_spec_witness :
  calculate_symptom_metrics sample_symptoms !! "patient_count" = Some (Int 2) /\
  calculate_symptom_metrics sample_symptoms !! "assessment_count" = Some (Int 3).
Proof.
  destruct calculate_symptom_metrics_spec as [_ H].
  destruct (H sample_symptoms) as (_ & _ & _ & Hp & Hc); [discriminate|].
  split; [exact Hp | exact Hc].
Defined.

(** ** The time range resolver *)

(** C7, as stated, fails: the resolver takes the token and nothing else,
    and reads the clock itself. Called with the same token in two worlds
    that differ by one second on the clock, it returns two windows. *)
Lemma convert_time_range_samples_clock :
  fst (_convert_time_range (Some (Period "today"))
         (world_at (at_time 2024 1 15 12 0 0 0)))
  <> fst (_convert_time_range (Some (Period "today"))
            (world_at (at_time 2024 1 15 12 0 1 0))).
Proof. vm_compute. discriminate. Qed.

(** C7, amended. The resolver takes the token only and reads the instant
    from the clock itself. Its window is a function of the token and of
    the instant it reads: two runs with the same token that read the same
    instant return the same window, whatever else differs in the world,
    and the run leaves the world as it is. Runs that read different
    instants need not agree: for the periods last_week, last_month,
    last_30_days and today the window ends at the instant read, so two
    runs that return after reading different instants return different
    windows. Without a token the window has no bounds, whatever the
    instant. *)
Theorem convert_time_range_function_of_clock :
  (exists resolve : option TimeRange -> datetime -> result DateRange,
     forall (time_range : option TimeRange) (w : World),
       _convert_time_range time_range w
       = (resolve time_range (wall_clock w), w)) /\
  (forall (p : string) (w w' : World) (range range' : DateRange),
     p ∈ ["last_week"; "last_month"; "last_30_days"; "today"] ->
     fst (_convert_time_range (Some (Period p)) w) = Ok range ->
     fst (_convert_time_range (Some (Period p)) w') = Ok range' ->
     wall_clock w <> wall_clock w' ->
     range <> range' /\
     range_end range = Some (wall_clock w) /\
     range_end range' = Some (wall_clock w')) /\
  (forall w : World, fst (_convert_time_range None w) = Ok no_range).
Proof.
  split; [|split; [|done]].
  - exists (fun tr now => fst (_convert_time_range tr (world_at now))).
    intros [[period|dates]|] w; [| done | done].
    unfold _convert_time_range, bind, datetime_now, lift, ret.
    cbn -[minus_days String.eqb].
    repeat match goal with
           | |- context [String.eqb period ?s] => destruct (String.eqb period s)
           | |- context [minus_days ?n ?d] => destruct (minus_days n d)
           end; done.
  - intros p w w' range range' Hp Hw Hw' Hne.
    assert (Hend : forall v r,
              fst (_convert_time_range (Some (Period p)) v) = Ok r ->
              range_end r = Some (wall_clock v)).
    { intros v r. clear -Hp.
      repeat (apply elem_of_cons in Hp as [->|Hp]);
        [| | | |by apply elem_of_nil in Hp].
      all: unfold _convert_time_range, bind, datetime_now, lift, ret.
      all: cbn -[minus_days].
      all: try destruct (minus_days _ (wall_clock v)); cbn.
      all: by intros [= <-]. }
    pose proof (Hend _ _ Hw) as He. pose proof (Hend _ _ Hw') as He'.
    split; [|done]. intros Heq. rewrite Heq, He' in He. congruence.
Qed.

(** the window of "today": the date of the clock's instant with hour,
    minute and second at zero and the microsecond as it was, until that
    instant *)
Lemma today_window (w : World) :
  fst (_convert_time_range (Some (Period "today")) w) =
    Ok {| range_start := Some (replace_hms (wall_clock w) 0 0 0);
          range_end := Some (wall_clock w) |}.
Proof. done. Qed.

(** the window of "yesterday", when the clock is past the first day *)
Lemma yesterday_window (w : World) (yesterday : datetime) :
  prev_day (wall_clock w) = Ok yesterday ->
  fst (_convert_time_range (Some (Period "yesterday")) w) =
    Ok {| range_start := Some (replace_hms yesterday 0 0 0);
          range_end := Some (replace_hms yesterday 23 59 59) |}.
Proof.
  intros H. unfold _convert_time_range, bind, datetime_now, lift, ret.
  simpl. by rewrite H.
Qed.

(** C8. At 10:30:45.123456 on 15 January 2024 the window of "today"
    starts at 00:00:00.123456, not at midnight, and the window of
    "yesterday" runs from 00:00:00.123456 to 23:59:59.123456 of 14 January:
    [replace] resets hour, minute and second and leaves the microsecond. *)
Theorem windows_keep_microsecond :
  let now := at_time 2024 1 15 10 30 45 123456 in
  fst (_convert_time_range (Some (Period "today")) (world_at now)) =
    Ok {| range_start := Some (at_time 2024 1 15 0 0 0 123456);
          range_end := Some now |} /\
  fst (_convert_time_range (Some (Period "yesterday")) (world_at now)) =
    Ok {| range_start := Some (at_time 2024 1 14 0 0 0 123456);
          range_end := Some (at_time 2024 1 14 23 59 59 123456) |}.
Proof. by vm_compute. Qed.

(** ** The supplementary document *)

(** C9. Whatever the object store, the decoding and the parsing do, the
    fetch of the supplementary document never raises an [Exception]: when
    the request, the decoding or the parsing raises one, the caller gets
    the empty document. *)
Theorem get_s3_assessment_data_degrades
    (decode_utf8 : string -> result string)
    (json_loads : string -> result json)
    (patient_id assessment_type : string) (w : World) :
  let r := fst (get_s3_assessment_data decode_utf8 json_loads
                  patient_id assessment_type w) in
  let fetched :=
    s3_get_object w (aws_s3_bucket w) (s3_key patient_id assessment_type) in
  (forall cls msg, r <> Raise (Error cls msg)) /\
  (forall cls msg, fetched = Raise (Error cls msg) -> r = Ok empty_document) /\
  (forall body cls msg,
     fetched = Ok body -> decode_utf8 body = Raise (Error cls msg) ->
     r = Ok empty_document) /\
  (forall body content cls msg,
     fetched = Ok body -> decode_utf8 body = Ok content ->
     json_loads content = Raise (Error cls msg) ->
     r = Ok empty_document) /\
  (forall body content document,
     fetched = Ok body -> decode_utf8 body = Ok content ->
     json_loads content = Ok document ->
     r = Ok document).
Proof.
  cbv zeta.
  unfold get_s3_assessment_data, try_except, bind, settings_aws_s3_bucket,
    s3_get, lift, print, ret, s3_key.
  cbn [fst].
  destruct (s3_get_object w _ _) as [body|[cls msg|cls]] eqn:Hget; cbn.
  2, 3: repeat split; intros; congruence.
  destruct (decode_utf8 body) as [content|[cls msg|cls]] eqn:Hdec; cbn.
  2, 3: repeat split; intros; congruence.
  destruct (json_loads content) as [doc|[cls msg|cls]] eqn:Hload; cbn.
  all: repeat split; intros; congruence.
Qed.

(** C9 when the request to the object store fails: the empty document. *)
Lemma get_s3_assessment_data_degrades_witness :
  fst (get_s3_assessment_data (fun body => Ok body) (fun _ => Ok JNull)
         "P001" "symptom_checklist"
         (world_at (at_time 2024 1 15 12 0 0 0)))
  = Ok empty_document.
Proof.
  destruct (get_s3_assessment_data_degrades (fun body => Ok body)
              (fun _ => Ok JNull) "P001" "symptom_checklist"
              (world_at (at_time 2024 1 15 12 0 0 0))) as (_ & H & _).
  apply (H "NoSuchKey" "The specified key does not exist."). reflexivity.
Defined.

(** ** The orchestrator *)

(** C1. For the question about LSU players, when the store answers the
    symptom query with two records (total scores 35 and 78, headache
    severities 2 and 4) and the reaction time query with none, the result
    names the module [symptom_checklist] alone, its answer contains "56.5"
    and "3.0", and its confidence is 0.8. *)
Theorem process_query_scenario
    (w : World) (user_id team_id : option string) (r1 r2 : SymptomRow) :
  (forall p t f d, get_symptom_data w p t f d = Ok [r1; r2]) ->
  (forall p t f d, get_reaction_time_data w p t f d = Ok []) ->
  total_symptom_score r1 = 35%Z -> headache_severity r1 = 2%Z ->
  total_symptom_score r2 = 78%Z -> headache_severity r2 = 4%Z ->
  exists res,
    process lsu_question user_id team_id w = (Ok res, w) /\
    source_modules res = ["symptom_checklist"] /\
    answer res =
      "Based on 2 symptom assessments, the average total symptom score is 56.5. Average headache severity is 3.0 out of 6." /\
    py_in "56.5" (answer res) = true /\
    py_in "3.0" (answer res) = true /\
    (result_confidence res == 0.8)%Q.
Proof.
  intros Hs Hr Ht1 Hh1 Ht2 Hh2.
  unfold process, process_query.
  replace (classify_query lower_ascii word_ascii lsu_question)
    with (Ok {| intent := "average"; modules := [SYMPTOM_CHECKLIST];
                metrics := ["headache_severity"]; filters := ∅;
                time_range := None; confidence := 0.8 |})
    by (vm_compute; reflexivity).
  unfold bind, ret, lift, query_symptoms, query_reactions. cbn.
  replace (bool_decide (SYMPTOM_CHECKLIST ∈ [SYMPTOM_CHECKLIST])) with true
    by (vm_compute; reflexivity).
  replace (bool_decide (REACTION_TIME ∈ [SYMPTOM_CHECKLIST])) with false
    by (vm_compute; reflexivity).
  rewrite Hs. cbn.
  eexists. split; [reflexivity|]. cbn.
  destruct r1 as [p1 t1 h1], r2 as [p2 t2 h2]. simpl in *. subst.
  repeat split; by vm_compute.
Qed.

(** C1 in that world, without hints. *)
Lemma process_query_scenario_witness :
  exists res,
    process lsu_question None None scenario_world = (Ok res, scenario_world) /\
    source_modules res = ["symptom_checklist"] /\
    answer res =
      "Based on 2 symptom assessments, the average total symptom score is 56.5. Average headache severity is 3.0 out of 6." /\
    py_in "56.5" (answer res) = true /\
    py_in "3.0" (answer res) = true /\
    (result_confidence res == 0.8)%Q.
Proof.
  apply (process_query_scenario scenario_world None None
           {| symptom_patient_id := "P001"; total_symptom_score := 35;
              headache_severity := 2 |}
           {| symptom_patient_id := "P002"; total_symptom_score := 78;
              headache_severity := 4 |}); reflexivity.
Defined.

(** *** Numbers in the answer *)

Lemma all_chars_app (p : ascii -> bool) (s t : string) :
  all_chars p (s ++ t) = all_chars p s && all_chars p t.
Proof.
  induction s as [|c s IH]; simpl; [done|].
  by rewrite IH, andb_assoc.
Qed.

Lemma append_assoc (s t u : string) : (s ++ t) ++ u = s ++ t ++ u.
Proof. induction s as [|c s IH]; simpl; [done|]. by rewrite IH. Qed.

Lemma numeral_app_l (s t : string) :
  numeral s -> all_chars is_numeric t = true -> numeral (s ++ t).
Proof.
  intros [Hne Hs] Ht. split.
  - destruct s; [done|]. discriminate.
  - by rewrite all_chars_app, Hs, Ht.
Qed.

Lemma numeral_app_r (s t : string) :
  all_chars is_numeric s = true -> numeral t -> numeral (s ++ t).
Proof.
  intros Hs [Hne Ht]. split.
  - destruct s; [done|]. discriminate.
  - by rewrite all_chars_app, Hs, Ht.
Qed.

Lemma digits_of_uint (d : Decimal.uint) :
  all_chars is_numeric (NilEmpty.string_of_uint d) = true.
Proof. induction d; simpl; done. Qed.

Lemma numeral_of_uint (d : Decimal.uint) : numeral (NilZero.string_of_uint d).
Proof.
  split.
  - destruct d; discriminate.
  - destruct d; try done; simpl; apply digits_of_uint.
Qed.

Lemma numeral_str_nat (n : nat) : numeral (str_nat n).
Proof. apply numeral_of_uint. Qed.

Lemma numeral_str_Z (n : Z) : numeral (str_Z n).
Proof.
  destruct n; unfold str_Z; try apply numeral_of_uint.
  apply (numeral_app_r "-"); [done|apply numeral_of_uint].
Qed.

Lemma all_numeric_zfill (width : nat) (s : string) :
  all_chars is_numeric s = true -> all_chars is_numeric (zfill width s) = true.
Proof.
  intros Hs. unfold zfill. rewrite all_chars_app, Hs, andb_true_r.
  by induction (width - String.length s)%nat as [|n IH].
Qed.

Lemma numeral_format_f (digits : nat) (x : Q) : numeral (format_f digits x).
Proof.
  unfold format_f.
  set (sign := if Qlt_bool x 0 then "-" else "").
  assert (Hsign : all_chars is_numeric sign = true)
    by (unfold sign; by destruct (Qlt_bool x 0)).
  destruct digits as [|d].
  - apply numeral_app_r; [done|apply numeral_str_Z].
  - apply numeral_app_r; [done|]. apply numeral_app_l; [apply numeral_str_Z|].
    rewrite all_chars_app. simpl. apply all_numeric_zfill, numeral_str_Z.
Qed.

Lemma startswith_mismatch (x c : ascii) (n s : string) :
  x <> c -> startswith (String x n) (String c s) = false.
Proof. intros H. cbn [startswith]. by destruct (Ascii.eqb_spec x c). Qed.

Lemma wordy_head (x : ascii) (n : string) (c : ascii) :
  all_chars (fun c => negb (is_numeric c)) (String x n) = true ->
  is_numeric c = true -> x <> c.
Proof.
  cbn [all_chars]. intros H Hc ->. by rewrite Hc in H.
Qed.

(** a word that starts before a numeral ends before it *)
Lemma startswith_before_numeral (n a : string) (c : ascii) (rest : string) :
  all_chars (fun c => negb (is_numeric c)) n = true ->
  is_numeric c = true ->
  startswith n (a ++ String c rest) = startswith n a.
Proof.
  revert a; induction n as [|x n IH]; intros a Hn Hc; [done|].
  destruct a as [|y a].
  - cbn [String.append]. rewrite startswith_mismatch; [done|].
    by apply (wordy_head x n c).
  - cbn [String.append startswith]. rewrite IH; [done| |done].
    cbn [all_chars] in Hn. by apply andb_true_iff in Hn as [_ Hn].
Qed.

(** a word does not start inside a numeral *)
Lemma py_in_skip_numeral (n d b : string) :
  wordy n -> all_chars is_numeric d = true ->
  py_in n (d ++ b) = py_in n b.
Proof.
  intros [Hne Hn] Hd. induction d as [|c d IH]; [done|].
  cbn [all_chars] in Hd. apply andb_true_iff in Hd as [Hc Hd].
  cbn [String.append py_in]. rewrite IH by done.
  destruct n as [|x n]; [done|].
  rewrite startswith_mismatch; [done|]. by apply (wordy_head x n c).
Qed.

(** a word occurs around a numeral when it occurs before it or after it *)
Lemma py_in_around_numeral (n a d b : string) :
  wordy n -> numeral d ->
  py_in n (a ++ d ++ b) = py_in n a || py_in n b.
Proof.
  intros Hn [Hne Hd]. induction a as [|y a IH].
  - cbn [String.append]. rewrite py_in_skip_numeral by done.
    destruct Hn as [Hn _]. by destruct n.
  - cbn [String.append py_in]. rewrite IH.
    destruct d as [|c d]; [done|].
    cbn [all_chars] in Hd. apply andb_true_iff in Hd as [Hc _].
    cbn [String.append].
    change (String y (a ++ String c (d ++ b)))
      with (String y a ++ String c (d ++ b)).
    rewrite startswith_before_numeral; [|apply Hn|done].
    by rewrite orb_assoc.
Qed.

(** a word in a text with three numerals is in one of the four pieces *)
Lemma py_in_template (n s1 d1 s2 d2 s3 d3 s4 : string) :
  wordy n -> numeral d1 -> numeral d2 -> numeral d3 ->
  py_in n (s1 ++ d1 ++ s2 ++ d2 ++ s3 ++ d3 ++ s4) =
    py_in n s1 || py_in n s2 || py_in n s3 || py_in n s4.
Proof.
  intros Hn H1 H2 H3.
  rewrite !py_in_around_numeral by done. by rewrite !orb_assoc.
Qed.

Lemma append_nil_r (s : string) : s ++ "" = s.
Proof. induction s as [|c s IH]; simpl; [done|]. by rewrite IH. Qed.

Lemma symptom_sentence_template (data : gmap string num) (count : nat)
    (tail : string) :
  symptom_sentence data count ++ tail =
    "Based on " ++ str_nat count ++
    " symptom assessments, the average total symptom score is " ++
    format_f 1 (num_value (get_or_zero data "avg_total_symptom_score")) ++
    ". Average headache severity is " ++
    format_f 1 (num_value (get_or_zero data "avg_headache_severity")) ++
    (" out of 6." ++ tail).
Proof. unfold symptom_sentence. by rewrite !append_assoc. Qed.

Lemma reaction_sentence_template (data : gmap string num) (count : nat)
    (tail : string) :
  reaction_sentence data count ++ tail =
    "Based on " ++ str_nat count ++
    " reaction time tests, the average reaction time is " ++
    format_f 0 (num_value (get_or_zero data "avg_reaction_time")) ++
    "ms with an average accuracy of " ++
    format_f 1 (num_value (get_or_zero data "avg_accuracy")) ++
    ("%." ++ tail).
Proof. unfold reaction_sentence. by rewrite !append_assoc. Qed.

Lemma wordy_literal (s : string) :
  (negb (String.eqb s "") &&
   all_chars (fun c => negb (is_numeric c)) s) = true -> wordy s.
Proof.
  intros H. apply andb_true_iff in H as [Hne Hs]. split; [|done].
  intros ->. discriminate.
Qed.

(** the sentence of the symptom module does not speak of reaction time
    tests, whatever follows it without speaking of them *)
Lemma symptom_sentence_no_reaction (data : gmap string num) (count : nat)
    (tail : string) :
  py_in "reaction time tests" (" out of 6." ++ tail) = false ->
  py_in "reaction time tests" (symptom_sentence data count ++ tail) = false.
Proof.
  intros Htail. rewrite symptom_sentence_template.
  rewrite py_in_template;
    [| by apply wordy_literal | apply numeral_str_nat
     | apply numeral_format_f | apply numeral_format_f].
  by rewrite Htail.
Qed.

Lemma reaction_sentence_no_symptom (data : gmap string num) (count : nat)
    (tail : string) :
  py_in "symptom assessments" ("%." ++ tail) = false ->
  py_in "symptom assessments" (reaction_sentence data count ++ tail) = false.
Proof.
  intros Htail. rewrite reaction_sentence_template.
  rewrite py_in_template;
    [| by apply wordy_literal | apply numeral_str_nat
     | apply numeral_format_f | apply numeral_format_f].
  by rewrite Htail.
Qed.

(** *** What the orchestrator returns *)

Lemma convert_time_range_keeps_world (tr : option TimeRange) (w : World) :
  snd (_convert_time_range tr w) = w.
Proof.
  destruct tr as [[period|dates]|]; [| done | done].
  unfold _convert_time_range, bind, datetime_now, lift, ret.
  cbn -[minus_days String.eqb].
  repeat match goal with
         | |- context [String.eqb period ?s] => destruct (String.eqb period s)
         | |- context [minus_days ?n ?d] => destruct (minus_days n d)
         end; done.
Qed.

(** A run that returns has resolved the window, has fetched the records of
    each selected module, and has built its result from the items of the
    modules that had records. *)
Lemma process_query_returns
    (lower : string -> string) (word_char : ascii -> bool)
    (q : string) (user_id team_id : option string)
    (w w' : World) (res : QueryResult) :
  process_query lower word_char q user_id team_id w = (Ok res, w') ->
  exists c range symptoms reactions,
    classify_query lower word_char q = Ok c /\
    fst (_convert_time_range (time_range c) w) = Ok range /\
    let team := team_scope team_id (filters c) in
    (if bool_decide (SYMPTOM_CHECKLIST ∈ modules c)
     then get_symptom_data w None team (range_start range) (range_end range)
          = Ok symptoms
     else symptoms = []) /\
    (if bool_decide (REACTION_TIME ∈ modules c)
     then get_reaction_time_data w None team
            (range_start range) (range_end range) = Ok reactions
     else reactions = []) /\
    let results :=
      (symptom_results symptoms ++ reaction_results reactions)%list in
    metadata_results (metadata res) = results /\
    source_modules res = map result_module results /\
    answer res = _generate_response c results.
Proof.
  intros H. unfold process_query in H.
  unfold bind at 1 in H. unfold lift at 1 in H.
  destruct (classify_query lower word_char q) as [c|e]; [|done].
  exists c. set (team := team_scope team_id (filters c)) in *.
  unfold bind in H.
  pose proof (convert_time_range_keeps_world (time_range c) w) as Hw.
  destruct (_convert_time_range (time_range c) w) as [[range|e] w1] eqn:Hconv;
    [|done].
  simpl in Hw. subst w1. exists range.
  unfold query_symptoms, query_reactions, ret in H.
  destruct (bool_decide (SYMPTOM_CHECKLIST ∈ modules c)).
  - destruct (get_symptom_data w None team _ _) as [symptoms|e] eqn:Hs; [|done].
    exists symptoms.
    destruct (bool_decide (REACTION_TIME ∈ modules c)).
    + destruct symptoms as [|s ss]; cbn [negb is_nil] in H.
      all: destruct (get_reaction_time_data w None team _ _)
             as [reactions|e] eqn:Hr; [|done].
      all: exists reactions.
      all: destruct reactions; cbn [negb is_nil] in H;
             by injection H as <- <-.
    + exists []. destruct symptoms; cbn [negb is_nil] in H;
        by injection H as <- <-.
  - exists [].
    destruct (bool_decide (REACTION_TIME ∈ modules c)).
    + destruct (get_reaction_time_data w None team _ _)
        as [reactions|e] eqn:Hr; [|done].
      exists reactions.
      destruct reactions; cbn [negb is_nil] in H; by injection H as <- <-.
    + exists []. by injection H as <- <-.
Qed.

Lemma symptom_metrics_not_empty (rows : list SymptomRow) :
  rows <> [] -> calculate_symptom_metrics rows <> ∅.
Proof.
  intros Hne Hempty.
  assert (H : calculate_symptom_metrics rows !! "assessment_count" = None)
    by (by rewrite Hempty).
  rewrite calculate_symptom_metrics_filled in H by done.
  by simplify_map_eq.
Qed.

Lemma reaction_metrics_not_empty (rows : list ReactionRow) :
  rows <> [] -> calculate_reaction_time_metrics rows <> ∅.
Proof.
  intros Hne Hempty.
  assert (H : calculate_reaction_time_metrics rows !! "test_count" = None)
    by (by rewrite Hempty).
  destruct rows; [done|]. unfold calculate_reaction_time_metrics in H.
  by simplify_map_eq.
Qed.

(** an answer made from reaction time tests alone has no sentence on
    symptom assessments *)
Lemma generate_response_reaction_only (c : QueryClassification)
    (rows : list ReactionRow) :
  py_in "symptom assessments" (_generate_response c (reaction_results rows))
    = false.
Proof.
  destruct rows as [|r rows]; [by vm_compute|].
  unfold reaction_results, _generate_response, response_parts.
  set (data := calculate_reaction_time_metrics (r :: rows)).
  cbn [module_sentences result_module result_data result_count is_nil negb].
  change (String.eqb "reaction_time" "symptom_checklist") with false.
  change (String.eqb "reaction_time" "reaction_time") with true.
  cbn [app]. rewrite andb_true_r.
  destruct (String.eqb (intent c) "alert"); cbn [app join].
  - apply reaction_sentence_no_symptom. by vm_compute.
  - rewrite <- (append_nil_r (reaction_sentence _ _)).
    apply reaction_sentence_no_symptom. by vm_compute.
Qed.

(** an answer made from symptom assessments alone has no sentence on
    reaction time tests *)
Lemma generate_response_symptom_only (c : QueryClassification)
    (rows : list SymptomRow) :
  py_in "reaction time tests" (_generate_response c (symptom_results rows))
    = false.
Proof.
  destruct rows as [|r rows]; [by vm_compute|].
  unfold symptom_results, _generate_response, response_parts.
  set (data := calculate_symptom_metrics (r :: rows)).
  cbn [module_sentences result_module result_data result_count is_nil negb].
  change (String.eqb "symptom_checklist" "symptom_checklist") with true.
  cbn [app]. rewrite andb_true_r.
  destruct (String.eqb (intent c) "alert"); cbn [app join].
  - apply symptom_sentence_no_reaction. by vm_compute.
  - rewrite <- (append_nil_r (symptom_sentence _ _)).
    apply symptom_sentence_no_reaction. by vm_compute.
Qed.

(** C6. In every result the orchestrator returns, a module named in
    [source_modules] was selected by the classifier, its fetch returned at
    least one record, and its item of the result list carries the
    aggregate of those records, which is not empty. A selected module
    whose fetch returned no record is not in [source_modules], and the
    answer has no sentence for it. *)
Theorem source_modules_have_records
    (lower : string -> string) (word_char : ascii -> bool)
    (q : string) (user_id team_id : option string)
    (w w' : World) (res : QueryResult) :
  process_query lower word_char q user_id team_id w = (Ok res, w') ->
  exists c range,
    classify_query lower word_char q = Ok c /\
    fst (_convert_time_range (time_range c) w) = Ok range /\
    let team := team_scope team_id (filters c) in
    let symptoms :=
      get_symptom_data w None team (range_start range) (range_end range) in
    let reactions :=
      get_reaction_time_data w None team
        (range_start range) (range_end range) in
    (forall m, m ∈ source_modules res ->
       (m = "symptom_checklist" /\ SYMPTOM_CHECKLIST ∈ modules c /\
        exists rows,
          symptoms = Ok rows /\ rows <> [] /\
          calculate_symptom_metrics rows <> ∅ /\
          {| result_module := m;
             result_data := calculate_symptom_metrics rows;
             result_count := length rows |}
            ∈ metadata_results (metadata res)) \/
       (m = "reaction_time" /\ REACTION_TIME ∈ modules c /\
        exists rows,
          reactions = Ok rows /\ rows <> [] /\
          calculate_reaction_time_metrics rows <> ∅ /\
          {| result_module := m;
             result_data := calculate_reaction_time_metrics rows;
             result_count := length rows |}
            ∈ metadata_results (metadata res))) /\
    ((SYMPTOM_CHECKLIST ∈ modules c) -> symptoms = Ok [] ->
     ("symptom_checklist" ∉ source_modules res) /\
     py_in "symptom assessments" (answer res) = false) /\
    ((REACTION_TIME ∈ modules c) -> reactions = Ok [] ->
     ("reaction_time" ∉ source_modules res) /\
     py_in "reaction time tests" (answer res) = false).
Proof.
  intros H.
  destruct (process_query_returns _ _ _ _ _ _ _ _ H)
    as (c & range & symptoms & reactions & Hc & Hrange & Hs & Hr
        & Hres & Hsrc & Hans).
  exists c, range. split; [done|]. split; [done|].
  cbv zeta in *. rewrite Hres, Hsrc, Hans.
  set (team := team_scope team_id (filters c)) in *.
  split; [|split].
  - intros m Hm. rewrite map_app in Hm. apply elem_of_app in Hm as [Hm|Hm].
    + left. destruct symptoms as [|s ss]; [by apply elem_of_nil in Hm|].
      apply list_elem_of_singleton in Hm as ->.
      destruct (bool_decide (SYMPTOM_CHECKLIST ∈ modules c)) eqn:Hsel;
        [|done].
      apply bool_decide_eq_true in Hsel.
      split; [done|]. split; [done|]. exists (s :: ss).
      split; [done|]. split; [done|].
      split; [by apply symptom_metrics_not_empty|].
      apply elem_of_app. left. apply list_elem_of_singleton. done.
    + right. destruct reactions as [|r rs]; [by apply elem_of_nil in Hm|].
      apply list_elem_of_singleton in Hm as ->.
      destruct (bool_decide (REACTION_TIME ∈ modules c)) eqn:Hsel;
        [|done].
      apply bool_decide_eq_true in Hsel.
      split; [done|]. split; [done|]. exists (r :: rs).
      split; [done|]. split; [done|].
      split; [by apply reaction_metrics_not_empty|].
      apply elem_of_app. right. apply list_elem_of_singleton. done.
  - intros Hsel Hempty. rewrite bool_decide_eq_true_2 in Hs by done.
    rewrite Hempty in Hs. injection Hs as <-. cbn [symptom_results app].
    split; [|apply generate_response_reaction_only].
    destruct reactions; cbn; [apply not_elem_of_nil|].
    intros Hin. apply list_elem_of_singleton in Hin. discriminate.
  - intros Hsel Hempty. rewrite bool_decide_eq_true_2 in Hr by done.
    rewrite Hempty in Hr. injection Hr as <-.
    cbn [reaction_results]. rewrite app_nil_r.
    split; [|apply generate_response_symptom_only].
    destruct symptoms; cbn; [apply not_elem_of_nil|].
    intros Hin. apply list_elem_of_singleton in Hin. discriminate.
Qed.

(** C6 on a question without keyword, which selects both modules, in the
    world of the scenario, where no reaction time test is stored: the
    result names no reaction time module and says nothing of such tests. *)
Lemma source_modules_have_records_witness :
  exists res,
    process "Tell me about the team" None None scenario_world
      = (Ok res, scenario_world) /\
    ("reaction_time" ∉ source_modules res) /\
    py_in "reaction time tests" (answer res) = false.
Proof.
  assert (E : exists res,
             process_query lower_ascii word_ascii "Tell me about the team"
               None None scenario_world = (Ok res, scenario_world))
    by (eexists; vm_compute; reflexivity).
  destruct E as [res E]. exists res. split; [exact E|].
  destruct (source_modules_have_records _ _ _ _ _ _ _ _ E)
    as (c & range & Hc & _ & _ & _ & Hdrop).
  assert (Hmods : modules c = [SYMPTOM_CHECKLIST; REACTION_TIME]).
  { vm_compute in Hc. by injection Hc as <-. }
  apply Hdrop; [rewrite Hmods; in_literals | reflexivity].
Defined.

(** * Further properties of the code *)

(** ** The classifier, continued *)

Lemma first_match_some (table : list (string * list string)) (q name : string) :
  first_match table q = Some name ->
  exists e, e ∈ table /\ mentions (snd e) q.
Proof.
  induction table as [|[n kws] table IH]; simpl; [done|].
  destruct (any_in kws q) eqn:E.
  - intros _. exists (n, kws). split; [left|]. by apply any_in_spec.
  - intros H. destruct (IH H) as (e & He & Hm). exists e. split; [by right|done].
Qed.

Lemma first_match_none_inv (table : list (string * list string)) (q : string) :
  first_match table q = None ->
  forall e, e ∈ table -> ~ mentions (snd e) q.
Proof.
  induction table as [|[n kws] table IH]; simpl.
  - intros _ e He. by apply elem_of_nil in He.
  - destruct (any_in kws q) eqn:E; [done|]. intros H e He.
    apply elem_of_cons in He as [->|He]; [|by apply IH].
    simpl. intros Hm. apply any_in_spec in Hm. congruence.
Qed.

Lemma py_in_iff (k s : string) : py_in k s = true <-> substring k s.
Proof. apply py_in_spec. Qed.

(** X1. The modules of a classification are decided by the two keyword
    sets on the lower-cased question: the symptom module is selected when
    a symptom keyword occurs or no reaction time keyword does, the
    reaction time module when a reaction time keyword occurs or no
    symptom keyword does. The list is the symptom module, the reaction
    time module, or both in this order: never empty, never with a
    duplicate, never a baseline or post-injury module. *)
Theorem classify_query_modules
    (lower : string -> string) (word_char : ascii -> bool) (q : string)
    (c : QueryClassification) :
  classify_query lower word_char q = Ok c ->
  (SYMPTOM_CHECKLIST ∈ modules c <->
     mentions symptom_keywords (lower q) \/
     ~ mentions reaction_time_keywords (lower q)) /\
  (REACTION_TIME ∈ modules c <->
     mentions reaction_time_keywords (lower q) \/
     ~ mentions symptom_keywords (lower q)) /\
  modules c ∈ [[SYMPTOM_CHECKLIST]; [REACTION_TIME];
               [SYMPTOM_CHECKLIST; REACTION_TIME]].
Proof.
  rewrite classify_query_cases. cbv zeta. intros H.
  assert (Hm : modules c =
    match (if any_in symptom_keywords (lower q)
           then [SYMPTOM_CHECKLIST] else []) ++
          (if any_in reaction_time_keywords (lower q)
           then [REACTION_TIME] else [])
    with
    | [] => [SYMPTOM_CHECKLIST; REACTION_TIME]
    | ms => ms
    end%list).
  { destruct (_extract_time_range word_char (lower q)) as [[?|?]|];
      by simplify_eq. }
  rewrite Hm, <- !any_in_spec. clear.
  destruct (any_in symptom_keywords (lower q)),
           (any_in reaction_time_keywords (lower q)); cbn [app].
  all: split; [|split; [|in_literals]].
  all: split; intros Hx.
  all: first [in_literals
             | by (apply (bool_decide_pack _) in Hx; vm_compute in Hx)
             | intuition congruence].
Qed.

(** the modules of "how accurate was the test": the reaction time module
    alone *)
Lemma classify_query_modules_witness :
  exists c,
    classify "how accurate was the test" = Ok c /\
    modules c ∈ [[SYMPTOM_CHECKLIST]; [REACTION_TIME];
                 [SYMPTOM_CHECKLIST; REACTION_TIME]] /\
    (REACTION_TIME ∈ modules c).
Proof.
  assert (E : exists c, classify_query lower_ascii word_ascii
                          "how accurate was the test" = Ok c)
    by (eexists; vm_compute; reflexivity).
  destruct E as [c E]. exists c. split; [exact E|].
  destruct (classify_query_modules _ _ _ _ E) as (_ & Hr & Hin).
  split; [exact Hin|]. apply Hr. left. apply any_in_spec. reflexivity.
Defined.

(** X2. When no keyword of the aggregation table occurs in the question,
    the intent is decided by the secondary patterns in a fixed order:
    compare when "compare" or "vs" occurs; else trend when "trend" or
    "over time" occurs; else alert when "alert" or "concern" occurs; else
    summary. None of the four is ever the intent of a question in which a
    keyword of the table occurs. *)
Theorem determine_intent_secondary (q : string) :
  let aggregated :=
    exists e, e ∈ aggregation_keywords /\ mentions (snd e) q in
  let compare := substring "compare" q \/ substring "vs" q in
  let trend := substring "trend" q \/ substring "over time" q in
  let alert := substring "alert" q \/ substring "concern" q in
  (_determine_intent q = "compare" <-> ~ aggregated /\ compare) /\
  (_determine_intent q = "trend" <-> ~ aggregated /\ ~ compare /\ trend) /\
  (_determine_intent q = "alert" <->
     ~ aggregated /\ ~ compare /\ ~ trend /\ alert) /\
  (_determine_intent q = "summary" <->
     ~ aggregated /\ ~ compare /\ ~ trend /\ ~ alert).
Proof.
  cbv zeta. unfold _determine_intent.
  destruct (first_match aggregation_keywords q) as [name|] eqn:E.
  - assert (Hagg : exists e, e ∈ aggregation_keywords /\ mentions (snd e) q)
      by (by apply first_match_some in E).
    apply first_match_fst in E. simpl in E.
    repeat (apply elem_of_cons in E as [->|E];
            [repeat split; (done || (intros []; done))|]).
    by apply elem_of_nil in E.
  - assert (Hagg : ~ exists e, e ∈ aggregation_keywords /\ mentions (snd e) q).
    { intros (e & He & Hm). by apply (first_match_none_inv _ _ E e). }
    rewrite <- !py_in_iff.
    destruct (py_in "compare" q), (py_in "vs" q), (py_in "trend" q),
      (py_in "over time" q), (py_in "alert" q), (py_in "concern" q);
      cbn [orb]; repeat split; try done; try tauto; try (intros; intuition congruence).
Qed.

(** the metrics, by cases on the eight tests the extraction makes *)
Lemma extract_metrics_cases (q : string) (ms : list AssessmentType) :
  let metrics := _extract_metrics q ms in
  let symptom := bool_decide (SYMPTOM_CHECKLIST ∈ ms) in
  let reaction := bool_decide (REACTION_TIME ∈ ms) in
  let total_score := py_in "total" q && py_in "score" q in
  bool_decide (NoDup metrics) = true /\
  forallb (fun m => bool_decide
             (m ∈ ["headache_severity"; "total_symptom_score";
                   "accuracy_percentage"; "average_reaction_time"]))
          metrics = true /\
  bool_decide ("headache_severity" ∈ metrics)
    = symptom && (py_in "headache" q || negb total_score) /\
  bool_decide ("total_symptom_score" ∈ metrics)
    = symptom && (total_score || negb (py_in "headache" q)) /\
  bool_decide ("average_reaction_time" ∈ metrics) = reaction /\
  bool_decide ("accuracy_percentage" ∈ metrics)
    = reaction && py_in "accuracy" q.
Proof.
  cbv zeta. unfold _extract_metrics.
  generalize (bool_decide (SYMPTOM_CHECKLIST ∈ ms)),
    (bool_decide (REACTION_TIME ∈ ms)), (py_in "headache" q),
    (py_in "total" q), (py_in "score" q), (py_in "accuracy" q),
    (py_in "reaction" q), (py_in "time" q).
  intros [] [] [] [] [] [] [] []; vm_compute; done.
Qed.

Lemma bool_decide_eq_iff (P : Prop) `{Decision P} (b : bool) :
  bool_decide P = b -> (P <-> b = true).
Proof. intros <-. symmetry. apply bool_decide_eq_true. Qed.

(** X3. The metrics follow the modules: a symptom metric is listed exactly
    when the symptom module is selected, [average_reaction_time] exactly
    when the reaction time module is, so a question on accuracy alone
    still gets it; [accuracy_percentage] needs the module and the word
    "accuracy". Within the symptom module the headache severity is listed
    when "headache" occurs or when "total" and "score" do not both occur,
    the total score when "total" and "score" occur or "headache" does
    not. The list has no duplicate and no other name. *)
Theorem extract_metrics_by_module (q : string) (ms : list AssessmentType) :
  let metrics := _extract_metrics q ms in
  let total_score := substring "total" q /\ substring "score" q in
  NoDup metrics /\
  (forall m, m ∈ metrics ->
     m ∈ ["headache_severity"; "total_symptom_score";
          "accuracy_percentage"; "average_reaction_time"]) /\
  ("headache_severity" ∈ metrics <->
     SYMPTOM_CHECKLIST ∈ ms /\ (substring "headache" q \/ ~ total_score)) /\
  ("total_symptom_score" ∈ metrics <->
     SYMPTOM_CHECKLIST ∈ ms /\ (total_score \/ ~ substring "headache" q)) /\
  ("average_reaction_time" ∈ metrics <-> REACTION_TIME ∈ ms) /\
  ("accuracy_percentage" ∈ metrics <->
     REACTION_TIME ∈ ms /\ substring "accuracy" q).
Proof.
  cbv zeta.
  destruct (extract_metrics_cases q ms) as (Hnd & Hall & Hh & Ht & Hr & Ha).
  rewrite <- !py_in_iff.
  rewrite <- (bool_decide_eq_true (SYMPTOM_CHECKLIST ∈ ms)).
  rewrite <- (bool_decide_eq_true (REACTION_TIME ∈ ms)).
  apply bool_decide_eq_iff in Hh, Ht, Hr, Ha.
  rewrite Hh, Ht, Hr, Ha. clear Hh Ht Hr Ha.
  split; [by apply bool_decide_eq_true in Hnd|].
  split.
  { intros m Hm. rewrite forallb_forall in Hall.
    apply list_elem_of_In, Hall in Hm. by apply bool_decide_eq_true in Hm. }
  destruct (bool_decide (SYMPTOM_CHECKLIST ∈ ms)),
    (bool_decide (REACTION_TIME ∈ ms)), (py_in "headache" q),
    (py_in "total" q), (py_in "score" q), (py_in "accuracy" q);
    cbn; intuition congruence.
Qed.

(** ** Regular expressions *)

Lemma string_drop_app (l rest : string) :
  string_drop (String.length l) (l ++ rest) = rest.
Proof. induction l as [|c l IH]; simpl; done. Qed.

Lemma lit_inv {A} (l s : string) (k : string -> option A) (r : A) :
  Re.lit l s k = Some r -> exists rest, s = l ++ rest /\ k rest = Some r.
Proof.
  unfold Re.lit. destruct (startswith l s) eqn:E; [|done].
  apply startswith_split in E as [rest ->]. rewrite string_drop_app.
  intros H. by exists rest.
Qed.

Lemma cls_inv {A} (p : ascii -> bool) (s : string)
    (k : ascii -> string -> option A) (r : A) :
  Re.cls p s k = Some r ->
  exists c rest, s = String c rest /\ p c = true /\ k c rest = Some r.
Proof.
  destruct s as [|c rest]; simpl; [done|].
  destruct (p c) eqn:E; [|done]. intros H. by exists c, rest.
Qed.

Lemma one_or_two_inv {A} (p : ascii -> bool) (s : string)
    (k : string -> string -> option A) (r : A) :
  Re.one_or_two p s k = Some r ->
  exists g rest,
    s = g ++ rest /\ all_chars p g = true /\
    (1 <= String.length g <= 2)%nat /\ k g rest = Some r.
Proof.
  unfold Re.one_or_two. intros H.
  apply cls_inv in H as (a & s1 & -> & Ha & H).
  destruct (Re.cls p s1 _) as [r'|] eqn:E.
  - injection H as ->. apply cls_inv in E as (b & s2 & -> & Hb & E).
    exists (String a (String b "")), s2. cbn [all_chars String.length].
    rewrite Ha, Hb. split; [done|]. split; [done|]. split; [lia|done].
  - exists (String a ""), s1. cbn [all_chars String.length]. rewrite Ha.
    split; [done|]. split; [done|]. split; [lia|done].
Qed.

Lemma four_inv {A} (p : ascii -> bool) (s : string)
    (k : string -> string -> option A) (r : A) :
  Re.four p s k = Some r ->
  exists g rest,
    s = g ++ rest /\ all_chars p g = true /\
    String.length g = 4%nat /\ k g rest = Some r.
Proof.
  unfold Re.four. intros H.
  apply cls_inv in H as (a & s1 & -> & Ha & H).
  apply cls_inv in H as (b & s2 & -> & Hb & H).
  apply cls_inv in H as (c & s3 & -> & Hc & H).
  apply cls_inv in H as (d & s4 & -> & Hd & H).
  exists (String a (String b (String c (String d "")))), s4.
  simpl. by rewrite Ha, Hb, Hc, Hd.
Qed.

Lemma star_inv {A} (p : ascii -> bool) (s : string) :
  forall (taken : string) (k : string -> string -> option A) (r : A),
    Re.star p taken s k = Some r ->
    exists g rest,
      s = g ++ rest /\ all_chars p g = true /\ k (taken ++ g) rest = Some r.
Proof.
  induction s as [|c s IH]; intros taken k r; simpl.
  - intros H. exists "", "". by rewrite !append_nil_r.
  - destruct (p c) eqn:Hc.
    + destruct (Re.star p (taken ++ String c "") s k) as [r'|] eqn:E.
      * intros [= ->]. apply IH in E as (g & rest & -> & Hg & E).
        exists (String c g), rest. simpl. rewrite Hc, Hg.
        rewrite append_assoc in E. by simpl in E.
      * intros H. exists "", (String c s). by rewrite !append_nil_r.
    + intros H. exists "", (String c s). by rewrite !append_nil_r.
Qed.

Lemma plus_inv {A} (p : ascii -> bool) (s : string)
    (k : string -> string -> option A) (r : A) :
  Re.plus p s k = Some r ->
  exists g rest,
    s = g ++ rest /\ g <> "" /\ all_chars p g = true /\ k g rest = Some r.
Proof.
  unfold Re.plus. intros H.
  apply cls_inv in H as (c & s1 & -> & Hc & H).
  apply star_inv in H as (g & rest & -> & Hg & H).
  exists (String c g), rest. simpl. by rewrite Hc, Hg.
Qed.

(** what holds of every match holds of every item [findall] returns *)
Lemma scan_Forall {A} (m : option ascii -> string -> option (A * nat))
    (P : string -> A -> Prop) :
  (forall prev s g len, m prev s = Some (g, len) -> P s g) ->
  (forall c s g, P s g -> P (String c s) g) ->
  forall s skip prev, Forall (P s) (Re.scan m skip prev s).
Proof.
  intros Hm Hmono. induction s as [|c s IH]; intros skip prev; simpl.
  - constructor.
  - assert (Hrest : forall skip prev,
              Forall (P (String c s)) (Re.scan m skip prev s)).
    { intros skip' prev'. eapply Forall_impl; [apply IH|]. apply Hmono. }
    destruct skip; [|apply Hrest].
    destruct (m prev (String c s)) as [[g len]|] eqn:E; [|apply Hrest].
    constructor; [by eapply Hm|apply Hrest].
Qed.

(** texts that differ by the grouping of their pieces *)
Ltac regroup :=
  repeat first [rewrite append_assoc | progress cbn [String.append]].

Lemma substring_prefix (g rest : string) : substring g (g ++ rest).
Proof. by exists "", rest. Qed.

Lemma substring_cons (c : ascii) (g s : string) :
  substring g s -> substring g (String c s).
Proof. intros (a & b & ->). by exists (String c a), b. Qed.

Lemma last_char_nonempty (x : ascii) (a : string) :
  last_char (String x a) <> None.
Proof.
  revert x. induction a as [|y a IH]; intros x; [done|]. apply (IH y).
Qed.

Lemma last_char_cons (c : ascii) (a : string) :
  last_char (String c a) = char_before (Some c) a.
Proof.
  unfold char_before. destruct a as [|x a]; [done|].
  change (last_char (String c (String x a))) with (last_char (String x a)).
  pose proof (last_char_nonempty x a).
  by destruct (last_char (String x a)).
Qed.

Lemma last_char_app (t u : string) :
  u <> "" -> last_char (t ++ u) = last_char u.
Proof.
  intros Hu. induction t as [|c t IH]; [done|].
  cbn [String.append]. rewrite last_char_cons. unfold char_before.
  rewrite IH. destruct u as [|x u]; [done|].
  pose proof (last_char_nonempty x u).
  by destruct (last_char (String x u)).
Qed.

Lemma char_before_cons (prev : option ascii) (c : ascii) (a : string) :
  char_before prev (String c a) = char_before (Some c) a.
Proof.
  unfold char_before at 1. rewrite last_char_cons.
  unfold char_before. by destruct (last_char a).
Qed.

(** what holds of every match where it stands holds of every item
    [findall] returns *)
Lemma scan_Forall_at {A} (m : option ascii -> string -> option (A * nat))
    (P : option ascii -> string -> A -> Prop) :
  (forall prev s g len, m prev s = Some (g, len) -> P prev s g) ->
  (forall prev c s g, P (Some c) s g -> P prev (String c s) g) ->
  forall s skip prev, Forall (P prev s) (Re.scan m skip prev s).
Proof.
  intros Hm Hmono. induction s as [|c s IH]; intros skip prev; simpl.
  - constructor.
  - assert (Hrest : forall skip,
              Forall (P prev (String c s)) (Re.scan m skip (Some c) s)).
    { intros skip'. eapply Forall_impl; [apply IH|]. apply Hmono. }
    destruct skip; [|apply Hrest].
    destruct (m prev (String c s)) as [[g len]|] eqn:E; [|apply Hrest].
    constructor; [by eapply Hm|apply Hrest].
Qed.

(** [findall] finds something when the pattern matches somewhere *)
Lemma scan_complete {A} (m : option ascii -> string -> option (A * nat))
    (a s : string) :
  s <> "" ->
  forall prev r,
    m (char_before prev a) s = Some r -> Re.scan m 0 prev (a ++ s) <> [].
Proof.
  intros Hs. induction a as [|x a IH]; intros prev r Hm.
  - destruct s as [|c s]; [done|]. cbn [String.append Re.scan].
    change (char_before prev "") with prev in Hm. rewrite Hm.
    by destruct r.
  - cbn [String.append Re.scan].
    destruct (m prev (String x (a ++ s))) as [[g len]|]; [done|].
    apply (IH (Some x) r). by rewrite <- (char_before_cons prev).
Qed.

Lemma lit_complete {A} (l rest : string) (k : string -> option A) :
  Re.lit l (l ++ rest) k = k rest.
Proof.
  unfold Re.lit. by rewrite startswith_self_app, string_drop_app.
Qed.

Lemma date_pattern_inv (word_char : ascii -> bool) (prev : option ascii)
    (s : string) (date : string * string * string) (len : nat) :
  date_pattern word_char prev s = Some (date, len) ->
  date_shaped date /\ date_stands word_char prev date s.
Proof.
  unfold date_pattern.
  destruct (Re.word_boundary word_char prev (head s)) eqn:Hb1; [|done].
  intros H.
  apply one_or_two_inv in H as (m & s1 & -> & Hm & Hlm & H).
  apply lit_inv in H as (s2 & -> & H).
  apply one_or_two_inv in H as (d & s3 & -> & Hd & Hld & H).
  apply lit_inv in H as (s4 & -> & H).
  apply four_inv in H as (y & s5 & -> & Hy & Hly & H).
  destruct (Re.word_boundary word_char (last_char y) (head s5)) eqn:Hb2;
    [|done].
  injection H as <- <-. split; [done|].
  exists "", s5. cbn [date_text]. split; [by regroup|].
  change (char_before prev "") with prev.
  destruct m as [|m1 m]; [simpl in Hlm; lia|].
  split; [exact Hb1|].
  assert (Hy0 : y <> "") by (intros ->; discriminate).
  rewrite (last_char_app (String m1 m) ("/" ++ d ++ "/" ++ y)) by done.
  rewrite (last_char_app "/" (d ++ "/" ++ y)) by (by destruct d).
  rewrite (last_char_app d ("/" ++ y)) by done.
  by rewrite (last_char_app "/" y).
Qed.

(** the date pattern matches where a date stands between word boundaries *)
Lemma date_pattern_complete (word_char : ascii -> bool) (prev : option ascii)
    (date : string * string * string) (b : string) :
  date_shaped date ->
  Re.word_boundary word_char prev (head (date_text date)) = true ->
  Re.word_boundary word_char (last_char (date_text date)) (head b) = true ->
  exists len,
    date_pattern word_char prev (date_text date ++ b) = Some (date, len).
Proof.
  destruct date as [[m d] y]. intros (Hm & Hlm & Hd & Hld & Hy & Hly) Hb1 Hb2.
  destruct y as [|y1 [|y2 [|y3 [|y4 [|? ?]]]]]; try discriminate Hly.
  cbn [all_chars] in Hy.
  apply andb_true_iff in Hy as [Hy1 Hy].
  apply andb_true_iff in Hy as [Hy2 Hy].
  apply andb_true_iff in Hy as [Hy3 Hy].
  apply andb_true_iff in Hy as [Hy4 _].
  assert (Hone : forall g, all_chars is_digit g = true ->
            (1 <= String.length g <= 2)%nat ->
            (exists g1, g = String g1 "" /\ is_digit g1 = true) \/
            (exists g1 g2, g = String g1 (String g2 "") /\
                           is_digit g1 = true /\ is_digit g2 = true)).
  { clear. intros g Hg Hl.
    destruct g as [|g1 [|g2 [|? ?]]]; cbn [String.length] in Hl; try lia.
    - left. exists g1. cbn [all_chars] in Hg.
      by apply andb_true_iff in Hg as [-> _].
    - right. exists g1, g2. cbn [all_chars] in Hg.
      apply andb_true_iff in Hg as [-> Hg].
      by apply andb_true_iff in Hg as [-> _]. }
  destruct (Hone m Hm Hlm) as [(m1 & -> & Hm1)|(m1 & m2 & -> & Hm1 & Hm2)];
    destruct (Hone d Hd Hld) as [(d1 & -> & Hd1)|(d1 & d2 & -> & Hd1 & Hd2)].
  all: eexists; unfold date_pattern, date_text in *.
  all: cbn [String.append head last_char] in *.
  all: rewrite Hb1.
  all: unfold Re.one_or_two, Re.four, Re.cls, Re.lit.
  all: cbn [startswith String.length string_drop].
  all: rewrite ?Hm1, ?Hm2, ?Hd1, ?Hd2, ?Hy1, ?Hy2, ?Hy3, ?Hy4.
  all: change (is_digit "/") with false; cbv iota.
  all: change (Ascii.eqb "/" "/") with true; cbn [andb string_drop].
  all: rewrite ?Hd1, ?Hd2, ?Hy1, ?Hy2, ?Hy3, ?Hy4.
  all: change (is_digit "/") with false; cbv iota.
  all: change (Ascii.eqb "/" "/") with true; cbn [andb string_drop].
  all: rewrite ?Hy1, ?Hy2, ?Hy3, ?Hy4; cbn [last_char].
  all: rewrite Hb2; reflexivity.
Qed.

Lemma team_pattern_inv (word_char : ascii -> bool) (prev : option ascii)
    (s g : string) (len : nat) :
  team_pattern word_char prev s = Some (g, len) ->
  team_name g /\ substring g s.
Proof.
  unfold team_pattern.
  destruct (Re.word_boundary word_char prev (head s)); [|done].
  unfold Re.orelse.
  destruct (Re.lit "LSU" s _) as [r|] eqn:E1.
  { intros [= ->]. apply lit_inv in E1 as (rest & -> & H).
    destruct (Re.word_boundary word_char _ _); [|done].
    injection H as <- <-. split; [by left|apply substring_prefix]. }
  destruct (Re.lit "Tigers" s _) as [r|] eqn:E2.
  { intros [= ->]. apply lit_inv in E2 as (rest & -> & H).
    destruct (Re.word_boundary word_char _ _); [|done].
    injection H as <- <-. split; [right; by left|apply substring_prefix]. }
  clear E1 E2. intros H.
  apply cls_inv in H as (c1 & s1 & -> & Hc1 & H).
  apply plus_inv in H as (w1 & s2 & -> & Hn1 & Hw1 & H).
  apply lit_inv in H as (s3 & -> & H).
  apply cls_inv in H as (c2 & s4 & -> & Hc2 & H).
  apply plus_inv in H as (w2 & s5 & -> & Hn2 & Hw2 & H).
  destruct (Re.word_boundary word_char _ _); [|done].
  injection H as <- <-. split.
  - right; right. exists (String c1 w1), (String c2 w2).
    split; [done|]. split; [by exists c1, w1 | by exists c2, w2].
  - exists "", s5. by regroup.
Qed.

Lemma first_match_split (table : list (string * list string))
    (q name : string) :
  first_match table q = Some name ->
  exists pre kws post,
    table = (pre ++ (name, kws) :: post)%list /\
    mentions kws q /\
    forall e, e ∈ pre -> ~ mentions (snd e) q.
Proof.
  induction table as [|[n kws] table IH]; simpl; [done|].
  destruct (any_in kws q) eqn:E.
  - intros [= ->]. exists [], kws, table. split; [done|].
    split; [by apply any_in_spec|]. intros e He. by apply elem_of_nil in He.
  - intros H. destruct (IH H) as (pre & kws' & post & -> & Hm & Hpre).
    exists ((n, kws) :: pre), kws', post. split; [done|]. split; [done|].
    intros e He. apply elem_of_cons in He as [->|He]; [|by apply Hpre].
    simpl. intros Hm'. apply any_in_spec in Hm'. congruence.
Qed.

(** X4. On an ASCII text the time range is a period whenever a phrase of
    the table of periods occurs in it, the first entry of the table with
    such a phrase giving the name, whatever dates the text holds. Dates
    are looked for only when no phrase occurs. The time range is then a
    list of dates that is not empty, each with a month and a day of one
    or two digits and a year of four, standing in the text as
    month/day/year between two word boundaries; the digits are not
    checked against the calendar. There is no time range exactly when no
    phrase occurs and no such date stands in the text between two word
    boundaries. *)
Theorem extract_time_range_shape (word_char : ascii -> bool) (q : string) :
  ascii_text q = true ->
  let no_phrase := forall e, e ∈ time_patterns -> ~ mentions (snd e) q in
  let no_date :=
    forall date, date_shaped date -> ~ date_occurs word_char date q in
  match _extract_time_range word_char q with
  | Some (Period p) =>
      p ∈ ["last_week"; "last_month"; "last_30_days"; "today"; "yesterday"] /\
      exists pre phrases post,
        time_patterns = (pre ++ (p, phrases) :: post)%list /\
        mentions phrases q /\
        forall e, e ∈ pre -> ~ mentions (snd e) q
  | Some (CustomDates dates) =>
      no_phrase /\ dates <> [] /\
      forall date, date ∈ dates ->
        date_shaped date /\ date_occurs word_char date q
  | None => no_phrase /\ no_date
  end /\
  (_extract_time_range word_char q = None <-> no_phrase /\ no_date).
Proof.
  intros _. cbv zeta.
  assert (Hsound : forall date,
            date ∈ Re.findall (date_pattern word_char) q ->
            date_shaped date /\ date_occurs word_char date q).
  { intros date Hin.
    pose proof (scan_Forall_at (date_pattern word_char)
                  (fun prev s date =>
                     date_shaped date /\ date_stands word_char prev date s))
      as Hall.
    assert (HF := Hall
      ltac:(intros prev s g len; apply date_pattern_inv)
      ltac:(intros prev c s g [Hs (a & b & -> & Hb1 & Hb2)]; split; [done|];
            exists (String c a), b; split; [done|];
            by rewrite char_before_cons)
      q 0%nat None).
    rewrite Forall_forall in HF. by apply HF. }
  assert (Hcomplete : Re.findall (date_pattern word_char) q = [] ->
            forall date, date_shaped date -> ~ date_occurs word_char date q).
  { intros Hnone date Hshape (a & b & -> & Hb1 & Hb2).
    destruct (date_pattern_complete word_char (char_before None a) date b
                Hshape Hb1 Hb2) as [len Hm].
    revert Hnone. unfold Re.findall.
    apply (scan_complete _ a (date_text date ++ b)) with (r := (date, len));
      [|done].
    destruct date as [[m d] y]. destruct Hshape as (_ & Hlm & _).
    destruct m; [simpl in Hlm; lia|done]. }
  unfold _extract_time_range.
  destruct (first_match time_patterns q) as [p|] eqn:E.
  - split; [|split; [done|]].
    + split; [|by apply first_match_split].
      apply first_match_fst in E. exact E.
    + intros [Hno _]. apply first_match_some in E as (e & He & Hme).
      exfalso. by apply (Hno e).
  - pose proof (first_match_none_inv _ _ E) as Hno.
    destruct (Re.findall (date_pattern word_char) q) as [|date dates] eqn:Ef.
    + assert (Hnodate : forall date, date_shaped date ->
                          ~ date_occurs word_char date q)
        by (by apply Hcomplete).
      split; [done|]. by split.
    + split; [|split; [done|]].
      * split; [done|]. split; [done|]. intros dt Hdt. by apply Hsound.
      * intros [_ Hnodate]. exfalso.
        destruct (Hsound date ltac:(left)) as [Hshape Hocc].
        by apply (Hnodate date).
Qed.

(** "symptoms on 1/15/2024": the date stands in the text between two word
    boundaries *)
Lemma extract_time_range_shape_witness :
  date_shaped ("1", "15", "2024") /\
  date_occurs word_ascii ("1", "15", "2024") "symptoms on 1/15/2024".
Proof.
  pose proof (extract_time_range_shape word_ascii "symptoms on 1/15/2024"
                eq_refl) as [H _].
  cbv zeta in H.
  change (_extract_time_range word_ascii "symptoms on 1/15/2024")
    with (Some (CustomDates [("1", "15", "2024")])) in H.
  destruct H as (_ & _ & H). apply H. left.
Defined.

(** X5. The filters read from a text have no other key than [team] and
    [min_severity]. The team, when there is one, is a piece of the text
    that is "LSU", "Tigers" or two capitalized words with a space between
    them, whatever the words are; a text without capital has no team. The
    threshold, when there is one, is 4 or 2. *)
Theorem extract_filters_shape (word_char : ascii -> bool) (q : string) :
  let filters := _extract_filters word_char q in
  (forall k, is_Some (filters !! k) -> k = "team" \/ k = "min_severity") /\
  (forall v, filters !! "team" = Some v ->
     exists t, v = FStr t /\ team_name t /\ substring t q /\
               Re.findall (team_pattern word_char) q !! 0%nat = Some t) /\
  (forall v, filters !! "min_severity" = Some v -> v = FInt 4 \/ v = FInt 2) /\
  (has_upper q = false -> filters !! "team" = None).
Proof.
  cbv zeta. split; [|split; [|split]].
  - intros k. unfold _extract_filters.
    destruct (decide (k = "team")) as [->|Ht]; [by left|].
    destruct (decide (k = "min_severity")) as [->|Hs]; [by right|].
    destruct (Re.findall _ q), (py_in "severe" q), (py_in "moderate" q);
      simplify_map_eq; by intros [? [=]].
  - intros v.
    pose proof (scan_Forall (team_pattern word_char)
                  (fun s t => team_name t /\ substring t s)) as Hall.
    unfold _extract_filters.
    destruct (Re.findall (team_pattern word_char) q) as [|t ts] eqn:Ef.
    { destruct (py_in "severe" q), (py_in "moderate" q); by simplify_map_eq. }
    assert (Ht : team_name t /\ substring t q).
    { assert (HF := Hall ltac:(intros prev s g len; apply team_pattern_inv)
                      ltac:(intros c s g [Hs Hsub]; split;
                            [done|by apply substring_cons])
                      q 0%nat None).
      rewrite Forall_forall in HF. apply HF.
      fold (Re.findall (team_pattern word_char) q). rewrite Ef. left. }
    intros Hv. exists t.
    destruct (py_in "severe" q), (py_in "moderate" q); simplify_map_eq;
      by destruct Ht.
  - intros v. rewrite extract_filters_min_severity.
    destruct (py_in "severe" q), (py_in "moderate" q); intros [= <-];
      first [by left | by right].
  - apply extract_filters_no_capital.
Qed.

(** ** The calendar *)

Lemma days_in_month_bounds (y m : Z) : (28 <= days_in_month y m <= 31)%Z.
Proof.
  unfold days_in_month.
  repeat match goal with |- context [if ?b then _ else _] => destruct b end;
    lia.
Qed.

(** a month adds its days to the days before it *)
Lemma days_before_month_succ (y m : Z) :
  (2 <= m)%Z ->
  days_before_month y m =
    (days_before_month y (m - 1) + days_in_month y (m - 1))%Z.
Proof.
  intros H. unfold days_before_month.
  replace (Z.to_nat (m - 1)) with (S (Z.to_nat (m - 1 - 1))) by lia.
  cbn [days_of_months]. do 2 f_equal. lia.
Qed.

Lemma days_before_month_first (y : Z) : days_before_month y 1 = 0%Z.
Proof. reflexivity. Qed.

Lemma days_of_months_nonneg (y : Z) (k : nat) : (0 <= days_of_months y k)%Z.
Proof.
  induction k as [|k IH]; cbn [days_of_months]; [lia|].
  pose proof (days_in_month_bounds y (Z.of_nat (S k))). lia.
Qed.

Lemma days_before_month_nonneg (y m : Z) : (0 <= days_before_month y m)%Z.
Proof. apply days_of_months_nonneg. Qed.

(** the twelve months of a year have 365 days, 366 in a leap year *)
Lemma days_of_year (y : Z) :
  (days_before_month y 12 + 31 = if is_leap y then 366 else 365)%Z.
Proof.
  unfold days_before_month. cbv -[is_leap]. by destruct (is_leap y).
Qed.

(** a year adds its days, 366 when it is a leap year, to the days before *)
Lemma days_before_year_succ (y : Z) :
  days_before_year (y + 1) =
    (days_before_year y + if is_leap y then 366 else 365)%Z.
Proof.
  unfold days_before_year, is_leap.
  replace (y + 1 - 1)%Z with y by lia.
  destruct (Z.eqb_spec (y mod 4) 0), (Z.eqb_spec (y mod 100) 0),
    (Z.eqb_spec (y mod 400) 0); cbn [andb orb negb];
    Z.div_mod_to_equations; lia.
Qed.

Lemma days_before_year_nonneg (y : Z) :
  (1 <= y)%Z -> (0 <= days_before_year y)%Z.
Proof. unfold days_before_year. intros H. Z.div_mod_to_equations. lia. Qed.

Lemma ordinal_pos (dt : datetime) : valid_datetime dt -> (1 <= ordinal dt)%Z.
Proof.
  intros (Hy & Hm & Hd & _). unfold ordinal.
  pose proof (days_before_year_nonneg (year dt)).
  pose proof (days_before_month_nonneg (year dt) (month dt)). lia.
Qed.

(** the day before a date: the date of the previous day number, at the
    same time; there is none before 1 January of year 1 *)
Lemma prev_day_spec (dt : datetime) :
  valid_datetime dt ->
  (ordinal dt = 1%Z -> prev_day dt = Raise overflow_error) /\
  ((1 < ordinal dt)%Z ->
   exists dt', prev_day dt = Ok dt' /\ valid_datetime dt' /\
               ordinal dt' = (ordinal dt - 1)%Z /\
               time_of_day dt' = time_of_day dt).
Proof.
  intros Hv. pose proof Hv as (Hy & Hm & Hd & Hh & Hmi & Hs & Hus).
  pose proof (days_before_year_nonneg (year dt)) as Hby.
  pose proof (days_before_month_nonneg (year dt) (month dt)) as Hbm.
  unfold prev_day.
  destruct (Z.ltb_spec 1 (day dt)) as [Hday|Hday].
  { split; [unfold ordinal; lia|]. intros _. eexists. split; [done|].
    split; [|split; [unfold ordinal; simpl; lia|done]].
    unfold valid_datetime. simpl. lia. }
  destruct (Z.ltb_spec 1 (month dt)) as [Hmon|Hmon].
  { pose proof (days_before_month_succ (year dt) (month dt)) as Hsucc.
    pose proof (days_in_month_bounds (year dt) (month dt - 1)) as Hb.
    pose proof (days_before_month_nonneg (year dt) (month dt - 1)) as Hbm'.
    split; [unfold ordinal; lia|]. intros _. eexists. split; [done|].
    split; [|split; [unfold ordinal; simpl; lia|done]].
    unfold valid_datetime. simpl. lia. }
  destruct (Z.ltb_spec 1 (year dt)) as [Hyear|Hyear].
  { pose proof (days_before_year_succ (year dt - 1)) as Hsucc.
    replace (year dt - 1 + 1)%Z with (year dt) in Hsucc by lia.
    pose proof (days_before_year_nonneg (year dt - 1)) as Hby'.
    assert (Hm1 : month dt = 1%Z) by lia.
    pose proof (days_of_year (year dt - 1)) as Hbm12.
    assert (Hord : (ordinal dt = days_before_year (year dt) + 1)%Z).
    { unfold ordinal. rewrite Hm1, days_before_month_first. lia. }
    split; [destruct (is_leap (year dt - 1)); lia|]. intros _.
    eexists. split; [done|].
    split; [|split; [|done]].
    - unfold valid_datetime. simpl. unfold days_in_month. simpl. lia.
    - rewrite Hord. unfold ordinal. simpl.
      destruct (is_leap (year dt - 1)); lia. }
  assert (Hy1 : year dt = 1%Z) by lia.
  assert (Hm1 : month dt = 1%Z) by lia.
  split; [done|]. unfold ordinal. rewrite Hy1, Hm1. vm_compute days_before_year.
  rewrite days_before_month_first. lia.
Qed.

(** [n] days before a date: the date [n] day numbers before, at the same
    time; the subtraction overflows when there is no such date *)
Lemma minus_days_spec (n : nat) :
  forall dt, valid_datetime dt ->
    ((ordinal dt <= Z.of_nat n)%Z -> minus_days n dt = Raise overflow_error) /\
    ((Z.of_nat n < ordinal dt)%Z ->
     exists dt', minus_days n dt = Ok dt' /\ valid_datetime dt' /\
                 ordinal dt' = (ordinal dt - Z.of_nat n)%Z /\
                 time_of_day dt' = time_of_day dt).
Proof.
  induction n as [|n IH]; intros dt Hv.
  - pose proof (ordinal_pos dt Hv). split; [lia|]. intros _.
    exists dt. split; [done|]. split; [done|]. split; [lia|done].
  - pose proof (ordinal_pos dt Hv) as Hpos.
    destruct (prev_day_spec dt Hv) as [Hfirst Hlater].
    cbn [minus_days].
    destruct (Z.eq_dec (ordinal dt) 1%Z) as [H1|H1].
    { rewrite (Hfirst H1). split; [done|lia]. }
    destruct Hlater as (dt1 & -> & Hv1 & Ho1 & Ht1); [lia|].
    destruct (IH dt1 Hv1) as [Hover Hok]. split.
    + intros Hle. apply Hover. lia.
    + intros Hlt. destruct Hok as (dt' & E & Hv' & Ho' & Ht'); [lia|].
      exists dt'. split; [done|]. split; [done|]. split; [lia|congruence].
Qed.

(** X6. On a clock that shows a date of the calendar, the resolver turns
    "last_week" into the window from the same time of the day 7 days
    earlier until now, and "last_month" like "last_30_days" into the one
    from 30 days earlier. "today" gives the window from the current day
    with hour, minute and second 0 until now, and "yesterday" the
    previous day from hour, minute and second 0 to 23:59:59; both bounds
    keep the microsecond of the clock, so they are midnight and the last
    second of the day only up to that microsecond. When the clock is less
    than that many days after 1 January of year 1 the subtraction
    overflows and the resolver raises. Any other period, a list of custom
    dates and no time range give the window without bounds: dates found
    in the question never restrict the search. *)
Theorem convert_time_range_windows (w : World) :
  valid_datetime (wall_clock w) ->
  let now := wall_clock w in
  let window tr := fst (_convert_time_range tr w) in
  (forall p n,
     (p, n) ∈ [("last_week", 7%nat); ("last_month", 30%nat);
               ("last_30_days", 30%nat)] ->
     ((ordinal now <= Z.of_nat n)%Z ->
      window (Some (Period p)) = Raise overflow_error) /\
     ((Z.of_nat n < ordinal now)%Z ->
      exists start,
        window (Some (Period p)) =
          Ok {| range_start := Some start; range_end := Some now |} /\
        valid_datetime start /\
        ordinal start = (ordinal now - Z.of_nat n)%Z /\
        time_of_day start = time_of_day now)) /\
  (ordinal now = 1%Z ->
   window (Some (Period "yesterday")) = Raise overflow_error) /\
  ((1 < ordinal now)%Z ->
   exists yesterday,
     window (Some (Period "yesterday")) =
       Ok {| range_start :=
               Some {| year := year yesterday; month := month yesterday;
                       day := day yesterday;
                       hour := 0; minute := 0; second := 0;
                       microsecond := microsecond now |};
             range_end :=
               Some {| year := year yesterday; month := month yesterday;
                       day := day yesterday;
                       hour := 23; minute := 59; second := 59;
                       microsecond := microsecond now |} |} /\
     valid_datetime yesterday /\
     ordinal yesterday = (ordinal now - 1)%Z) /\
  window (Some (Period "today")) =
    Ok {| range_start :=
            Some {| year := year now; month := month now; day := day now;
                    hour := 0; minute := 0; second := 0;
                    microsecond := microsecond now |};
          range_end := Some now |} /\
  (forall p,
     p ∉ ["last_week"; "last_month"; "last_30_days"; "today"; "yesterday"] ->
     window (Some (Period p)) = Ok no_range) /\
  (forall dates, window (Some (CustomDates dates)) = Ok no_range) /\
  window None = Ok no_range.
Proof.
  intros Hv. cbv zeta.
  split; [|split; [|split; [|split; [|split; [|split]]]]]; try done.
  - intros p n Hin.
    destruct (minus_days_spec n (wall_clock w) Hv) as [Hover Hok].
    assert (Hrun : fst (_convert_time_range (Some (Period p)) w) =
              match minus_days n (wall_clock w) with
              | Ok start => Ok {| range_start := Some start;
                                  range_end := Some (wall_clock w) |}
              | Raise e => Raise e
              end).
    { repeat (apply elem_of_cons in Hin as [[= -> ->]|Hin]);
        [| | |by apply elem_of_nil in Hin].
      all: unfold _convert_time_range, bind, datetime_now, lift, ret.
      all: cbn -[minus_days].
      all: by destruct (minus_days _ (wall_clock w)). }
    rewrite Hrun. split.
    + intros Hle. by rewrite (Hover Hle).
    + intros Hlt. destruct (Hok Hlt) as (start & -> & Hvs & Hos & Hts).
      by exists start.
  - intros H1. destruct (minus_days_spec 1 (wall_clock w) Hv) as [Hover _].
    unfold _convert_time_range, bind, datetime_now, lift, ret.
    cbn -[minus_days]. rewrite Hover by lia. done.
  - intros H1. destruct (minus_days_spec 1 (wall_clock w) Hv) as [_ Hok].
    destruct Hok as (y & Hy & Hvy & Hoy & Hty); [lia|].
    exists y. unfold _convert_time_range, bind, datetime_now, lift, ret.
    cbn -[minus_days]. rewrite Hy. injection Hty as _ _ _ <-.
    split; [done|]. split; [done|]. lia.
  - intros p Hp. unfold _convert_time_range, bind, datetime_now, lift, ret.
    cbn -[minus_days String.eqb].
    repeat match goal with
           | |- context [String.eqb p ?s] =>
               destruct (String.eqb_spec p s) as [->|_];
                 [exfalso; apply Hp; in_literals|]
           end.
    done.
Qed.

(** the window of the last week at 10:30:45 on 15 January 2024 starts on
    8 January at 10:30:45 *)
Lemma convert_time_range_windows_witness :
  fst (_convert_time_range (Some (Period "last_week"))
         (world_at (at_time 2024 1 15 10 30 45 0)))
  = Ok {| range_start := Some (at_time 2024 1 8 10 30 45 0);
          range_end := Some (at_time 2024 1 15 10 30 45 0) |}.
Proof.
  assert (Hv : valid_datetime
                 (wall_clock (world_at (at_time 2024 1 15 10 30 45 0))))
    by (vm_compute; intuition discriminate).
  destruct (convert_time_range_windows _ Hv) as (Hweek & _).
  destruct (Hweek "last_week" 7%nat) as [_ Hok]; [left|].
  destruct Hok as (start & Hrun & _); [vm_compute; reflexivity|].
  rewrite Hrun. vm_compute in Hrun. injection Hrun as <-. reflexivity.
Defined.

Lemma classify_query_time_range
    (lower : string -> string) (word_char : ascii -> bool) (q : string)
    (c : QueryClassification) :
  classify_query lower word_char q = Ok c ->
  time_range c = None \/
  exists p, time_range c = Some (Period p) /\
            p ∈ ["last_week"; "last_month"; "last_30_days"; "today";
                 "yesterday"].
Proof.
  rewrite classify_query_cases. cbv zeta. unfold _extract_time_range.
  destruct (first_match time_patterns (lower q)) as [p|] eqn:E.
  - intros [= <-]. right. exists p. split; [done|].
    by apply first_match_fst in E.
  - destruct (Re.findall _ _); [|done]. intros [= <-]. by left.
Qed.

(** X7. The time range of a classification the classifier returns is
    absent or a period of the table, never a list of dates and never
    another name. On a clock that shows a date of the calendar more than
    30 days after 1 January of year 1 the resolver returns a window for
    it: the window without bounds when the time range is absent, a window
    with both bounds when it is a period. So the resolution of the window
    of a classified question does not fail, and a question is searched
    over all dates exactly when it has no period phrase. *)
Theorem classified_window_resolves
    (lower : string -> string) (word_char : ascii -> bool) (q : string)
    (c : QueryClassification) (w : World) :
  classify_query lower word_char q = Ok c ->
  valid_datetime (wall_clock w) ->
  (30 < ordinal (wall_clock w))%Z ->
  (time_range c = None \/
   exists p, time_range c = Some (Period p) /\
             p ∈ ["last_week"; "last_month"; "last_30_days"; "today";
                  "yesterday"]) /\
  exists range,
    fst (_convert_time_range (time_range c) w) = Ok range /\
    (time_range c = None -> range = no_range) /\
    (time_range c <> None ->
     exists date_from date_to,
       range = {| range_start := Some date_from;
                  range_end := Some date_to |}).
Proof.
  intros Hc Hv Hord. pose proof (classify_query_time_range _ _ _ _ Hc) as Htr.
  split; [done|].
  destruct Htr as [->|(p & -> & Hp)].
  { exists no_range. by repeat split. }
  destruct (minus_days_spec 7 _ Hv) as [_ H7].
  destruct (minus_days_spec 30 _ Hv) as [_ H30].
  destruct (minus_days_spec 1 _ Hv) as [_ H1].
  destruct H7 as (d7 & E7 & _); [lia|].
  destruct H30 as (d30 & E30 & _); [lia|].
  destruct H1 as (d1 & E1 & _); [lia|].
  repeat (apply elem_of_cons in Hp as [->|Hp]);
    [| | | | |by apply elem_of_nil in Hp].
  all: unfold _convert_time_range, bind, datetime_now, lift, ret.
  all: cbn -[minus_days].
  all: rewrite ?E7, ?E30, ?E1; cbn.
  all: eexists; split; [done|]; split; [done|]; intros _; by do 2 eexists.
Qed.

(** "show symptoms from last week" at noon on 15 January 2024: the window
    has both bounds *)
Lemma classified_window_resolves_witness :
  exists c range date_from date_to,
    classify "show symptoms from last week" = Ok c /\
    fst (_convert_time_range (time_range c)
           (world_at (at_time 2024 1 15 12 0 0 0))) = Ok range /\
    range = {| range_start := Some date_from; range_end := Some date_to |}.
Proof.
  assert (E : exists c, classify_query lower_ascii word_ascii
                          "show symptoms from last week" = Ok c)
    by (eexists; vm_compute; reflexivity).
  destruct E as [c E].
  assert (Hv : valid_datetime
                 (wall_clock (world_at (at_time 2024 1 15 12 0 0 0))))
    by (vm_compute; intuition discriminate).
  assert (Ho : (30 < ordinal
                       (wall_clock (world_at (at_time 2024 1 15 12 0 0 0))))%Z)
    by reflexivity.
  destruct (classified_window_resolves _ _ _ _ _ E Hv Ho)
    as (_ & range & Hrange & _ & Hsome).
  destruct Hsome as (date_from & date_to & Hr).
  { vm_compute in E. injection E as <-. discriminate. }
  exists c, range, date_from, date_to. split; [exact E|]. split; [exact Hrange|exact Hr].
Defined.

(** ** The error of a float average *)

(** an integer below [2 ^ 53] in absolute value is a float *)
Lemma binary64_integer (n : Z) :
  (Z.abs n < 2 ^ 53)%Z -> (binary64 (inject_Z n) == inject_Z n)%Q.
Proof.
  intros H. apply binary64_exact. exists n, 0%Z.
  split; [done|]. split; [lia|]. by rewrite Qmult_1_r.
Qed.







(** ** Aggregation, continued *)

Lemma Qlt_bool_false (x y : Q) : Qlt_bool x y = false -> (y <= x)%Q.
Proof.
  unfold Qlt_bool. destruct (Qle_bool y x) eqn:E; [|done].
  intros _. by apply Qle_bool_iff.
Qed.

Lemma Qlt_bool_true (x y : Q) : Qlt_bool x y = true -> (x < y)%Q.
Proof.
  unfold Qlt_bool. destruct (Qle_bool y x) eqn:E; [done|]. intros _.
  destruct (Qlt_le_dec x y) as [H|H]; [done|].
  apply Qle_bool_iff in H. congruence.
Qed.

Lemma fold_fmax (rest : list Q) (x : Q) :
  let m := fold_left (fun best y => if Qlt_bool best y then y else best)
             rest x in
  (m = x \/ m ∈ rest) /\ (x <= m)%Q /\ forall y, y ∈ rest -> (y <= m)%Q.
Proof.
  revert x; induction rest as [|y rest IH]; intros x; simpl.
  - split; [by left|]. split; [apply Qle_refl|].
    intros y Hy. by apply elem_of_nil in Hy.
  - destruct (Qlt_bool x y) eqn:E.
    + apply Qlt_bool_true in E.
      destruct (IH y) as (Hin & Hle & Hall). split; [|split].
      * right. destruct Hin as [->|Hin]; [left|by right].
      * eapply Qle_trans; [by apply Qlt_le_weak|done].
      * intros z Hz. apply elem_of_cons in Hz as [->|Hz]; [done|by apply Hall].
    + apply Qlt_bool_false in E.
      destruct (IH x) as (Hin & Hle & Hall). split; [|split].
      * destruct Hin as [->|Hin]; [by left|right; by right].
      * done.
      * intros z Hz. apply elem_of_cons in Hz as [->|Hz]; [|by apply Hall].
        by eapply Qle_trans.
Qed.

Lemma fold_fmin (rest : list Q) (x : Q) :
  let m := fold_left (fun best y => if Qlt_bool y best then y else best)
             rest x in
  (m = x \/ m ∈ rest) /\ (m <= x)%Q /\ forall y, y ∈ rest -> (m <= y)%Q.
Proof.
  revert x; induction rest as [|y rest IH]; intros x; simpl.
  - split; [by left|]. split; [apply Qle_refl|].
    intros y Hy. by apply elem_of_nil in Hy.
  - destruct (Qlt_bool y x) eqn:E.
    + apply Qlt_bool_true in E.
      destruct (IH y) as (Hin & Hle & Hall). split; [|split].
      * right. destruct Hin as [->|Hin]; [left|by right].
      * eapply Qle_trans; [done|by apply Qlt_le_weak].
      * intros z Hz. apply elem_of_cons in Hz as [->|Hz]; [done|by apply Hall].
    + apply Qlt_bool_false in E.
      destruct (IH x) as (Hin & Hle & Hall). split; [|split].
      * destruct Hin as [->|Hin]; [by left|right; by right].
      * done.
      * intros z Hz. apply elem_of_cons in Hz as [->|Hz]; [|by apply Hall].
        by eapply Qle_trans.
Qed.

Lemma py_fmax_spec (xs : list Q) :
  xs <> [] -> py_fmax xs ∈ xs /\ forall x, x ∈ xs -> (x <= py_fmax xs)%Q.
Proof.
  destruct xs as [|x rest]; [done|]. intros _. unfold py_fmax.
  destruct (fold_fmax rest x) as (Hin & Hle & Hall). split.
  - destruct Hin as [->|Hin]; [left|by right].
  - intros y Hy. apply elem_of_cons in Hy as [->|Hy]; [done|by apply Hall].
Qed.

Lemma py_fmin_spec (xs : list Q) :
  xs <> [] -> py_fmin xs ∈ xs /\ forall x, x ∈ xs -> (py_fmin xs <= x)%Q.
Proof.
  destruct xs as [|x rest]; [done|]. intros _. unfold py_fmin.
  destruct (fold_fmin rest x) as (Hin & Hle & Hall). split.
  - destruct Hin as [->|Hin]; [left|by right].
  - intros y Hy. apply elem_of_cons in Hy as [->|Hy]; [done|by apply Hall].
Qed.

Lemma calculate_reaction_time_metrics_filled (data : list ReactionRow) :
  data <> [] ->
  calculate_reaction_time_metrics data =
    <["avg_reaction_time" :=
        Float (float_div (py_fsum (map average_reaction_time data))
                 (Z.of_nat (length data)))]>
   (<["max_reaction_time" :=
        Float (py_fmax (map average_reaction_time data))]>
   (<["min_reaction_time" :=
        Float (py_fmin (map average_reaction_time data))]>
   (<["avg_accuracy" :=
        Float (float_div (py_fsum (map accuracy_percentage data))
                 (Z.of_nat (length data)))]>
   (<["patient_count" :=
        Int (Z.of_nat (size (list_to_set (map reaction_patient_id data)
                               : gset string)))]>
   (<["test_count" := Int (Z.of_nat (length data))]> ∅))))).
Proof. by destruct data. Qed.

Lemma distinct_bounds (l : list string) :
  l <> [] -> (1 <= distinct l <= length l)%nat.
Proof.
  intros Hne. unfold distinct. split.
  - destruct l as [|x l]; [done|].
    assert (Hx : x ∈ remove_dups (x :: l)) by (apply elem_of_remove_dups; left).
    destruct (remove_dups (x :: l)); [by apply elem_of_nil in Hx|simpl; lia].
  - clear Hne. induction l as [|x l IH]; simpl; [lia|].
    destruct (decide_rel elem_of x l); simpl; lia.
Qed.



(** X9. In the aggregate of a list of records that is not empty, of
    symptom assessments or of reaction time tests, the number of patients
    is at least 1 and at most the number of records. *)
Theorem patient_count_bounds :
  (forall data : list SymptomRow,
     data <> [] ->
     exists patients records,
       calculate_symptom_metrics data !! "patient_count"
         = Some (Int patients) /\
       calculate_symptom_metrics data !! "assessment_count"
         = Some (Int records) /\
       (1 <= patients <= records)%Z /\ records = Z.of_nat (length data)) /\
  (forall data : list ReactionRow,
     data <> [] ->
     exists patients records,
       calculate_reaction_time_metrics data !! "patient_count"
         = Some (Int patients) /\
       calculate_reaction_time_metrics data !! "test_count"
         = Some (Int records) /\
       (1 <= patients <= records)%Z /\ records = Z.of_nat (length data)).
Proof.
  split; intros data Hne.
  - rewrite (calculate_symptom_metrics_filled data Hne).
    exists (Z.of_nat (distinct (map symptom_patient_id data))),
      (Z.of_nat (length data)).
    split; [simplify_map_eq; by rewrite size_set_distinct|].
    split; [by simplify_map_eq|].
    assert (Hids : map symptom_patient_id data <> []) by (by destruct data).
    pose proof (distinct_bounds _ Hids) as H.
    rewrite length_map in H. split; [lia|done].
  - rewrite (calculate_reaction_time_metrics_filled data Hne).
    exists (Z.of_nat (distinct (map reaction_patient_id data))),
      (Z.of_nat (length data)).
    split; [simplify_map_eq; by rewrite size_set_distinct|].
    split; [by simplify_map_eq|].
    assert (Hids : map reaction_patient_id data <> []) by (by destruct data).
    pose proof (distinct_bounds _ Hids) as H.
    rewrite length_map in H. split; [lia|done].
Qed.

(** ** Floats, continued *)

Lemma round_half_even_nonneg (q : Q) :
  (0 <= q)%Q -> (0 <= round_half_even q)%Z.
Proof.
  destruct q as [n d]. unfold Qle, round_half_even. cbn [Qnum Qden].
  intros H.
  pose proof (Z.div_mod n (Zpos d) ltac:(lia)) as Hn.
  pose proof (Z.mod_pos_bound n (Zpos d) ltac:(lia)) as Hr.
  assert (0 <= n / Zpos d)%Z by (apply Z.div_pos; lia).
  repeat match goal with |- context [if ?b then _ else _] => destruct b end;
    lia.
Qed.

Lemma round_half_even_le_integer (q : Q) (k : Z) :
  (q <= inject_Z k)%Q -> (round_half_even q <= k)%Z.
Proof.
  destruct q as [n d]. unfold Qle, inject_Z, round_half_even.
  cbn [Qnum Qden]. intros H.
  pose proof (Z.div_mod n (Zpos d) ltac:(lia)) as Hn.
  pose proof (Z.mod_pos_bound n (Zpos d) ltac:(lia)) as Hr.
  set (fl := (n / Zpos d)%Z) in *. set (r := (n mod Zpos d)%Z) in *.
  destruct (Z.ltb_spec (2 * r) (Zpos d));
    [|destruct (Z.ltb_spec (Zpos d) (2 * r)); [|destruct (Z.even fl)]].
  all: nia.
Qed.

Lemma Qabs_nonneg_eq (x : Q) : (0 <= x)%Q -> Qabs x = x.
Proof.
  destruct x as [n d]. unfold Qle, Qabs. cbn [Qnum Qden]. intros H.
  f_equal. lia.
Qed.

(** the float nearest to a number between 0 and an integer below [2 ^ 53]
    is between them too *)
Lemma binary64_bounds (x : Q) (k : Z) :
  (0 <= x)%Q -> (x <= inject_Z k)%Q -> (k < 2 ^ 53)%Z ->
  (0 <= binary64 x)%Q /\ (binary64 x <= inject_Z k)%Q.
Proof.
  intros H0 Hk Hk53. unfold binary64.
  destruct (Qeq_bool x 0) eqn:E0.
  { split; [apply Qle_refl|]. by eapply Qle_trans. }
  apply Qeq_bool_neq in E0.
  assert (Hpos : (0 < x)%Q).
  { destruct (Qlt_le_dec 0 x) as [H|H]; [done|].
    exfalso. apply E0. by apply Qle_antisym. }
  rewrite (Qabs_nonneg_eq x H0).
  rewrite (proj2 (Qle_bool_iff 0 x) H0). rewrite Qred_correct.
  set (e := Z.max (floor_log2 x - 52) (-1074)).
  pose proof (pow2_pos e) as Hp.
  assert (Hne : ~ (2 ^ e == 0)%Q).
  { intros H. rewrite H in Hp. by apply Qlt_irrefl in Hp. }
  assert (He : (e <= 0)%Z).
  { pose proof (floor_log2_le x Hpos) as Hfl.
    assert (Hlt : (floor_log2 x < 53)%Z).
    { apply (Qpower_lt_compat_l_inv 2); [|done].
      eapply Qle_lt_trans; [exact Hfl|].
      eapply Qle_lt_trans; [exact Hk|].
      rewrite pow2_nonneg_exp by lia.
      unfold Qlt, inject_Z; simpl. lia. }
    unfold e. lia. }
  split.
  - apply Qmult_le_0_compat; [|by apply Qlt_le_weak].
    assert (Hq : (0 <= x / 2 ^ e)%Q).
    { apply Qle_shift_div_l; [done|]. by rewrite Qmult_0_l. }
    apply round_half_even_nonneg in Hq.
    unfold Qle, inject_Z; simpl. lia.
  - assert (Hq : (x / 2 ^ e <= inject_Z (k * 2 ^ (- e)))%Q).
    { apply Qle_shift_div_r; [done|].
      rewrite inject_Z_mult, <- pow2_nonneg_exp by lia.
      rewrite <- Qmult_assoc, <- Qpower_plus by done.
      replace (- e + e)%Z with 0%Z by lia.
      by rewrite Qmult_1_r. }
    apply round_half_even_le_integer in Hq.
    assert (Hk' : (inject_Z k == inject_Z (k * 2 ^ (- e)) * 2 ^ e)%Q).
    { rewrite inject_Z_mult, <- pow2_nonneg_exp by lia.
      rewrite <- Qmult_assoc, <- Qpower_plus by done.
      replace (- e + e)%Z with 0%Z by lia.
      by rewrite Qmult_1_r. }
    rewrite Hk'. apply Qmult_le_compat_r; [|by apply Qlt_le_weak].
    unfold Qle, inject_Z; simpl. lia.
Qed.

Lemma total_bounds (xs : list Z) (hi : Z) :
  (forall x, x ∈ xs -> (0 <= x <= hi)%Z) ->
  (0 <= total xs <= hi * Z.of_nat (length xs))%Z.
Proof.
  induction xs as [|x xs IH]; intros H; simpl; [lia|].
  assert (Hx : (0 <= x <= hi)%Z) by (apply H; left).
  assert (Hxs : (0 <= total xs <= hi * Z.of_nat (length xs))%Z).
  { apply IH. intros y Hy. apply H. by right. }
  unfold total in *. simpl. lia.
Qed.

Lemma mean_bounds (xs : list Z) (hi : Z) :
  xs <> [] ->
  (forall x, x ∈ xs -> (0 <= x <= hi)%Z) ->
  (0 <= mean xs)%Q /\ (mean xs <= inject_Z hi)%Q.
Proof.
  intros Hne H. pose proof (total_bounds xs hi H) as [Hlo Hhi].
  assert (Hn : (0 < Z.of_nat (length xs))%Z) by (destruct xs; [done|simpl; lia]).
  unfold mean.
  assert (Hnq : (0 < inject_Z (Z.of_nat (length xs)))%Q)
    by (unfold Qlt, inject_Z; simpl; lia).
  split.
  - apply Qle_shift_div_l; [done|]. rewrite Qmult_0_l.
    unfold Qle, inject_Z; simpl. lia.
  - apply Qle_shift_div_r; [done|]. rewrite <- inject_Z_mult.
    unfold Qle, inject_Z; simpl. lia.
Qed.

(** X10. When every record of a list that is not empty has a total symptom
    score between 0 and a bound and a headache severity between 0 and a
    bound, as the schema of a symptom assessment wants (132 and 6), the
    aggregate stays within: the two averages, as the floats the division
    gives, and the maximum lie between 0 and the bound of their column. *)
Theorem symptom_metrics_within_bounds
    (data : list SymptomRow) (max_total max_headache : Z) :
  data <> [] ->
  (max_total < 2 ^ 53)%Z -> (max_headache < 2 ^ 53)%Z ->
  (forall row, row ∈ data ->
     (0 <= total_symptom_score row <= max_total)%Z /\
     (0 <= headache_severity row <= max_headache)%Z) ->
  exists avg_total avg_headache top,
    calculate_symptom_metrics data !! "avg_total_symptom_score"
      = Some (Float avg_total) /\
    calculate_symptom_metrics data !! "avg_headache_severity"
      = Some (Float avg_headache) /\
    calculate_symptom_metrics data !! "max_total_symptom_score"
      = Some (Int top) /\
    (0 <= avg_total)%Q /\ (avg_total <= inject_Z max_total)%Q /\
    (0 <= avg_headache)%Q /\ (avg_headache <= inject_Z max_headache)%Q /\
    (0 <= top <= max_total)%Z.
Proof.
  intros Hne Ht53 Hh53 Hrows.
  rewrite (calculate_symptom_metrics_filled data Hne).
  do 3 eexists. split; [by simplify_map_eq|]. split; [by simplify_map_eq|].
  split; [by simplify_map_eq|].
  rewrite !true_div_mean.
  assert (Hts : map total_symptom_score data <> []) by (by destruct data).
  assert (Hhs : map headache_severity data <> []) by (by destruct data).
  assert (Htb : forall x, x ∈ map total_symptom_score data ->
                          (0 <= x <= max_total)%Z).
  { intros x Hx. apply list_elem_of_fmap in Hx as (row & -> & Hrow).
    by apply Hrows. }
  assert (Hhb : forall x, x ∈ map headache_severity data ->
                          (0 <= x <= max_headache)%Z).
  { intros x Hx. apply list_elem_of_fmap in Hx as (row & -> & Hrow).
    by apply Hrows. }
  destruct (mean_bounds _ _ Hts Htb) as [Ht0 Ht1].
  destruct (mean_bounds _ _ Hhs Hhb) as [Hh0 Hh1].
  destruct (binary64_bounds _ _ Ht0 Ht1 Ht53) as [? ?].
  destruct (binary64_bounds _ _ Hh0 Hh1 Hh53) as [? ?].
  destruct (py_max_is_maximum _ Hts) as [Hin _].
  repeat split; try done; by apply Htb.
Qed.

(** the three records of the example, within the bounds of the schema *)
Lemma symptom_metrics_within_bounds_witness :
  exists avg_total avg_headache top,
    calculate_symptom_metrics sample_symptoms !! "avg_total_symptom_score"
      = Some (Float avg_total) /\
    calculate_symptom_metrics sample_symptoms !! "avg_headache_severity"
      = Some (Float avg_headache) /\
    calculate_symptom_metrics sample_symptoms !! "max_total_symptom_score"
      = Some (Int top) /\
    (0 <= avg_total)%Q /\ (avg_total <= inject_Z 132)%Q /\
    (0 <= avg_headache)%Q /\ (avg_headache <= inject_Z 6)%Q /\
    (0 <= top <= 132)%Z.
Proof.
  apply (symptom_metrics_within_bounds sample_symptoms 132 6).
  - discriminate.
  - reflexivity.
  - reflexivity.
  - intros row Hrow. unfold sample_symptoms in Hrow.
    repeat (apply elem_of_cons in Hrow as [->|Hrow]; [simpl; lia|]).
    by apply elem_of_nil in Hrow.
Defined.

(** the sum of floats between 0 and an integer bound stays between 0 and
    the bound times their number, as long as that is below [2 ^ 53] *)
Lemma fold_float_add_bounds (bound : Z) (xs : list Q) :
  forall (acc : Q) (k : Z),
    (0 <= k)%Z -> (0 <= bound)%Z ->
    ((k + Z.of_nat (length xs)) * bound < 2 ^ 53)%Z ->
    (0 <= acc)%Q -> (acc <= inject_Z (k * bound))%Q ->
    (forall x, x ∈ xs -> (0 <= x)%Q /\ (x <= inject_Z bound)%Q) ->
    (0 <= fold_left float_add xs acc)%Q /\
    (fold_left float_add xs acc
     <= inject_Z ((k + Z.of_nat (length xs)) * bound))%Q.
Proof.
  induction xs as [|x xs IH]; intros acc k Hk Hb H53 H0 Hacc Hxs.
  - cbn [fold_left length]. split; [done|].
    by replace (k + Z.of_nat 0)%Z with k by lia.
  - cbn [fold_left length]. cbn [length] in H53.
    rewrite Nat2Z.inj_succ in H53.
    destruct (Hxs x ltac:(left)) as [Hx0 Hx1].
    assert (Hsum0 : (0 <= acc + x)%Q).
    { rewrite <- (Qplus_0_l 0). by apply Qplus_le_compat. }
    assert (Hsum1 : (acc + x <= inject_Z ((k + 1) * bound))%Q).
    { replace ((k + 1) * bound)%Z with (k * bound + bound)%Z by lia.
      rewrite inject_Z_plus. by apply Qplus_le_compat. }
    assert (H53' : ((k + 1) * bound < 2 ^ 53)%Z) by nia.
    destruct (binary64_bounds _ _ Hsum0 Hsum1 H53') as [Hf0 Hf1].
    assert (H53'' : ((k + 1 + Z.of_nat (length xs)) * bound < 2 ^ 53)%Z).
    { replace (k + 1 + Z.of_nat (length xs))%Z
        with (k + Z.succ (Z.of_nat (length xs)))%Z by lia. done. }
    assert (Hxs' : forall y, y ∈ xs -> (0 <= y)%Q /\ (y <= inject_Z bound)%Q).
    { intros y Hy. apply Hxs. by right. }
    destruct (IH (float_add acc x) (k + 1)%Z ltac:(lia) Hb H53'' Hf0 Hf1 Hxs')
      as [Hr0 Hr1].
    split; [done|].
    replace (k + Z.of_nat (S (length xs)))%Z
      with (k + 1 + Z.of_nat (length xs))%Z by lia. done.
Qed.

(** the average of floats between 0 and an integer bound, as the
    aggregation computes it, is between 0 and the bound *)
Lemma float_average_bounds (bound : Z) (xs : list Q) :
  xs <> [] -> (0 <= bound)%Z ->
  (Z.of_nat (length xs) * bound < 2 ^ 53)%Z ->
  (Z.of_nat (length xs) < 2 ^ 53)%Z ->
  (forall x, x ∈ xs -> (0 <= x)%Q /\ (x <= inject_Z bound)%Q) ->
  (0 <= float_div (py_fsum xs) (Z.of_nat (length xs)))%Q /\
  (float_div (py_fsum xs) (Z.of_nat (length xs)) <= inject_Z bound)%Q.
Proof.
  intros Hne Hb H53 Hn53 Hxs.
  destruct (fold_float_add_bounds bound xs 0%Q 0%Z) as [Hs0 Hs1];
    try done; try lia.
  fold (py_fsum xs) in Hs0, Hs1. rewrite Z.add_0_l in Hs1.
  assert (Hn : (0 < Z.of_nat (length xs))%Z)
    by (destruct xs; [done|simpl; lia]).
  pose proof (binary64_integer (Z.of_nat (length xs)) ltac:(lia)) as Hbn.
  assert (Hnq : (0 < inject_Z (Z.of_nat (length xs)))%Q)
    by (unfold Qlt, inject_Z; simpl; lia).
  unfold float_div. apply binary64_bounds.
  - rewrite Hbn. apply Qle_shift_div_l; [done|]. by rewrite Qmult_0_l.
  - rewrite Hbn. apply Qle_shift_div_r; [done|].
    rewrite <- inject_Z_mult. by rewrite Z.mul_comm.
  - nia.
Qed.

(** X11. When every record of a list that is not empty has an average
    reaction time between 0 and a bound and an accuracy between 0 and a
    bound (100 in the schema of a reaction time test), and the bounds
    times the number of records stay below 2 ^ 53, the aggregate stays
    within: the two averages, as the floats the summation and the
    division give, lie between 0 and the bound of their column, and so do
    the largest and the smallest reaction time. *)
Theorem reaction_metrics_within_bounds
    (data : list ReactionRow) (max_time max_accuracy : Z) :
  data <> [] ->
  (Z.of_nat (length data) < 2 ^ 53)%Z ->
  (Z.of_nat (length data) * max_time < 2 ^ 53)%Z ->
  (Z.of_nat (length data) * max_accuracy < 2 ^ 53)%Z ->
  (forall row, row ∈ data ->
     (0 <= average_reaction_time row)%Q /\
     (average_reaction_time row <= inject_Z max_time)%Q /\
     (0 <= accuracy_percentage row)%Q /\
     (accuracy_percentage row <= inject_Z max_accuracy)%Q) ->
  exists avg_time avg_accuracy top low,
    calculate_reaction_time_metrics data !! "avg_reaction_time"
      = Some (Float avg_time) /\
    calculate_reaction_time_metrics data !! "avg_accuracy"
      = Some (Float avg_accuracy) /\
    calculate_reaction_time_metrics data !! "max_reaction_time"
      = Some (Float top) /\
    calculate_reaction_time_metrics data !! "min_reaction_time"
      = Some (Float low) /\
    (0 <= avg_time)%Q /\ (avg_time <= inject_Z max_time)%Q /\
    (0 <= avg_accuracy)%Q /\ (avg_accuracy <= inject_Z max_accuracy)%Q /\
    (0 <= low)%Q /\ (low <= top)%Q /\ (top <= inject_Z max_time)%Q.
Proof.
  intros Hne Hn53 Ht53 Ha53 Hrows.
  rewrite (calculate_reaction_time_metrics_filled data Hne).
  do 4 eexists. split; [by simplify_map_eq|]. split; [by simplify_map_eq|].
  split; [by simplify_map_eq|]. split; [by simplify_map_eq|].
  assert (Hts : map average_reaction_time data <> []) by (by destruct data).
  assert (Has : map accuracy_percentage data <> []) by (by destruct data).
  assert (Htb : forall x, x ∈ map average_reaction_time data ->
                          (0 <= x)%Q /\ (x <= inject_Z max_time)%Q).
  { intros x Hx. apply list_elem_of_fmap in Hx as (row & -> & Hrow).
    destruct (Hrows row Hrow) as (? & ? & _). done. }
  assert (Hab : forall x, x ∈ map accuracy_percentage data ->
                          (0 <= x)%Q /\ (x <= inject_Z max_accuracy)%Q).
  { intros x Hx. apply list_elem_of_fmap in Hx as (row & -> & Hrow).
    destruct (Hrows row Hrow) as (_ & _ & ? & ?). done. }
  assert (Hrow0 : exists row, row ∈ data) by (destruct data; [done|eexists; left]).
  destruct Hrow0 as [row0 Hrow0].
  destruct (Hrows row0 Hrow0) as (Ht0 & Ht1 & Ha0 & Ha1).
  assert (Hmt : (0 <= max_time)%Z).
  { assert (H : (0 <= inject_Z max_time)%Q)
      by exact (Qle_trans _ _ _ Ht0 Ht1).
    unfold Qle, inject_Z in H; simpl in H. lia. }
  assert (Hma : (0 <= max_accuracy)%Z).
  { assert (H : (0 <= inject_Z max_accuracy)%Q)
      by exact (Qle_trans _ _ _ Ha0 Ha1).
    unfold Qle, inject_Z in H; simpl in H. lia. }
  pose proof (float_average_bounds max_time (map average_reaction_time data))
    as Havg_t.
  pose proof (float_average_bounds max_accuracy (map accuracy_percentage data))
    as Havg_a.
  rewrite length_map in Havg_t, Havg_a.
  destruct Havg_t as [? ?]; try done.
  destruct Havg_a as [? ?]; try done.
  destruct (py_fmax_spec _ Hts) as [Hmax_in Hmax].
  destruct (py_fmin_spec _ Hts) as [Hmin_in Hmin].
  repeat split; try done.
  - by apply Htb.
  - by apply Hmax.
  - by apply Htb.
Qed.

(** two tests within the bounds of the schema, reaction times below two
    seconds *)
Lemma reaction_metrics_within_bounds_witness :
  exists avg_time avg_accuracy top low,
    calculate_reaction_time_metrics sample_reactions !! "avg_reaction_time"
      = Some (Float avg_time) /\
    calculate_reaction_time_metrics sample_reactions !! "avg_accuracy"
      = Some (Float avg_accuracy) /\
    calculate_reaction_time_metrics sample_reactions !! "max_reaction_time"
      = Some (Float top) /\
    calculate_reaction_time_metrics sample_reactions !! "min_reaction_time"
      = Some (Float low) /\
    (0 <= avg_time)%Q /\ (avg_time <= inject_Z 2000)%Q /\
    (0 <= avg_accuracy)%Q /\ (avg_accuracy <= inject_Z 100)%Q /\
    (0 <= low)%Q /\ (low <= top)%Q /\ (top <= inject_Z 2000)%Q.
Proof.
  apply (reaction_metrics_within_bounds sample_reactions 2000 100).
  - discriminate.
  - reflexivity.
  - reflexivity.
  - reflexivity.
  - intros row Hrow. unfold sample_reactions in Hrow.
    repeat (apply elem_of_cons in Hrow as [->|Hrow];
            [repeat split; vm_compute; discriminate|]).
    by apply elem_of_nil in Hrow.
Defined.

(** ** The numerals of the answers *)
























(** ** The orchestrator, continued *)

(** a run of the orchestrator, step by step: the first step that raises
    ends it; the world stays as it is *)
Lemma process_query_run
    (lower : string -> string) (word_char : ascii -> bool)
    (q : string) (user_id team_id : option string) (w : World) :
  process_query lower word_char q user_id team_id w =
    match classify_query lower word_char q with
    | Raise e => (Raise e, w)
    | Ok c =>
        match fst (_convert_time_range (time_range c) w) with
        | Raise e => (Raise e, w)
        | Ok range =>
            let team := team_scope team_id (filters c) in
            match fetch_selected (bool_decide (SYMPTOM_CHECKLIST ∈ modules c))
                    (get_symptom_data w None team
                       (range_start range) (range_end range)) with
            | Raise e => (Raise e, w)
            | Ok symptoms =>
                match fetch_selected (bool_decide (REACTION_TIME ∈ modules c))
                        (get_reaction_time_data w None team
                           (range_start range) (range_end range)) with
                | Raise e => (Raise e, w)
                | Ok reactions =>
                    let results :=
                      (symptom_results symptoms
                       ++ reaction_results reactions)%list in
                    (Ok {| answer := _generate_response c results;
                           result_confidence := confidence c;
                           source_modules := map result_module results;
                           metadata :=
                             {| metadata_classification := c;
                                metadata_results := results;
                                query_type := intent c |} |}, w)
                end
            end
        end
    end.
Proof.
  unfold process_query. unfold bind at 1. unfold lift at 1.
  destruct (classify_query lower word_char q) as [c|e]; [|done].
  unfold bind at 1.
  pose proof (convert_time_range_keeps_world (time_range c) w) as Hw.
  destruct (_convert_time_range (time_range c) w) as [[range|e] w1];
    simpl in Hw; subst w1; [|done].
  cbn [fst]. cbv zeta. unfold fetch_selected.
  set (team := team_scope team_id (filters c)).
  unfold bind, query_symptoms, query_reactions, ret.
  destruct (bool_decide (SYMPTOM_CHECKLIST ∈ modules c)).
  - destruct (get_symptom_data w None team _ _) as [symptoms|e]; [|done].
    destruct (bool_decide (REACTION_TIME ∈ modules c)).
    + destruct symptoms as [|s ss]; cbn [negb is_nil].
      all: destruct (get_reaction_time_data w None team _ _)
             as [reactions|e]; [|done].
      all: by destruct reactions.
    + destruct symptoms; cbn [negb is_nil symptom_results reaction_results];
        by rewrite ?app_nil_r.
  - destruct (bool_decide (REACTION_TIME ∈ modules c)); [|done].
    destruct (get_reaction_time_data w None team _ _)
      as [reactions|e]; [|done].
    by destruct reactions.
Qed.

Lemma process_query_keeps_world
    (lower : string -> string) (word_char : ascii -> bool)
    (q : string) (user_id team_id : option string) (w : World) :
  snd (process_query lower word_char q user_id team_id w) = w.
Proof.
  rewrite process_query_run.
  destruct (classify_query lower word_char q) as [c|e]; [|done].
  destruct (fst (_convert_time_range (time_range c) w)); [|done].
  cbv zeta.
  destruct (fetch_selected _ (get_symptom_data _ _ _ _ _)); [|done].
  by destruct (fetch_selected _ (get_reaction_time_data _ _ _ _ _)).
Qed.

(** X12. The orchestrator handles no error: it raises exactly when one of
    its steps raises, with the exception of that step, and the first such
    step ends the run. The steps are the classification, the resolution of
    the window, the fetch of the symptom records when the symptom module
    is selected, and the fetch of the reaction time records when that
    module is selected. A fetch of reaction time records that fails
    discards the symptom records already fetched. *)
Theorem process_query_fails_fast
    (lower : string -> string) (word_char : ascii -> bool)
    (q : string) (user_id team_id : option string) (w : World) (e : exc) :
  let run := process_query lower word_char q user_id team_id w in
  snd run = w /\
  (fst run = Raise e <->
   classify_query lower word_char q = Raise e \/
   exists c,
     classify_query lower word_char q = Ok c /\
     (fst (_convert_time_range (time_range c) w) = Raise e \/
      exists range,
        fst (_convert_time_range (time_range c) w) = Ok range /\
        let team := team_scope team_id (filters c) in
        let symptoms :=
          get_symptom_data w None team (range_start range) (range_end range) in
        let reactions :=
          get_reaction_time_data w None team
            (range_start range) (range_end range) in
        (SYMPTOM_CHECKLIST ∈ modules c /\ symptoms = Raise e) \/
        ((SYMPTOM_CHECKLIST ∉ modules c \/ exists rows, symptoms = Ok rows) /\
         REACTION_TIME ∈ modules c /\ reactions = Raise e))).
Proof.
  cbv zeta. rewrite process_query_run.
  destruct (classify_query lower word_char q) as [c|e0] eqn:Hc.
  2: { split; [done|]. cbn [fst]. split; [intros [= ->]; by left|].
       intros [Hx|(c' & Hc' & _)]; congruence. }
  destruct (fst (_convert_time_range (time_range c) w)) as [range|e0] eqn:Hw.
  2: { split; [done|]. cbn [fst]. split.
       - intros [= ->]. right. exists c. split; [done|]. by left.
       - intros [Hx|(c' & Hc' & [Hx|(range' & Hw' & _)])]; congruence. }
  cbv zeta. unfold fetch_selected.
  set (team := team_scope team_id (filters c)).
  destruct (bool_decide (SYMPTOM_CHECKLIST ∈ modules c)) eqn:Es;
    [apply bool_decide_eq_true in Es | apply bool_decide_eq_false in Es];
    (destruct (bool_decide (REACTION_TIME ∈ modules c)) eqn:Er;
     [apply bool_decide_eq_true in Er | apply bool_decide_eq_false in Er]).
  all: destruct (get_symptom_data w None team (range_start range)
                   (range_end range)) as [symptoms|e1] eqn:Hs.
  all: destruct (get_reaction_time_data w None team (range_start range)
                   (range_end range)) as [reactions|e2] eqn:Hr.
  all: cbn [fst snd]; (split; [done|]).
  all: split;
    [ intros Hx; try discriminate Hx; injection Hx as <-;
      right; exists c; (split; [done|]); right;
      exists range; (split; [done|]); fold team; rewrite ?Hs, ?Hr;
      first [ left; by split
            | right; split; [first [by left | right; by eexists]|by split] ]
    | intros [Hx|(c' & Hc' & [Hx|(range' & Hw' & Hx)])];
      [ congruence
      | congruence
      | assert (c' = c) by congruence; subst c';
        assert (range' = range) by congruence; subst range';
        fold team in Hx; rewrite ?Hs, ?Hr in Hx;
        destruct Hx as [[? Hx]|([?|[? ?]] & ? & Hx)];
        first [congruence | done] ] ].
Qed.

Lemma symptom_sentence_report (rows : list SymptomRow) :
  rows <> [] ->
  symptom_sentence (calculate_symptom_metrics rows) (length rows)
  = symptom_report rows.
Proof.
  intros Hne. unfold symptom_sentence, symptom_report, get_or_zero.
  rewrite (calculate_symptom_metrics_filled rows Hne).
  simplify_map_eq. cbn [default num_value]. by rewrite !true_div_mean.
Qed.

Lemma reaction_sentence_report (rows : list ReactionRow) :
  rows <> [] ->
  reaction_sentence (calculate_reaction_time_metrics rows) (length rows)
  = reaction_report rows.
Proof.
  intros Hne. unfold reaction_sentence, reaction_report, get_or_zero.
  rewrite (calculate_reaction_time_metrics_filled rows Hne).
  by simplify_map_eq.
Qed.

(** the answer made from the records of the two modules *)
Lemma generate_response_reports (c : QueryClassification)
    (symptoms : list SymptomRow) (reactions : list ReactionRow) :
  _generate_response c (symptom_results symptoms ++ reaction_results reactions)
  = match reports symptoms reactions with
    | [] => no_data_message
    | parts =>
        join " " (parts ++ if String.eqb (intent c) "alert"
                           then [clinical_note] else [])
    end.
Proof.
  unfold reports.
  destruct symptoms as [|s ss], reactions as [|r rs]; [done|..].
  all: unfold symptom_results, reaction_results, _generate_response,
         response_parts.
  all: cbn [app module_sentences result_module result_data result_count
            is_nil negb].
  all: change (String.eqb "reaction_time" "symptom_checklist") with false.
  all: change (String.eqb "reaction_time" "reaction_time") with true.
  all: change (String.eqb "symptom_checklist" "symptom_checklist") with true.
  all: cbn [app]; rewrite andb_true_r.
  all: rewrite ?symptom_sentence_report, ?reaction_sentence_report by done.
  all: by destruct (String.eqb (intent c) "alert").
Qed.

(** the result of a run that returns *)
Lemma process_query_result
    (lower : string -> string) (word_char : ascii -> bool)
    (q : string) (user_id team_id : option string)
    (w w' : World) (res : QueryResult) :
  process_query lower word_char q user_id team_id w = (Ok res, w') ->
  exists c range symptoms reactions,
    classify_query lower word_char q = Ok c /\
    fst (_convert_time_range (time_range c) w) = Ok range /\
    fetch_selected (bool_decide (SYMPTOM_CHECKLIST ∈ modules c))
      (get_symptom_data w None (team_scope team_id (filters c))
         (range_start range) (range_end range)) = Ok symptoms /\
    fetch_selected (bool_decide (REACTION_TIME ∈ modules c))
      (get_reaction_time_data w None (team_scope team_id (filters c))
         (range_start range) (range_end range)) = Ok reactions /\
    w' = w /\
    res = {| answer :=
               _generate_response c
                 (symptom_results symptoms ++ reaction_results reactions);
             result_confidence := confidence c;
             source_modules :=
               map result_module
                 (symptom_results symptoms ++ reaction_results reactions);
             metadata :=
               {| metadata_classification := c;
                  metadata_results :=
                    (symptom_results symptoms ++ reaction_results reactions);
                  query_type := intent c |} |}.
Proof.
  rewrite process_query_run.
  destruct (classify_query lower word_char q) as [c|e] eqn:Hc; [|done].
  destruct (fst (_convert_time_range (time_range c) w)) as [range|e] eqn:Hw;
    [|done].
  cbv zeta.
  destruct (fetch_selected _ (get_symptom_data _ _ _ _ _))
    as [symptoms|e] eqn:Hs; [|done].
  destruct (fetch_selected _ (get_reaction_time_data _ _ _ _ _))
    as [reactions|e] eqn:Hr; [|done].
  intros [= <- <-]. by exists c, range, symptoms, reactions.
Qed.

Lemma result_modules (symptoms : list SymptomRow)
    (reactions : list ReactionRow) :
  map result_module (symptom_results symptoms ++ reaction_results reactions)
  = ((if is_nil symptoms then [] else ["symptom_checklist"]) ++
     (if is_nil reactions then [] else ["reaction_time"]))%list.
Proof. by destruct symptoms, reactions. Qed.

Lemma classify_query_confidence
    (lower : string -> string) (word_char : ascii -> bool) (q : string)
    (c : QueryClassification) :
  classify_query lower word_char q = Ok c -> confidence c = 0.8%Q.
Proof.
  rewrite classify_query_cases. cbv zeta.
  destruct (_extract_time_range word_char (lower q)) as [[?|?]|];
    by intros [= <-].
Qed.

Lemma symptom_report_starts (rows : list SymptomRow) (tail : string) :
  startswith "Based on " (symptom_report rows ++ tail) = true.
Proof.
  unfold symptom_report. rewrite append_assoc. apply startswith_self_app.
Qed.

Lemma reaction_report_starts (rows : list ReactionRow) (tail : string) :
  startswith "Based on " (reaction_report rows ++ tail) = true.
Proof.
  unfold reaction_report. rewrite append_assoc. apply startswith_self_app.
Qed.

Lemma join_cons (sep p : string) (parts : list string) :
  join sep (p :: parts) = p ++ match parts with
                               | [] => ""
                               | _ => sep ++ join sep parts
                               end.
Proof. destruct parts; simpl; by rewrite ?append_nil_r. Qed.

(** X13. Every result the orchestrator returns has the confidence 0.8,
    whatever the question and the records. Its [source_modules] are the
    symptom module, the reaction time module, both in this order, or
    none, and name the items of the result list in order. The answer is
    the sentence that no data was found exactly when [source_modules] is
    empty; otherwise it starts with "Based on ". The run leaves the world
    as it is. *)
Theorem process_query_result_shape
    (lower : string -> string) (word_char : ascii -> bool)
    (q : string) (user_id team_id : option string)
    (w w' : World) (res : QueryResult) :
  process_query lower word_char q user_id team_id w = (Ok res, w') ->
  w' = w /\
  result_confidence res = 0.8%Q /\
  source_modules res ∈
    [[]; ["symptom_checklist"]; ["reaction_time"];
     ["symptom_checklist"; "reaction_time"]] /\
  map result_module (metadata_results (metadata res)) = source_modules res /\
  (source_modules res = [] <-> answer res = no_data_message) /\
  (source_modules res <> [] -> startswith "Based on " (answer res) = true).
Proof.
  intros H.
  apply process_query_result in H
    as (c & range & symptoms & reactions & Hc & _ & _ & _ & -> & ->).
  cbn [answer result_confidence source_modules metadata metadata_results].
  split; [done|]. split; [by apply classify_query_confidence in Hc|].
  rewrite generate_response_reports, result_modules. unfold reports.
  destruct symptoms as [|s ss], reactions as [|r rs]; cbn [is_nil app].
  all: split; [in_literals|]. all: split; [done|].
  all: try (split; [done|done]).
  all: rewrite join_cons.
  all: split;
    [ split; [done|]; intros Hx;
      assert (Hs : startswith "Based on " no_data_message = true)
        by (rewrite <- Hx;
            first [apply symptom_report_starts
                  | apply reaction_report_starts]);
      discriminate Hs
    | intros _;
      first [apply symptom_report_starts | apply reaction_report_starts] ].
Qed.

(** in the world of the scenario the question about LSU players gets a
    result with the symptom module alone, which starts with "Based on " *)
Lemma process_query_result_shape_witness :
  exists res,
    process lsu_question None None scenario_world = (Ok res, scenario_world) /\
    result_confidence res = 0.8%Q /\
    startswith "Based on " (answer res) = true.
Proof.
  assert (E : exists res,
             process_query lower_ascii word_ascii lsu_question
               None None scenario_world = (Ok res, scenario_world))
    by (eexists; vm_compute; reflexivity).
  destruct E as [res E]. exists res. split; [exact E|].
  destruct (process_query_result_shape _ _ _ _ _ _ _ _ E)
    as (_ & Hconf & _ & _ & _ & Hstart).
  split; [exact Hconf|]. apply Hstart.
  vm_compute in E. injection E as <-. discriminate.
Defined.

(** *** The clinical note *)

Lemma symptom_report_py_in (n pre : string) (rows : list SymptomRow)
    (tail : string) :
  wordy n ->
  py_in n (pre ++ symptom_report rows ++ tail) =
    py_in n (pre ++ "Based on ") ||
    py_in n " symptom assessments, the average total symptom score is " ||
    py_in n ". Average headache severity is " ||
    py_in n (" out of 6." ++ tail).
Proof.
  intros Hn.
  rewrite <- (py_in_template n (pre ++ "Based on ") (str_nat (length rows))
                _ (format_f 1 (binary64 (mean (map total_symptom_score rows))))
                _ (format_f 1 (binary64 (mean (map headache_severity rows))))
                (" out of 6." ++ tail));
    [| done | apply numeral_str_nat | apply numeral_format_f
     | apply numeral_format_f].
  unfold symptom_report. by rewrite !append_assoc.
Qed.

Lemma reaction_report_py_in (n pre : string) (rows : list ReactionRow)
    (tail : string) :
  wordy n ->
  py_in n (pre ++ reaction_report rows ++ tail) =
    py_in n (pre ++ "Based on ") ||
    py_in n " reaction time tests, the average reaction time is " ||
    py_in n "ms with an average accuracy of " ||
    py_in n ("%." ++ tail).
Proof.
  intros Hn.
  rewrite <- (py_in_template n (pre ++ "Based on ") (str_nat (length rows))
                _ (format_f 0 (float_div
                     (py_fsum (map average_reaction_time rows))
                     (Z.of_nat (length rows))))
                _ (format_f 1 (float_div
                     (py_fsum (map accuracy_percentage rows))
                     (Z.of_nat (length rows))))
                ("%." ++ tail));
    [| done | apply numeral_str_nat | apply numeral_format_f
     | apply numeral_format_f].
  unfold reaction_report. by rewrite !append_assoc.
Qed.

Lemma py_in_app_r (n a b : string) :
  py_in n b = true -> py_in n (a ++ b) = true.
Proof.
  intros H. apply py_in_spec in H as (x & y & ->). apply py_in_spec.
  exists (a ++ x), y. by rewrite append_assoc.
Qed.

(** the note occurs in an answer made of reports exactly when it was
    added *)
Lemma note_in_reports (symptoms : list SymptomRow)
    (reactions : list ReactionRow) (alert : bool) :
  reports symptoms reactions <> [] ->
  py_in "clinical attention"
    (join " " (reports symptoms reactions
               ++ if alert then [clinical_note] else [])) = alert.
Proof.
  assert (Hn : wordy "clinical attention") by (by apply wordy_literal).
  unfold reports.
  destruct symptoms as [|s ss], reactions as [|r rs]; cbn [is_nil app];
    [done|..]; intros _.
  all: destruct alert; cbn [app join].
  - apply py_in_app_r. by vm_compute.
  - rewrite <- (append_nil_r (reaction_report _)).
    change (reaction_report (r :: rs) ++ "")
      with ("" ++ reaction_report (r :: rs) ++ "").
    by rewrite reaction_report_py_in.
  - apply py_in_app_r. by vm_compute.
  - rewrite <- (append_nil_r (symptom_report _)).
    change (symptom_report (s :: ss) ++ "")
      with ("" ++ symptom_report (s :: ss) ++ "").
    by rewrite symptom_report_py_in.
  - apply py_in_app_r, py_in_app_r, py_in_app_r. by vm_compute.
  - change (symptom_report (s :: ss) ++ " " ++ reaction_report (r :: rs))
      with ("" ++ symptom_report (s :: ss) ++ " " ++ reaction_report (r :: rs)).
    rewrite symptom_report_py_in by done.
    replace (" out of 6." ++ " " ++ reaction_report (r :: rs))
      with (" out of 6. " ++ reaction_report (r :: rs) ++ "")
      by (by rewrite append_nil_r).
    by rewrite reaction_report_py_in.
Qed.

(** X14. The answer of a returned result speaks of clinical attention
    exactly when the intent is alert and at least one module had records:
    the note is then the last part of the answer, after a space. An alert
    without records gets the sentence that no data was found, without the
    note. *)
Theorem clinical_note_iff_alert
    (lower : string -> string) (word_char : ascii -> bool)
    (q : string) (user_id team_id : option string)
    (w w' : World) (res : QueryResult) :
  process_query lower word_char q user_id team_id w = (Ok res, w') ->
  let noted := query_type (metadata res) = "alert" /\ source_modules res <> [] in
  (py_in "clinical attention" (answer res) = true <-> noted) /\
  (noted -> exists body, answer res = body ++ " " ++ clinical_note) /\
  (source_modules res = [] -> answer res = no_data_message).
Proof.
  intros H.
  apply process_query_result in H
    as (c & range & symptoms & reactions & Hc & _ & _ & _ & -> & ->).
  cbn [answer source_modules metadata query_type].
  rewrite generate_response_reports, result_modules.
  pose proof (note_in_reports symptoms reactions
                (String.eqb (intent c) "alert")) as Hnote.
  assert (Hmods :
    ((if is_nil symptoms then [] else ["symptom_checklist"]) ++
     (if is_nil reactions then [] else ["reaction_time"]))%list = []
    <-> reports symptoms reactions = []).
  { unfold reports. by destruct symptoms, reactions. }
  rewrite Hmods.
  destruct (reports symptoms reactions) as [|part parts] eqn:Hr.
  { split; [|split; [|done]].
    - split; [by vm_compute|]. by intros [_ ?].
    - by intros [_ ?]. }
  specialize (Hnote ltac:(done)).
  destruct (String.eqb_spec (intent c) "alert") as [Ha|Ha].
  - split; [|split; [|done]].
    + rewrite Hnote. by split.
    + intros _.
      assert (Hj : forall ps : list string, ps <> [] ->
                join " " (ps ++ [clinical_note])
                = join " " ps ++ " " ++ clinical_note).
      { clear. induction ps as [|p ps IH]; [done|]. intros _.
        destruct ps as [|p' ps]; [done|].
        change ((p :: p' :: ps) ++ [clinical_note])%list
          with (p :: ((p' :: ps) ++ [clinical_note]))%list.
        rewrite join_cons.
        change ((p' :: ps) ++ [clinical_note])%list
          with (p' :: (ps ++ [clinical_note]))%list at 1.
        cbv iota. rewrite IH by done.
        rewrite (join_cons " " p (p' :: ps)). by rewrite !append_assoc. }
      exists (join " " (part :: parts)). by apply Hj.
  - split; [|split; [|done]].
    + rewrite Hnote. split; [done|]. by intros [? _].
    + by intros [? _].
Qed.

(** "any concern about headache" in the world of the scenario: the intent
    is alert, the symptom module has records, and the answer ends with the
    note *)
Lemma clinical_note_iff_alert_witness :
  exists res,
    process "any concern about headache" None None scenario_world
      = (Ok res, scenario_world) /\
    py_in "clinical attention" (answer res) = true.
Proof.
  assert (E : exists res,
             process_query lower_ascii word_ascii "any concern about headache"
               None None scenario_world = (Ok res, scenario_world))
    by (eexists; vm_compute; reflexivity).
  destruct E as [res E]. exists res. split; [exact E|].
  destruct (clinical_note_iff_alert _ _ _ _ _ _ _ _ E) as ([_ Hnote] & _).
  apply Hnote. vm_compute in E. injection E as <-. split; [reflexivity|discriminate].
Defined.



(** *** The team of a query *)

Lemma convert_time_range_clock (tr : option TimeRange) (w w' : World) :
  wall_clock w = wall_clock w' ->
  fst (_convert_time_range tr w) = fst (_convert_time_range tr w').
Proof.
  intros Hclock. destruct tr as [[period|dates]|]; [| done | done].
  unfold _convert_time_range, bind, datetime_now, lift, ret.
  cbn -[minus_days String.eqb]. rewrite <- Hclock.
  repeat match goal with
         | |- context [String.eqb period ?s] => destruct (String.eqb period s)
         | |- context [minus_days ?n ?d] => destruct (minus_days n d)
         end; done.
Qed.

Lemma team_scope_hint (team_id : option string)
    (filters : gmap string filter_value) :
  filters !! "team" = None -> team_scope team_id filters = hinted_team team_id.
Proof.
  intros H. unfold team_scope, hinted_team, truthy. rewrite H.
  destruct team_id as [t|]; [|done]. by destruct (String.eqb t "").
Qed.

(** the window has both bounds or none *)
Lemma convert_time_range_both (tr : option TimeRange) (w : World)
    (range : DateRange) :
  fst (_convert_time_range tr w) = Ok range ->
  given (range_start range) = given (range_end range).
Proof.
  destruct tr as [[period|dates]|]; [| by intros [= <-] | by intros [= <-]].
  unfold _convert_time_range, bind, datetime_now, lift, ret.
  cbn -[minus_days String.eqb].
  repeat match goal with
         | |- context [String.eqb period ?s] => destruct (String.eqb period s)
         | |- context [minus_days ?n ?d] => destruct (minus_days n d)
         end; cbn; by intros [= <-].
Qed.

(** the queries a run on an ASCII question depends on *)
Lemma process_asks_hinted_queries
    (q : string) (user_id team_id : option string) (w w' : World) :
  wall_clock w = wall_clock w' ->
  (forall date_from date_to,
     given date_from = given date_to ->
     get_symptom_data w None (hinted_team team_id) date_from date_to
     = get_symptom_data w' None (hinted_team team_id) date_from date_to) ->
  (forall date_from date_to,
     given date_from = given date_to ->
     get_reaction_time_data w None (hinted_team team_id) date_from date_to
     = get_reaction_time_data w' None (hinted_team team_id) date_from date_to) ->
  fst (process q user_id team_id w) = fst (process q user_id team_id w').
Proof.
  intros Hclock Hs Hr.
  unfold process. rewrite !process_query_run.
  destruct (classify_query lower_ascii word_ascii q) as [c|e] eqn:Hc;
    [|done].
  rewrite <- (convert_time_range_clock (time_range c) w w' Hclock).
  destruct (fst (_convert_time_range (time_range c) w)) as [range|e] eqn:Hw;
    [|done].
  apply convert_time_range_both in Hw.
  cbv zeta.
  rewrite (team_scope_hint team_id (filters c))
    by (by apply (classify_never_finds_team q)).
  rewrite <- Hs, <- Hr by done.
  destruct (fetch_selected _ (get_symptom_data _ _ _ _ _)); [|done].
  by destruct (fetch_selected _ (get_reaction_time_data _ _ _ _ _)).
Qed.

(** X16. The team a question names never reaches the store. On an ASCII
    question the orchestrator asks the store for no patient, for the
    team of the hint when the hint is a string that is not empty and for
    no team otherwise, and for a window with both bounds or with none:
    two worlds with the same clock whose stores answer these queries
    alike give the same outcome, whatever they answer to queries for a
    patient, for another team or with one bound. *)
Theorem question_team_never_reaches_store
    (q : string) (user_id team_id : option string) (w w' : World) :
  wall_clock w = wall_clock w' ->
  (forall date_from date_to,
     given date_from = given date_to ->
     get_symptom_data w None (hinted_team team_id) date_from date_to
     = get_symptom_data w' None (hinted_team team_id) date_from date_to) ->
  (forall date_from date_to,
     given date_from = given date_to ->
     get_reaction_time_data w None (hinted_team team_id) date_from date_to
     = get_reaction_time_data w' None (hinted_team team_id) date_from date_to) ->
  fst (process q user_id team_id w) = fst (process q user_id team_id w') /\
  forall c, classify q = Ok c ->
            team_scope team_id (filters c) = hinted_team team_id.
Proof.
  intros Hclock Hs Hr. split.
  - by apply process_asks_hinted_queries.
  - intros c Hc. apply team_scope_hint. by apply (classify_never_finds_team q).
Qed.

(** the question about LSU players gets the same result from a store that
    has no record under any team as from the store of the scenario *)
Lemma question_team_never_reaches_store_witness :
  fst (process lsu_question None None team_world)
  = fst (process lsu_question None None scenario_world).
Proof.
  apply (question_team_never_reaches_store lsu_question None None
           team_world scenario_world); [reflexivity | intros; reflexivity..].
Defined.

(** X17. Over the database service the orchestrator executes, on an ASCII
    question, only statements without patient clause, with the team
    clause exactly when the hint is a string that is not empty, and with
    both date clauses or none: of the sixteen statements each query can
    build it reaches two. Two stores whose sessions answer these
    statements alike give the same outcome, whatever they answer to the
    other statements. *)
Theorem orchestrator_statements
    (q : string) (user_id team_id : option string) (now : datetime)
    (symptoms symptoms' :
       string -> gmap string sql_value -> result (list SymptomRow))
    (reactions reactions' :
       string -> gmap string sql_value -> result (list ReactionRow)) :
  (forall date_from date_to params,
     given date_from = given date_to ->
     let text :=
       fst (DatabaseService.symptom_query None (hinted_team team_id)
              date_from date_to) in
     symptoms text params = symptoms' text params) ->
  (forall date_from date_to params,
     given date_from = given date_to ->
     let text :=
       fst (DatabaseService.reaction_query None (hinted_team team_id)
              date_from date_to) in
     reactions text params = reactions' text params) ->
  fst (process q user_id team_id (store_world now symptoms reactions))
  = fst (process q user_id team_id (store_world now symptoms' reactions')).
Proof.
  intros Hs Hr. apply process_asks_hinted_queries; [done|..].
  - intros f d Hfd. cbn [get_symptom_data store_world].
    unfold DatabaseService.get_symptom_data. cbv zeta. by apply Hs.
  - intros f d Hfd. cbn [get_reaction_time_data store_world].
    unfold DatabaseService.get_reaction_time_data. cbv zeta. by apply Hr.
Qed.

(** a session that refuses every statement with a patient clause serves
    the question about LSU players like one that answers every
    statement *)
Lemma orchestrator_statements_witness :
  fst (process lsu_question None None
         (store_world (at_time 2024 1 15 12 0 0 0) guarded_session no_tests))
  = fst (process lsu_question None None
           (store_world (at_time 2024 1 15 12 0 0 0) open_session no_tests)).
Proof.
  apply (orchestrator_statements lsu_question None None
           (at_time 2024 1 15 12 0 0 0)
           guarded_session open_session no_tests no_tests).
  - intros [f|] [d|] params Hfd; try discriminate Hfd; reflexivity.
  - intros; reflexivity.
Defined.

(** ** The supplementary document, continued *)

(** X18. The fetch of the supplementary document asks the configured bucket
    for the object "assessments/<patient>/<type>/latest.json". When the
    request, the decoding and the parsing succeed it returns the parsed
    document and prints nothing. When one of them raises an [Exception] it
    prints one line, "Error fetching S3 data: " followed by the message of
    the exception, and returns the empty document. An exception that is
    not an [Exception], such as a keyboard interrupt, passes through and
    nothing is printed. *)
Theorem get_s3_assessment_data_prints
    (decode_utf8 : string -> result string)
    (json_loads : string -> result json)
    (patient_id assessment_type : string) (w : World) :
  let key :=
    "assessments/" ++ patient_id ++ "/" ++ assessment_type ++ "/latest.json" in
  get_s3_assessment_data decode_utf8 json_loads patient_id assessment_type w =
    match document_stages decode_utf8 json_loads
            (s3_get_object w (aws_s3_bucket w) key) with
    | Ok document => (Ok document, w)
    | Raise (Error cls msg) =>
        (Ok empty_document, printed w ("Error fetching S3 data: " ++ msg))
    | Raise (Interrupt cls) => (Raise (Interrupt cls), w)
    end.
Proof.
  cbv zeta.
  unfold get_s3_assessment_data, try_except, bind, settings_aws_s3_bucket,
    s3_get, lift, print, ret, s3_key, document_stages, printed.
  destruct (s3_get_object w _ _) as [body|[cls msg|cls]]; [|done|done].
  destruct (decode_utf8 body) as [content|[cls msg|cls]]; [|done|done].
  by destruct (json_loads content) as [doc|[cls msg|cls]].
Qed.

(** ** The queries of the store *)

Lemma truthy_cases (s : option string) :
  (truthy s = false /\ DatabaseService.str_value s = None) \/
  (exists v, s = Some v /\ v <> "" /\ truthy s = true /\
             DatabaseService.str_value s = Some (SqlStr v)).
Proof.
  destruct s as [v|]; [|by left].
  unfold DatabaseService.str_value. simpl.
  destruct (String.eqb_spec v "") as [->|Hne]; simpl; [by left|].
  right. by exists v.
Qed.

(** the cases of a call: each string filter empty or not, each date given
    or not *)
Ltac query_cases p t f d :=
  let v := fresh "v" in
  let Hv := fresh "Hv" in
  let Ht := fresh "Ht" in
  let Hs := fresh "Hs" in
  destruct (truthy_cases p) as [[Ht Hs]|(v & -> & Hv & Ht & Hs)];
  unfold DatabaseService.symptom_query, DatabaseService.reaction_query;
  rewrite ?Ht, ?Hs; clear Ht Hs;
  destruct (truthy_cases t) as [[Ht Hs]|(? & -> & ? & Ht & Hs)];
  rewrite ?Ht, ?Hs; clear Ht Hs;
  destruct f, d.

(** X19. The text of the statement that [get_symptom_data] and
    [get_reaction_time_data] execute is fixed by which filters are set (a
    string that is not empty, a date that is given): two calls that set
    the same filters execute the same text, whatever the values, and two
    calls that set different filters execute different texts. No value
    of an argument becomes part of the text. *)
Theorem statement_text_fixed_by_filters
    (p t : option string) (f d : option datetime)
    (p' t' : option string) (f' d' : option datetime) :
  let same_filters :=
    truthy p = truthy p' /\ truthy t = truthy t' /\
    given f = given f' /\ given d = given d' in
  (fst (DatabaseService.symptom_query p t f d)
     = fst (DatabaseService.symptom_query p' t' f' d') <-> same_filters) /\
  (fst (DatabaseService.reaction_query p t f d)
     = fst (DatabaseService.reaction_query p' t' f' d') <-> same_filters).
Proof.
  cbv zeta.
  assert (Hs : forall p t f d,
    fst (DatabaseService.symptom_query p t f d) =
    fst (DatabaseService.symptom_query
           (if truthy p then Some "x" else None)
           (if truthy t then Some "x" else None)
           (if given f then Some (at_time 1 1 1 0 0 0 0) else None)
           (if given d then Some (at_time 1 1 1 0 0 0 0) else None))).
  { clear. intros p t f d. query_cases p t f d; reflexivity. }
  assert (Hr : forall p t f d,
    fst (DatabaseService.reaction_query p t f d) =
    fst (DatabaseService.reaction_query
           (if truthy p then Some "x" else None)
           (if truthy t then Some "x" else None)
           (if given f then Some (at_time 1 1 1 0 0 0 0) else None)
           (if given d then Some (at_time 1 1 1 0 0 0 0) else None))).
  { clear. intros p t f d. query_cases p t f d; reflexivity. }
  rewrite (Hs p t f d).
  rewrite (Hs p' t' f' d').
  rewrite (Hr p t f d).
  rewrite (Hr p' t' f' d').
  destruct (truthy p), (truthy p'), (truthy t), (truthy t'),
           (given f), (given f'), (given d), (given d').
  all: split; (split; [|by intros (? & ? & ? & ?)]).
  all: intros H; first [by repeat split
                       | apply String.eqb_eq in H; vm_compute in H;
                         discriminate].
Qed.

Lemma add_filter_lookup (clause key : string) (value : option sql_value)
    (q : string * gmap string sql_value) (k : string) :
  snd (DatabaseService.add_filter clause key value q) !! k =
    match value with
    | Some v => if decide (key = k) then Some v else snd q !! k
    | None => snd q !! k
    end.
Proof.
  destruct value as [v|]; simpl; [|done].
  destruct (decide (key = k)) as [->|Hne]; by simplify_map_eq.
Qed.

Lemma str_value_spec (s : option string) (v : sql_value) :
  DatabaseService.str_value s = Some v <->
  exists x, s = Some x /\ x <> "" /\ v = SqlStr x.
Proof.
  destruct (truthy_cases s) as [[Ht ->]|(x & -> & Hx & _ & ->)].
  - split; [done|]. intros (x & -> & Hx & _). simpl in Ht.
    by destruct (String.eqb_spec x "").
  - split.
    + intros [= <-]. by exists x.
    + by intros (y & [= <-] & _ & ->).
Qed.

Lemma symptom_params_lookup (p t : option string) (f d : option datetime)
    (k : string) :
  snd (DatabaseService.symptom_query p t f d) !! k =
    if decide (k = "date_to") then DatabaseService.date_value d
    else if decide (k = "date_from") then DatabaseService.date_value f
    else if decide (k = "team_id") then DatabaseService.str_value t
    else if decide (k = "patient_id") then DatabaseService.str_value p
    else None.
Proof.
  unfold DatabaseService.symptom_query. cbn [snd].
  rewrite !add_filter_lookup. cbn [snd].
  destruct (DatabaseService.date_value d), (DatabaseService.date_value f),
    (DatabaseService.str_value t), (DatabaseService.str_value p);
    repeat case_decide; by simplify_eq.
Qed.

Lemma query_params_agree (p t : option string) (f d : option datetime) :
  snd (DatabaseService.reaction_query p t f d) =
  snd (DatabaseService.symptom_query p t f d).
Proof.
  unfold DatabaseService.symptom_query, DatabaseService.reaction_query.
  cbn [snd].
  by destruct (DatabaseService.date_value d), (DatabaseService.date_value f),
    (DatabaseService.str_value t), (DatabaseService.str_value p).
Qed.

Lemma query_placeholders (p t : option string) (f d : option datetime) :
  let params := snd (DatabaseService.symptom_query p t f d) in
  forall text,
    text = fst (DatabaseService.symptom_query p t f d) \/
    text = fst (DatabaseService.reaction_query p t f d) ->
    (forall k, k ∈ placeholders ->
       (is_Some (params !! k) <-> py_in (":" ++ k) text = true)) /\
    count_char ":" text = size params.
Proof.
  cbv zeta.
  query_cases p t f d.
  all: intros text [->| ->]; cbn [DatabaseService.add_filter DatabaseService.date_value fmap option_fmap option_map fst snd].
  all: split; [intros k Hk; unfold placeholders in Hk;
               repeat (apply elem_of_cons in Hk as [->|Hk]);
               try (by apply elem_of_nil in Hk);
               simplify_map_eq;
               (split; intros Hbound;
                  first [by vm_compute | by eexists | by destruct Hbound
                        | by vm_compute in Hbound])
              |].
  all: rewrite ?map_size_insert, ?map_size_empty; simplify_map_eq; by vm_compute.
Qed.

(** X20. The statement of [get_symptom_data] and the one of
    [get_reaction_time_data] bind the same values. A string filter is
    bound exactly when it is given and not empty, a date exactly when it
    is given, each under its own name and unchanged. Every bound name is
    one of the four placeholders; a placeholder occurs in the text exactly
    when its name is bound, and the text has as many colons as there are
    bound names: no placeholder is left without a value and no value
    without a placeholder. Each function executes this one statement and
    returns or raises as the execution does. The query of the patients of
    a team has one placeholder and binds the team it is given, the empty
    string too. *)
Theorem statement_binds_its_placeholders
    (p t : option string) (f d : option datetime) :
  let symptom := DatabaseService.symptom_query p t f d in
  let reaction := DatabaseService.reaction_query p t f d in
  (forall Row (execute : string -> gmap string sql_value -> result (list Row)),
     DatabaseService.get_symptom_data execute p t f d
       = execute (fst symptom) (snd symptom) /\
     DatabaseService.get_reaction_time_data execute p t f d
       = execute (fst reaction) (snd reaction)) /\
  snd reaction = snd symptom /\
  (forall v, snd symptom !! "patient_id" = Some v <->
             exists x, p = Some x /\ x <> "" /\ v = SqlStr x) /\
  (forall v, snd symptom !! "team_id" = Some v <->
             exists x, t = Some x /\ x <> "" /\ v = SqlStr x) /\
  snd symptom !! "date_from" = SqlDate <$> f /\
  snd symptom !! "date_to" = SqlDate <$> d /\
  (forall k, is_Some (snd symptom !! k) -> k ∈ placeholders) /\
  (forall text, text = fst symptom \/ text = fst reaction ->
     (forall k, k ∈ placeholders ->
        (is_Some (snd symptom !! k) <-> py_in (":" ++ k) text = true)) /\
     count_char ":" text = size (snd symptom)) /\
  (forall Row (execute : string -> gmap string sql_value -> result (list Row))
          (team : string),
     DatabaseService.get_patients_by_team execute team
       = execute DatabaseService.patients_query
           {[ "team_id" := SqlStr team ]}) /\
  py_in ":team_id" DatabaseService.patients_query = true /\
  count_char ":" DatabaseService.patients_query = 1%nat.
Proof.
  cbv zeta. split; [done|]. split; [apply query_params_agree|].
  split; [|split; [|split; [|split; [|split; [|split; [|done]]]]]].
  - intros v. rewrite symptom_params_lookup.
    repeat (case_decide; [done|]). apply str_value_spec.
  - intros v. rewrite symptom_params_lookup.
    repeat (case_decide; [done|]). apply str_value_spec.
  - by rewrite symptom_params_lookup.
  - by rewrite symptom_params_lookup.
  - intros k. rewrite symptom_params_lookup. unfold placeholders.
    repeat (case_decide; [subst k; intros _; in_literals|]).
    by intros [? [=]].
  - apply query_placeholders.
Qed.

(** ** The endpoint of the API *)

(** X21. The endpoint lets no [Exception] pass: when the construction of the
    processor or the processing raises one, the endpoint raises an
    [HTTPException] with status 500 and the detail "Query processing
    failed: " followed by the message of the exception, and it raises no
    other [HTTPException]. So a question with a date and no period phrase,
    whose classification fails, is answered with status 500 and a detail
    of this form, whatever the store holds. When the processing returns,
    the endpoint returns its answer, confidence, source modules and
    metadata unchanged. The [user_id] of the request is not used, and the
    processing gets the [team_id] of the request as its hint. *)
Theorem endpoint_replies
    (lower : string -> string) (word_char : ascii -> bool)
    (QueryProcessor_init : Py unit) (request : QueryRequest) (w : World) :
  let reply := Api.process_query lower word_char QueryProcessor_init request in
  let failed msg := HTTPException 500 ("Query processing failed: " ++ msg) in
  (forall cls msg, fst (reply w) <> Passes (Error cls msg)) /\
  (forall status detail,
     fst (reply w) = HTTPException status detail ->
     status = 500%Z /\
     exists msg, detail = "Query processing failed: " ++ msg) /\
  (forall cls msg w1,
     QueryProcessor_init w = (Raise (Error cls msg), w1) ->
     reply w = (failed msg, w1)) /\
  (forall w1,
     QueryProcessor_init w = (Ok tt, w1) ->
     let run :=
       process_query lower word_char (request_question request)
         None (request_team_id request) w1 in
     (forall res, fst run = Ok res -> reply w = (Returns (response_of res), w1)) /\
     (forall cls msg,
        fst run = Raise (Error cls msg) -> reply w = (failed msg, w1)) /\
     (forall dates,
        _extract_time_range word_char (lower (request_question request))
          = Some (CustomDates dates) ->
        exists msg, reply w = (failed msg, w1))) /\
  (forall user_id,
     Api.process_query lower word_char QueryProcessor_init
       {| request_question := request_question request;
          request_user_id := user_id;
          request_team_id := request_team_id request |} w
     = reply w).
Proof.
  cbv zeta. unfold Api.process_query, bind, ret.
  split; [|split; [|split; [|split; [|done]]]].
  - intros cls msg.
    destruct (QueryProcessor_init w) as [[[]|[c m|c]] w1]; [|done|done].
    by destruct (process_query _ _ _ _ _ w1) as [[res|[c m|c]] w2].
  - intros status detail.
    destruct (QueryProcessor_init w) as [[[]|[c m|c]] w1];
      [|intros [= <- <-]; split; [done|by exists m]|done].
    destruct (process_query _ _ _ _ _ w1) as [[res|[c m|c]] w2]; [done| |done].
    intros [= <- <-]. split; [done|by exists m].
  - intros cls msg w1 ->. done.
  - intros w1 ->.
    pose proof (process_query_keeps_world lower word_char
                  (request_question request) None (request_team_id request)
                  w1) as Hw.
    destruct (process_query _ _ _ _ _ w1) as [r w2] eqn:Hrun.
    cbn [fst snd] in *. subst w2.
    split; [|split].
    + by intros res ->.
    + by intros cls msg ->.
    + intros dates Hdates.
      assert (Hr : r = Raise validation_error).
      { pose proof (f_equal fst Hrun) as Hf. cbn [fst] in Hf.
        rewrite process_query_run, classify_query_cases in Hf.
        cbv zeta in Hf. rewrite Hdates in Hf. done. }
      rewrite Hr. by eexists.
Qed.
